(** * grocereez-api: the receipt pipeline (parser, validator, quality scoring,
      field mapper) as a shallow embedding.

    Embedded sources:
    - [src/services/ocrService.js]   class [OCRService]
    - [src/unnamed/part_009]         class [AIDataParser] (enhancement steps,
                                     quality metrics)
    - [src/unnamed/part_003]         class [CustomFieldMapper]

    The functions are JavaScript over loosely shaped JSON, so the first
    module fixes the fragment of ECMAScript they rely on: strings as
    sequences of UTF-16 code units, numbers as IEEE binary64 (Rocq's
    primitive floats), JSON values, the coercions [ToString], [ToNumber],
    [ToBoolean], and exceptions as an error monad. *)

From Stdlib Require Import ZArith NArith List Bool Lia.
From Stdlib Require Import Ascii String.
From Stdlib Require Import PrimFloat FloatOps SpecFloat FloatAxioms.
Import ListNotations.
Set Warnings "-register-all,-inexact-float".

Module JS.

(** ** Strings: sequences of UTF-16 code units *)

Definition code_unit := N.
Definition jstring := list code_unit.

(** Source literals are written as Rocq strings (UTF-8 bytes) and decoded:
    [utf8_points] reads the code points, [utf16] re-encodes them. *)
Fixpoint utf8_points (l : list N) (acc : N) (need : nat) : list N :=
  match l with
  | [] => []
  | b :: tl =>
    match need with
    | S k =>
      let acc' := (acc * 64 + b mod 64)%N in
      match k with
      | O => acc' :: utf8_points tl 0%N O
      | _ => utf8_points tl acc' k
      end
    | O =>
      if (b <? 128)%N then b :: utf8_points tl 0%N O
      else if (b <? 224)%N then utf8_points tl (b mod 32)%N 1
      else if (b <? 240)%N then utf8_points tl (b mod 16)%N 2
      else utf8_points tl (b mod 8)%N 3
    end
  end.

Definition utf16 (cp : N) : jstring :=
  if (cp <? 65536)%N then [cp]
  else let c := (cp - 65536)%N in [(55296 + c / 1024)%N; (56320 + c mod 1024)%N].

Definition js (s : string) : jstring :=
  flat_map utf16 (utf8_points (map N_of_ascii (list_ascii_of_string s)) 0%N O).

Definition unit_eqb (a b : code_unit) : bool := N.eqb a b.

Fixpoint jstring_eqb (a b : jstring) : bool :=
  match a, b with
  | [], [] => true
  | x :: a', y :: b' => unit_eqb x y && jstring_eqb a' b'
  | _, _ => false
  end.

(** WhiteSpace and LineTerminator code points: what [trim] and the regular
    expression class [\s] remove. *)
Definition is_ws (c : code_unit) : bool :=
  ((9 <=? c) && (c <=? 13) || (c =? 32) || (c =? 160) || (c =? 5760)
   || (8192 <=? c) && (c <=? 8202) || (c =? 8232) || (c =? 8233)
   || (c =? 8239) || (c =? 8287) || (c =? 12288) || (c =? 65279))%N.

(** [\d] *)
Definition is_digit (c : code_unit) : bool := ((48 <=? c) && (c <=? 57))%N.

(** [\w] *)
Definition is_word (c : code_unit) : bool :=
  (is_digit c || (65 <=? c) && (c <=? 90) || (97 <=? c) && (c <=? 122) || (c =? 95))%N.

Fixpoint drop_ws (s : jstring) : jstring :=
  match s with
  | c :: tl => if is_ws c then drop_ws tl else s
  | [] => []
  end.

Definition trim (s : jstring) : jstring := rev (drop_ws (rev (drop_ws s))).

(** [String.prototype.toLowerCase].  Every use in the embedded sources feeds
    the result to [includes] with an ASCII pattern, so the mapping is given
    on the code units that can produce an ASCII letter: A-Z, U+212A KELVIN
    SIGN (to k) and U+0130 (to i followed by U+0307).  Every other
    code unit lower-cases to non-ASCII code units; it is left in place, which
    gives the same ASCII substrings. *)
Definition lower_unit (c : code_unit) : jstring :=
  if ((65 <=? c) && (c <=? 90))%N then [(c + 32)%N]
  else if (c =? 8490)%N then [107%N]
  else if (c =? 304)%N then [105%N; 775%N]
  else [c].

Definition toLowerCase (s : jstring) : jstring := flat_map lower_unit s.

Fixpoint starts_with (p s : jstring) : bool :=
  match p, s with
  | [], _ => true
  | x :: p', y :: s' => unit_eqb x y && starts_with p' s'
  | _ :: _, [] => false
  end.

(** [String.prototype.includes] *)
Fixpoint includes (s p : jstring) : bool :=
  starts_with p s ||
  match s with
  | [] => false
  | _ :: tl => includes tl p
  end.

(** [s.split(sep)] for a one-unit separator: never empty. *)
Fixpoint split_on (sep : code_unit) (s : jstring) : list jstring :=
  match s with
  | [] => [[]]
  | c :: tl =>
    if unit_eqb c sep then [] :: split_on sep tl
    else match split_on sep tl with
         | h :: r => (c :: h) :: r
         | [] => [[c]]
         end
  end.

(** [s.replace(/[...]/g, '')] for a character class given as a predicate. *)
Definition remove_class (cls : code_unit -> bool) (s : jstring) : jstring :=
  filter (fun c => negb (cls c)) s.

(** ** Numbers: IEEE binary64, with exact conversions through [Z]

    [round_ratio neg n d] is the binary64 value nearest to [n/d] (ties to
    even), for [0 <= n] and [0 < d]: the quotient is taken with at least 64
    significant bits and handed, with the position of the remainder, to the
    library's rounding. *)
Definition round_ratio (neg : bool) (n d : Z) : float :=
  if (n =? 0)%Z then (if neg then neg_zero else zero)
  else
    let k := Z.max 0 (64 + Z.log2 d - Z.log2 n) in
    let (q, r) := Z.div_eucl (Z.shiftl n k) d in
    SF2Prim (binary_round_aux prec emax neg q (- k) (new_location d r)).

(** The exact value of a finite non-zero float as a fraction [(n, d)] of its
    absolute value. *)
Definition exact_ratio (m : positive) (e : Z) : Z * Z :=
  if (0 <=? e)%Z then (Z.shiftl (Zpos m) e, 1%Z) else (Zpos m, Z.shiftl 1 (- e)).

Definition pow10 (k : Z) : Z := Z.pow 10 k.

(** [n/d] scaled by [10^k], as a fraction. *)
Definition scale10 (n d k : Z) : Z * Z :=
  if (0 <=? k)%Z then (n * pow10 k, d)%Z else (n, d * pow10 (- k))%Z.

Fixpoint digits_fuel (fuel : nat) (n : Z) (acc : jstring) : jstring :=
  match fuel with
  | O => acc
  | S f =>
    let acc' := Z.to_N (48 + n mod 10) :: acc in
    if (n / 10 =? 0)%Z then acc' else digits_fuel f (n / 10) acc'
  end.

(** Decimal digits of a non-negative integer. *)
Definition decimal_digits (n : Z) : jstring :=
  digits_fuel (S (Z.to_nat (Z.log2 n))) n [].

Definition float_eqb (a b : float) : bool := PrimFloat.Leibniz.eqb a b.

(** The decimal exponent [p] of [n/d > 0]: [10^(p-1) <= n/d < 10^p]. *)
Definition below_pow10 (n d p : Z) : bool :=
  let (a, b) := scale10 n d (- p) in (a <? b)%Z.

Fixpoint adjust_exp (fuel : nat) (n d p : Z) : Z :=
  match fuel with
  | O => p
  | S f =>
    if negb (below_pow10 n d p) then adjust_exp f n d (p + 1)
    else if below_pow10 n d (p - 1) then adjust_exp f n d (p - 1)
    else p
  end.

Definition decimal_exponent (n d : Z) : Z :=
  adjust_exp 8 n d (((Z.log2 n - Z.log2 d) * 30103) / 100000)%Z.

(** *** [Number::toString] (radix 10)

    The shortest digit string [s] (of [k] digits, scaled by [10^(p-k)]) that
    reads back as the same float; among the candidates of that length, the
    one nearest to the exact value. *)
Definition reads_back (neg : bool) (x : float) (s p k : Z) : bool :=
  let (a, b) := scale10 s 1 (p - k) in float_eqb (round_ratio neg a b) x.

Fixpoint shortest_digits (fuel : nat) (neg : bool) (x : float) (n d p k : Z) : Z * Z * Z :=
  let (a, b) := scale10 n d (k - p) in
  let lo := (a / b)%Z in
  let hi := (lo + 1)%Z in
  let r := (a mod b)%Z in
  let ok_lo := reads_back neg x lo p k in
  let ok_hi := reads_back neg x hi p k in
  let pick_hi :=
    if ok_lo && ok_hi then
      match (2 * r ?= b)%Z with
      | Lt => false
      | Gt => true
      | Eq => Z.odd lo
      end
    else ok_hi in
  let norm s := if (s =? pow10 k)%Z then (1, 1, p + 1)%Z else (s, k, p) in
  match fuel with
  | O => norm (if pick_hi then hi else lo)
  | S f =>
    if ok_lo || ok_hi then norm (if pick_hi then hi else lo)
    else shortest_digits f neg x n d p (k + 1)
  end.

Definition zeros (k : Z) : jstring := repeat 48%N (Z.to_nat k).

Definition format_decimal (s k p : Z) : jstring :=
  let ds := decimal_digits s in
  if ((-6 <? p) && (p <=? 21))%Z then
    if (k <=? p)%Z then ds ++ zeros (p - k)
    else if (0 <? p)%Z then
      firstn (Z.to_nat p) ds ++ [46%N] ++ skipn (Z.to_nat p) ds
    else [48%N; 46%N] ++ zeros (- p) ++ ds
  else
    let e := (p - 1)%Z in
    let ex := (if (e <? 0)%Z then [45%N] else [43%N]) ++ decimal_digits (Z.abs e) in
    match ds with
    | c :: (_ :: _) as tl => [c; 46%N] ++ tl ++ [101%N] ++ ex
    | _ => ds ++ [101%N] ++ ex
    end.

Definition Number_toString (x : float) : jstring :=
  match Prim2SF x with
  | S754_nan => js "NaN"
  | S754_zero _ => js "0"
  | S754_infinity s => (if s then [45%N] else []) ++ js "Infinity"
  | S754_finite s m e =>
    let (n, d) := exact_ratio m e in
    let p := decimal_exponent n d in
    let '(sd, k, p') := shortest_digits 17 false (abs x) n d p 1 in
    (if s then [45%N] else []) ++ format_decimal sd k p'
  end.

(** *** [Number.prototype.toFixed(2)] *)
Definition toFixed2 (x : float) : jstring :=
  match Prim2SF x with
  | S754_finite s m e =>
    let (n, d) := exact_ratio m e in
    if (pow10 21 * d <=? n)%Z then Number_toString x
    else
      let c := ((2 * 100 * n + d) / (2 * d))%Z in
      let ds := decimal_digits c in
      let ds := zeros (3 - Z.of_nat (List.length ds)) ++ ds in
      let cut := (List.length ds - 2)%nat in
      (if s then [45%N] else []) ++ firstn cut ds ++ [46%N] ++ skipn cut ds
  | S754_zero _ => js "0.00"
  | _ => Number_toString x
  end.

(** *** Reading numbers: the grammar [StrDecimalLiteral]

    [take_digits] splits off the leading decimal digits. *)
Fixpoint take_digits (s : jstring) : jstring * jstring :=
  match s with
  | c :: tl =>
    if is_digit c then let (ds, r) := take_digits tl in (c :: ds, r) else ([], s)
  | [] => ([], [])
  end.

Definition digits_value (ds : jstring) : Z :=
  fold_left (fun acc c => (acc * 10 + (Z.of_N c - 48))%Z) ds 0%Z.

(** The value of the digits [ds] scaled by [10^e].  Exponents far outside
    the binary64 range are decided without computing the power. *)
Definition decimal_value (neg : bool) (ds : jstring) (e : Z) : float :=
  let m := digits_value ds in
  if (m =? 0)%Z then (if neg then neg_zero else zero)
  else if (400 <? e)%Z then (if neg then neg_infinity else infinity)
  else if (e + Z.of_nat (List.length ds) <? -400)%Z then (if neg then neg_zero else zero)
  else let (a, b) := scale10 m 1 e in round_ratio neg a b.

(** [ExponentPart], when one is present at the head of [s]. *)
Definition take_exponent (s : jstring) : Z * jstring :=
  match s with
  | c :: tl =>
    if ((c =? 101) || (c =? 69))%N then
      let '(sg, tl') :=
        match tl with
        | c' :: t' =>
          if (c' =? 45)%N then (true, t')
          else if (c' =? 43)%N then (false, t') else (false, tl)
        | [] => (false, tl)
        end in
      let (ds, r) := take_digits tl' in
      match ds with
      | [] => (0%Z, s)
      | _ => ((if sg then - digits_value ds else digits_value ds)%Z, r)
      end
    else (0%Z, s)
  | [] => (0%Z, s)
  end.

(** [StrUnsignedDecimalLiteral] at the head of [s1], negated when [neg]. *)
Definition read_unsigned (neg : bool) (s1 : jstring) : option (float * jstring) :=
  if starts_with (js "Infinity") s1 then
    Some (if neg then neg_infinity else infinity, skipn 8 s1)
  else
    let (ip, s2) := take_digits s1 in
    let '(fp, s3) :=
      match s2 with
      | c :: tl =>
        if (c =? 46)%N then take_digits tl else ([], s2)
      | [] => ([], s2)
      end in
    match ip, fp with
    | [], [] => None
    | _, _ =>
      let (e, s4) := take_exponent s3 in
      Some (decimal_value neg (ip ++ fp) (e - Z.of_nat (List.length fp)), s4)
    end.

(** The longest prefix of [s] that is a [StrDecimalLiteral], as its value
    and the rest of the string. *)
Definition read_decimal (s : jstring) : option (float * jstring) :=
  match s with
  | c :: tl =>
    if (c =? 45)%N then read_unsigned true tl
    else if (c =? 43)%N then read_unsigned false tl
    else read_unsigned false s
  | [] => read_unsigned false s
  end.

(** Global [parseFloat] on a string. *)
Definition parseFloat_string (s : jstring) : float :=
  match read_decimal (drop_ws s) with
  | Some (x, _) => x
  | None => nan
  end.

(** [0x], [0o], [0b] literals of [StringToNumber]. *)
Definition digit_in_base (base : Z) (c : code_unit) : option Z :=
  let v :=
    if is_digit c then (Z.of_N c - 48)%Z
    else if ((97 <=? c) && (c <=? 102))%N then (Z.of_N c - 87)%Z
    else if ((65 <=? c) && (c <=? 70))%N then (Z.of_N c - 55)%Z
    else 99%Z in
  if (v <? base)%Z then Some v else None.

Fixpoint read_base (base : Z) (s : jstring) (acc : Z) : option Z :=
  match s with
  | [] => Some acc
  | c :: tl =>
    match digit_in_base base c with
    | Some v => read_base base tl (acc * base + v)%Z
    | None => None
    end
  end.

Definition read_non_decimal (s : jstring) : option float :=
  match s with
  | 48%N :: c :: (_ :: _) as ds =>
    let base :=
      if ((c =? 120) || (c =? 88))%N then 16%Z
      else if ((c =? 111) || (c =? 79))%N then 8%Z
      else if ((c =? 98) || (c =? 66))%N then 2%Z else 0%Z in
    if (base =? 0)%Z then None
    else option_map (fun v => round_ratio false v 1) (read_base base ds 0%Z)
  | _ => None
  end.

(** [StringToNumber]: the whole trimmed string has to be a numeric literal. *)
Definition StringToNumber (s : jstring) : float :=
  let t := trim s in
  match t with
  | [] => zero
  | _ =>
    match read_non_decimal t with
    | Some x => x
    | None =>
      match read_decimal t with
      | Some (x, []) => x
      | _ => nan
      end
    end
  end.

(** *** [Math.round], [Math.min]

    [Math.round x] is the integer nearest to [x], ties towards +infinity;
    it is computed on the exact value.  A result of zero keeps the sign of
    [x]; a float of magnitude [2^52] or more is already an integer. *)
Definition float_of_Z (z : Z) : float :=
  if (z <? 0)%Z then round_ratio true (- z) 1 else round_ratio false z 1.

Definition Math_round (x : float) : float :=
  match Prim2SF x with
  | S754_finite s m e =>
    if (0 <=? e)%Z then x
    else
      let d := Z.shiftl 1 (- e) in
      let n := if s then Zneg m else Zpos m in
      let r := ((2 * n + d) / (2 * d))%Z in
      if (r =? 0)%Z then (if s then neg_zero else zero) else float_of_Z r
  | _ => x
  end.

Definition Math_min (a b : float) : float :=
  if is_nan a || is_nan b then nan
  else if PrimFloat.ltb a b then a
  else if PrimFloat.ltb b a then b
  else if get_sign a then a else b.

(** ** Values: what [JSON.parse] can produce, and [undefined] *)
Inductive value : Type :=
| VUndef
| VNull
| VBool (b : bool)
| VNum (x : float)
| VStr (s : jstring)
| VArr (elems : list value)
| VObj (fields : list (jstring * value)).

(** [ToBoolean] *)
Definition truthy (v : value) : bool :=
  match v with
  | VUndef | VNull => false
  | VBool b => b
  | VNum x => negb (is_zero x || is_nan x)
  | VStr s => match s with [] => false | _ => true end
  | VArr _ | VObj _ => true
  end.

(** [a || b] and [a && b] on values *)
Definition js_or (a b : value) : value := if truthy a then a else b.
Definition js_and (a b : value) : value := if truthy a then b else a.

(** ** Exceptions *)
Inductive exn : Type :=
| TypeError
| Error (message : jstring).

Inductive result (A : Type) : Type :=
| Ok (a : A)
| Throw (e : exn).
Arguments Ok {A} a.
Arguments Throw {A} e.

Definition bind {A B} (m : result A) (f : A -> result B) : result B :=
  match m with
  | Ok a => f a
  | Throw e => Throw e
  end.

(** [try { m } catch (error) { h }] *)
Definition try_catch {A} (m : result A) (h : exn -> result A) : result A :=
  match m with
  | Ok a => Ok a
  | Throw e => h e
  end.

Fixpoint mapM {A B} (f : A -> result B) (l : list A) : result (list B) :=
  match l with
  | [] => Ok []
  | x :: tl =>
    bind (f x) (fun y => bind (mapM f tl) (fun ys => Ok (y :: ys)))
  end.

Fixpoint filterM {A} (f : A -> result bool) (l : list A) : result (list A) :=
  match l with
  | [] => Ok []
  | x :: tl =>
    bind (f x) (fun b => bind (filterM f tl) (fun ys => Ok (if b then x :: ys else ys)))
  end.

(** [l.reduce(f, acc)] *)
Fixpoint foldM {A B} (f : B -> A -> result B) (l : list A) (acc : B) : result B :=
  match l with
  | [] => Ok acc
  | x :: tl => bind (f acc x) (fun acc' => foldM f tl acc')
  end.

(** ** Coercions

    [fields] has an own property named [k].  An object made by [JSON.parse]
    holds no function, so an own [toString] hides the callable one of
    [Object.prototype]. *)
Definition has_own (k : string) (fields : list (jstring * value)) : bool :=
  existsb (fun p => jstring_eqb (js k) (fst p)) fields.

(** [ToString], as [String(v)], a template literal and string concatenation
    apply it.  An array joins its elements with commas ([null] and
    [undefined] elements print as nothing); a plain object prints as
    [[object Object]] through [Object.prototype.toString], unless it has an
    own [toString]: that one is not callable, [valueOf] returns the object
    itself, and the conversion ends in a [TypeError]. *)
Fixpoint ToString (v : value) : result jstring :=
  match v with
  | VUndef => Ok (js "undefined")
  | VNull => Ok (js "null")
  | VBool b => Ok (if b then js "true" else js "false")
  | VNum x => Ok (Number_toString x)
  | VStr s => Ok s
  | VArr l =>
    (fix join (l : list value) : result jstring :=
       match l with
       | [] => Ok []
       | x :: tl =>
         bind (match x with VUndef | VNull => Ok [] | _ => ToString x end) (fun sx =>
         match tl with
         | [] => Ok sx
         | _ => bind (join tl) (fun rest => Ok (sx ++ [44%N] ++ rest))
         end)
       end) l
  | VObj fields =>
    if has_own "toString" fields then Throw TypeError else Ok (js "[object Object]")
  end.

(** [ToPrimitive]: arrays and plain objects go through [toString], with
    either hint ([valueOf] returns the object itself). *)
Definition ToPrimitive (v : value) : result value :=
  match v with
  | VArr _ | VObj _ => bind (ToString v) (fun s => Ok (VStr s))
  | _ => Ok v
  end.

(** [ToNumber] and [ToString] of a primitive *)
Definition number_of_primitive (p : value) : float :=
  match p with
  | VUndef => nan
  | VNull => zero
  | VBool b => if b then one else zero
  | VNum x => x
  | VStr s => StringToNumber s
  | _ => nan
  end.

Definition string_of_primitive (p : value) : jstring :=
  match p with
  | VUndef => js "undefined"
  | VNull => js "null"
  | VBool b => if b then js "true" else js "false"
  | VNum x => Number_toString x
  | VStr s => s
  | _ => []
  end.

(** [ToNumber] *)
Definition ToNumber (v : value) : result float :=
  bind (ToPrimitive v) (fun p => Ok (number_of_primitive p)).

(** The binary [+]: both operands are made primitive, left to right;
    concatenation as soon as one side is a string. *)
Definition js_add (a b : value) : result value :=
  bind (ToPrimitive a) (fun pa =>
  bind (ToPrimitive b) (fun pb =>
  Ok (match pa, pb with
      | VStr s, _ => VStr (s ++ string_of_primitive pb)
      | _, VStr s => VStr (string_of_primitive pa ++ s)
      | _, _ => VNum (number_of_primitive pa + number_of_primitive pb)
      end))).

(** [a / b] *)
Definition js_div (a b : value) : result float :=
  bind (ToNumber a) (fun x => bind (ToNumber b) (fun y => Ok (x / y)%float)).

(** Global [parseFloat] *)
Definition parseFloat (v : value) : result float :=
  bind (ToString v) (fun s => Ok (parseFloat_string s)).

Fixpoint lookup (k : jstring) (fields : list (jstring * value)) : value :=
  match fields with
  | [] => VUndef
  | (k', v) :: tl => if jstring_eqb k k' then v else lookup k tl
  end.

Definition is_undefined (v : value) : bool :=
  match v with VUndef => true | _ => false end.

Definition is_nullish (v : value) : bool :=
  match v with VUndef | VNull => true | _ => false end.

(** The data property [k] of a value that is neither [undefined] nor
    [null]: the own property of an object, [length] of a string or an array,
    [undefined] otherwise (the names read by the embedded sources are not
    inherited properties). *)
Definition field (o : value) (k : string) : value :=
  match o with
  | VObj fs => lookup (js k) fs
  | VArr l =>
    if jstring_eqb (js k) (js "length") then VNum (float_of_Z (Z.of_nat (List.length l)))
    else VUndef
  | VStr s =>
    if jstring_eqb (js k) (js "length") then VNum (float_of_Z (Z.of_nat (List.length s)))
    else VUndef
  | _ => VUndef
  end.

(** [o.k]: a [TypeError] on [undefined] and [null]. *)
Definition get (o : value) (k : string) : result value :=
  if is_nullish o then Throw TypeError else Ok (field o k).

(** [a[i]] for a literal index [i] *)
Definition get_index (a : value) (i : nat) : result value :=
  match a with
  | VUndef | VNull => Throw TypeError
  | VArr l => Ok (nth i l VUndef)
  | VStr s => Ok (match nth_error s i with Some c => VStr [c] | None => VUndef end)
  | VObj fs => Ok (lookup (decimal_digits (Z.of_nat i)) fs)
  | _ => Ok VUndef
  end.

(** A method call [v.m(...)] for a string method [m]: only strings have it;
    on [undefined] and [null] the property read fails, on any other value
    the call of [undefined] does. *)
Definition as_string (v : value) : result jstring :=
  match v with
  | VStr s => Ok s
  | _ => Throw TypeError
  end.

(** [v === 'lit'] for a string literal *)
Definition is_literal (v : value) (lit : string) : bool :=
  match v with
  | VStr s => jstring_eqb s (js lit)
  | _ => false
  end.

(** [Math.floor], on the exact value; a float with a non-negative exponent
    is an integer already. *)
Definition Math_floor (x : float) : float :=
  match Prim2SF x with
  | S754_finite s m e =>
    if (0 <=? e)%Z then x
    else
      let d := Z.shiftl 1 (- e) in
      let n := if s then Zneg m else Zpos m in
      let r := (n / d)%Z in
      if (r =? 0)%Z then zero else float_of_Z r
  | _ => x
  end.

(** [Math.max] of two numbers *)
Definition Math_max (a b : float) : float :=
  if is_nan a || is_nan b then nan
  else if PrimFloat.ltb a b then b
  else if PrimFloat.ltb b a then a
  else if get_sign a then b else a.

End JS.

Notation "x <- m ;; k" := (JS.bind m (fun x => k))
  (at level 61, m at next level, right associativity).

Import JS.

(** * [src/services/ocrService.js]: class [OCRService] *)
Module OCRService.

(** One parsed line item, as built by the [map] callback of
    [parseTabScannerResponse].  [unitPrice] is a number or [null]. *)
Record Item : Type := mkItem {
  name : value;
  quantity : float;
  unitPrice : option float;
  totalPrice : float;
  category : value;
  confidence : float
}.

(** [result.receipt]; [total], [tax], [subtotal] hold a number or [null]. *)
Record Receipt : Type := mkReceipt {
  merchant : value;
  address : value;
  phone : value;
  date : value;
  time : value;
  total : option float;
  tax : option float;
  subtotal : option float;
  items : list Item
}.

(** The object returned by [parseTabScannerResponse]: the [catch] branch
    returns one with an [error] and without a [receipt].  [ocr_confidence]
    is its field [confidence] (the items have a [confidence] too). *)
Record OCRResult : Type := mkOCRResult {
  success : bool;
  error : option jstring;
  ocr_confidence : float;
  rawText : jstring;
  receipt : option Receipt;
  rawData : value
}.

(** The object returned by [validateOCRResult]. *)
Record Validation : Type := mkValidation {
  isValid : bool;
  errors : list jstring;
  warnings : list jstring
}.

(** [x || d] for [x] a number or [null] and [d] a number *)
Definition num_or (x : option float) (d : float) : float :=
  match x with
  | Some a => if truthy (VNum a) then a else d
  | None => d
  end.

(** [x || null] for [x] a number or [null] *)
Definition num_or_null (x : option float) : option float :=
  match x with
  | Some a => if truthy (VNum a) then Some a else None
  | None => None
  end.

(** The class [[$€£¥₹]] *)
Definition is_currency (c : code_unit) : bool :=
  ((c =? 36) || (c =? 8364) || (c =? 163) || (c =? 165) || (c =? 8377))%N.

(** The class [[\d.-]] *)
Definition is_amount_char (c : code_unit) : bool :=
  (is_digit c || (c =? 46) || (c =? 45))%N.

(** [cleanAmount] of [parseAmount]: the two [replace] calls. *)
Definition cleanAmount (s : jstring) : jstring :=
  remove_class (fun c => negb (is_amount_char c)) (remove_class is_currency s).

(** [parseAmount(amount)]: [None] is [null]; [String(amount)] can throw. *)
Definition parseAmount (amount : value) : result (option float) :=
  if negb (truthy amount) then Ok None
  else
    s <- ToString amount ;;
    let parsed := parseFloat_string (cleanAmount s) in
    Ok (if is_nan parsed then None else Some parsed).

Definition money_line (label : string) (x : option float) : jstring :=
  match x with
  | Some a => if truthy (VNum a) then js label ++ toFixed2 a ++ [10%N] else []
  | None => []
  end.

(** [if (v) { text += `label${v}\n` }]: the line that is added *)
Definition text_line (label : string) (v : value) : result jstring :=
  if truthy v then s <- ToString v ;; Ok (js label ++ s ++ [10%N]) else Ok [].

(** The callback of [receipt.items.forEach]: the line that is added *)
Definition item_line (item : Item) : result jstring :=
  let qty :=
    if PrimFloat.ltb 1 (quantity item) then Number_toString (quantity item) ++ js "x "
    else [] in
  nm <- ToString (name item) ;;
  Ok (qty ++ nm
          ++ (if truthy (VNum (totalPrice item)) then js " $" ++ toFixed2 (totalPrice item)
              else [])
          ++ [10%N]).

(** [generateRawTextSummary(receipt)] *)
Definition generateRawTextSummary (r : Receipt) : result jstring :=
  l1 <- text_line "" (merchant r) ;;
  l2 <- text_line "" (address r) ;;
  l3 <- text_line "Phone: " (phone r) ;;
  l4 <- text_line "Date: " (date r) ;;
  ls <- mapM item_line (items r) ;;
  Ok (l1 ++ l2 ++ l3
      ++ [10%N]
      ++ l4
      ++ [10%N]
      ++ List.concat ls
      ++ [10%N]
      ++ money_line "Subtotal: $" (subtotal r)
      ++ money_line "Tax: $" (tax r)
      ++ money_line "Total: $" (total r)).

(** The default confidence of a parsed response without confidence fields *)
Definition DEFAULT_CONFIDENCE : float := 0.9%float.

(** The receipt of the initial [result] object *)
Definition empty_receipt : Receipt :=
  mkReceipt VNull VNull VNull VNull VNull None None None [].

(** The [filter] callback: [item.descClean && item.lineTotal] *)
Definition keep_item (item : value) : result bool :=
  descClean <- get item "descClean" ;;
  if truthy descClean then
    lineTotal <- get item "lineTotal" ;; Ok (truthy lineTotal)
  else Ok false.

(** The [map] callback *)
Definition parse_item (item : value) : result Item :=
  descClean <- get item "descClean" ;;
  nm <- (if truthy descClean then Ok descClean
         else desc <- get item "desc" ;; Ok (js_or desc (VStr (js "Unknown Item")))) ;;
  qty <- get item "qty" ;;
  q <- parseFloat qty ;;
  price <- get item "price" ;;
  unitPrice_ <- parseAmount price ;;
  lineTotal <- get item "lineTotal" ;;
  totalPrice_ <- parseAmount lineTotal ;;
  Ok (mkItem nm
             (if truthy (VNum q) then q else one)
             (num_or_null unitPrice_)
             (num_or totalPrice_ zero)
             VNull
             one).

(** [confidenceScores.reduce((sum, score) => sum + score, 0) / length] *)
Definition average (scores : list value) : result float :=
  sum <- foldM js_add scores (VNum zero) ;;
  js_div sum (VNum (float_of_Z (Z.of_nat (List.length scores)))).

(** [if (confidenceScores.length > 0) { mean } else { default }] *)
Definition overall_confidence (confidenceScores : list value) : result float :=
  match confidenceScores with
  | [] => Ok DEFAULT_CONFIDENCE
  | _ => average confidenceScores
  end.

(** The body of the [try] block of [parseTabScannerResponse]. *)
Definition parse_try (tabScannerData : value) : result OCRResult :=
  res <- get tabScannerData "result" ;;
  if truthy res then
    establishment <- get res "establishment" ;;
    addr <- get res "address" ;;
    phoneNumber <- get res "phoneNumber" ;;
    dateISO <- get res "dateISO" ;;
    d <- (if truthy dateISO then
            parts <- (s <- as_string dateISO ;; Ok (split_on 84%N s)) ;;
            Ok (VStr (nth 0 parts []))
          else get res "date") ;;
    t <- (if truthy dateISO then
            parts <- (s <- as_string dateISO ;; Ok (split_on 84%N s)) ;;
            Ok (match nth_error parts 1 with Some p => VStr p | None => VUndef end)
          else Ok VNull) ;;
    tot <- get res "total" ;;
    total_ <- parseAmount tot ;;
    tx <- get res "tax" ;;
    tax_ <- parseAmount tx ;;
    sub <- get res "subTotal" ;;
    subtotal_ <- parseAmount sub ;;
    lineItems <- get res "lineItems" ;;
    its <- (match lineItems with
            | VArr l => kept <- filterM keep_item l ;; mapM parse_item kept
            | _ => Ok []
            end) ;;
    ec <- get res "establishmentConfidence" ;;
    tc <- get res "totalConfidence" ;;
    dc <- get res "dateConfidence" ;;
    let confidenceScores := filter (fun v => negb (is_undefined v)) [ec; tc; dc] in
    conf <- overall_confidence confidenceScores ;;
    let rc := mkReceipt (js_or establishment VNull) (js_or addr VNull)
                        (js_or phoneNumber VNull) d t
                        (Some (num_or total_ zero))
                        (Some (num_or tax_ zero))
                        (Some (num_or subtotal_ zero))
                        its in
    text <- generateRawTextSummary rc ;;
    Ok (mkOCRResult true None conf text (Some rc) tabScannerData)
  else
    Ok (mkOCRResult false None zero [] (Some empty_receipt) tabScannerData).

(** [parseTabScannerResponse(tabScannerData)] *)
Definition parseTabScannerResponse (tabScannerData : value) : result OCRResult :=
  try_catch (parse_try tabScannerData)
    (fun _ => Ok (mkOCRResult false (Some (js "Failed to parse OCR response"))
                              zero [] None tabScannerData)).

Definition MSG_FAILED := js "OCR processing failed".
Definition MSG_LOW_CONFIDENCE := js "Low OCR confidence score".
Definition MSG_NO_DATA := js "No useful receipt data could be extracted".
Definition MSG_NO_TOTAL := js "No monetary amounts detected".
Definition MSG_NO_MERCHANT := js "Merchant name not found".
Definition MSG_NO_ITEMS := js "No line items extracted".

(** [ocrResult.receipt.total && ocrResult.receipt.total > 0], as a
    condition *)
Definition hasTotal (rc : Receipt) : bool :=
  match total rc with
  | Some x => truthy (VNum x) && PrimFloat.ltb zero x
  | None => false
  end.

(** [merchant && merchant.trim().length > 0]: a truthy merchant that is not
    a string has no [trim]. *)
Definition hasMerchant (rc : Receipt) : result bool :=
  if truthy (merchant rc) then
    s <- as_string (merchant rc) ;; Ok (Nat.ltb 0 (List.length (trim s)))
  else Ok false.

(** [ocrResult.rawText && ocrResult.rawText.length > 10] *)
Definition hasRawText (r : OCRResult) : bool :=
  truthy (VStr (rawText r)) && Nat.ltb 10 (List.length (rawText r)).

(** [ocrResult.receipt.items && ocrResult.receipt.items.length > 0] *)
Definition hasItems (rc : Receipt) : bool := Nat.ltb 0 (List.length (items rc)).

(** [validateOCRResult(ocrResult)]; the pushes onto [validation.errors] and
    [validation.warnings] are kept in their order. *)
Definition validateOCRResult (ocrResult : OCRResult) : result Validation :=
  if negb (success ocrResult) then Ok (mkValidation false [MSG_FAILED] [])
  else
    let w0 :=
      if PrimFloat.ltb (ocr_confidence ocrResult) 0.5 then [MSG_LOW_CONFIDENCE] else [] in
    match receipt ocrResult with
    | None => Throw TypeError
    | Some rc =>
      let hT := hasTotal rc in
      hM <- hasMerchant rc ;;
      let hR := hasRawText ocrResult in
      let hI := hasItems rc in
      if negb hT && negb hM && negb hR && negb hI then
        Ok (mkValidation false [MSG_NO_DATA] w0)
      else
        Ok (mkValidation true []
              (w0 ++ (if hT then [] else [MSG_NO_TOTAL])
                  ++ (if hM then [] else [MSG_NO_MERCHANT])
                  ++ (if hI then [] else [MSG_NO_ITEMS])))
    end.

(** ** Merchant extraction from raw text *)

(** [/\d{3,}/.test(line)]: [run] counts the digits just before [s]. *)
Fixpoint has_three_digits (run : nat) (s : jstring) : bool :=
  match s with
  | [] => false
  | c :: tl =>
    if is_digit c then
      match run with
      | S (S _) => true
      | _ => has_three_digits (S run) tl
      end
    else has_three_digits O tl
  end.

(** [/^\d+\s+\w+/.test(line)]: digits, then white space, then a word
    character. *)
Definition starts_with_number_and_word (line : jstring) : bool :=
  match take_digits line with
  | ([], _) => false
  | (_, rest) =>
    match rest with
    | c :: _ =>
      is_ws c && match drop_ws rest with
                 | w :: _ => is_word w
                 | [] => false
                 end
    | [] => false
    end
  end.

(** The condition under which the loop returns [line] *)
Definition merchant_candidate (line : jstring) : bool :=
  negb (has_three_digits O line)
  && negb (starts_with_number_and_word line)
  && Nat.ltb 2 (List.length line).

(** [text.split('\n').map(line => line.trim()).filter(line => line.length > 0)] *)
Definition nonblank_lines (text : jstring) : list jstring :=
  filter (fun line => Nat.ltb 0 (List.length line)) (map trim (split_on 10%N text)).

(** [extractMerchantFromText(text)]: the loop runs over the first
    [Math.min(3, lines.length)] lines. *)
Definition extractMerchantFromText (text : value) : result value :=
  if negb (truthy text) then Ok VNull
  else
    s <- as_string text ;;
    Ok (match find merchant_candidate (firstn 3 (nonblank_lines s)) with
        | Some line => VStr line
        | None => VNull
        end).

(** ** Upload and polling ([processReceipt])

    The two requests are the environment: [upload] is the outcome of
    [axios.post], the [data] of the response or the error it rejects with;
    [poll k] is the outcome of the [k]-th [axios.get] of the result URL.
    The waits between attempts have no part in the result.  Of the
    logging, the template literals have: they convert their values to
    strings, which can throw; [console.log] of a value given as an argument
    of its own inspects it without converting it.  [imageBuffer] is taken to
    be a buffer, so that the first log line, which reads its [length],
    passes. *)
Section Network.

Variable upload : result value.
Variable poll : nat -> result value.

Definition maxAttempts : nat := 20.

(** [new Error(`${prefix}${data.message || 'Unknown error'}`)] *)
Definition failure_of (prefix : string) (data : value) : result exn :=
  message <- get data "message" ;;
  text <- ToString (js_or message (VStr (js "Unknown error"))) ;;
  Ok (Error (js prefix ++ text)).

(** Step 1: the token of a successful upload. *)
Definition upload_token : result value :=
  data <- upload ;;
  success <- get data "success" ;;
  token <- (if truthy success then get data "token" else Ok VUndef) ;;
  if truthy success && truthy token then Ok token
  else (e <- failure_of "Upload failed: " data ;; Throw e).

(** [`https://api.tabscanner.com/api/result/${token}`] *)
Definition resultUrl (token : value) : result jstring :=
  text <- ToString token ;;
  Ok (js "https://api.tabscanner.com/api/result/" ++ text).

(** Step 2: the [while] loop, [fuel] being [maxAttempts - attempts]; the
    second component is [attempts] when the loop is left.  The status is
    logged through a template literal before it is tested. *)
Fixpoint poll_results (fuel attempts : nat) : result OCRResult * nat :=
  match fuel with
  | O => (Throw (Error (js "Processing timeout - results not available after polling")),
          attempts)
  | S fuel' =>
    let attempts := S attempts in
    match poll attempts with
    | Throw e => (Throw e, attempts)
    | Ok data =>
      match (status <- get data "status" ;; _ <- ToString status ;; Ok status) with
      | Throw e => (Throw e, attempts)
      | Ok status =>
        if is_literal status "done" && truthy (field data "result")
        then (parseTabScannerResponse data, attempts)
        else if is_literal status "pending" then poll_results fuel' attempts
        else if is_literal status "error" || is_literal status "failed"
        then (match failure_of "Processing failed: " data with
              | Ok e => Throw e
              | Throw e => Throw e
              end, attempts)
        else poll_results fuel' attempts
      end
    end
  end.

(** [processReceipt(imageBuffer, filename)]: what the promise settles to,
    and the number of result requests made.  The [catch] block logs and
    throws the same error again. *)
Definition processReceipt : result OCRResult * nat :=
  match (token <- upload_token ;; resultUrl token) with
  | Throw e => (Throw e, O)
  | Ok _ => poll_results maxAttempts O
  end.

End Network.

End OCRService.

(** * [src/unnamed/part_009]: class [AIDataParser], quality scoring *)
Module AIDataParser.

(** The parts of the [result] object of [parseReceiptData] that
    [calculateQualityMetrics] reads or writes: [result.store],
    [result.transaction.date], [result.financial.grand_total],
    [result.items] and [result.quality]. *)
Record Store : Type := mkStore {
  name : value;
  normalized_name : value;
  store_type : value
}.

Record Quality : Type := mkQuality {
  ocr_confidence : float;
  ai_confidence : float;
  data_completeness : float
}.

Record ParsedData : Type := mkParsedData {
  store : Store;
  transaction_date : value;
  financial_grand_total : float;
  items : list value;
  quality : Quality
}.

(** The array [checks], each entry as the condition [if (check)] sees it. *)
Definition checks (result : ParsedData) : list bool :=
  [ truthy (name (store result));
    truthy (normalized_name (store result));
    truthy (transaction_date result);
    PrimFloat.ltb zero (financial_grand_total result);
    Nat.ltb 0 (List.length (items result));
    truthy (store_type (store result)) ].

(** The [forEach] loop: [(completenessScore, totalFields)] after the
    checks. *)
Definition count_checks (cs : list bool) : nat * nat :=
  fold_left (fun (acc : nat * nat) (check : bool) =>
               let (completenessScore, totalFields) := acc in
               (if check then S completenessScore else completenessScore, S totalFields))
            cs (O, O).

(** [calculateQualityMetrics(result)]: the updated [result]. *)
Definition calculateQualityMetrics (result : ParsedData) : ParsedData :=
  let '(completenessScore, totalFields) := count_checks (checks result) in
  let dc :=
    Math_round ((float_of_Z (Z.of_nat completenessScore)
                 / float_of_Z (Z.of_nat totalFields)) * 100)%float in
  let ai := Math_min 95 (dc + 10)%float in
  let ocr := ocr_confidence (quality result) in
  let ai' := Math_round ((ai + ocr * 100) / 2)%float in
  mkParsedData (store result) (transaction_date result)
               (financial_grand_total result) (items result)
               (mkQuality ocr ai' dc).

End AIDataParser.

(** * [src/unnamed/part_009]: class [AIDataParser], item categorization *)
Module EnricherItems.

(** An element of [result.items], with the fields that the categorization
    and the prompts read or write; its other fields ([id], [unit], ...) are
    left as they are. *)
Record Item : Type := mkItem {
  name : value;
  category : value;
  nutrition_category : value;
  quantity : value;
  line_total : value
}.

(** [categoryRules], in the order of [Object.entries] *)
Definition categoryRules : list (string * list string) :=
  [ ("produce", ["banana"; "apple"; "orange"; "lettuce"; "tomato"; "onion"; "potato";
                 "carrot"; "broccoli"; "spinach"]);
    ("dairy", ["milk"; "cheese"; "yogurt"; "butter"; "cream"; "eggs"]);
    ("meat", ["chicken"; "beef"; "pork"; "fish"; "salmon"; "turkey"; "bacon"]);
    ("bakery", ["bread"; "bagel"; "muffin"; "croissant"; "cake"; "cookie"]);
    ("beverages", ["water"; "soda"; "juice"; "coffee"; "tea"; "beer"; "wine"]);
    ("pantry", ["rice"; "pasta"; "cereal"; "beans"; "oil"; "sauce"; "spice"]);
    ("frozen", ["frozen"; "ice cream"; "pizza"]);
    ("snacks", ["chips"; "crackers"; "nuts"; "candy"; "chocolate"]) ]%string.

(** [keywords.some(keyword => itemName.includes(keyword))] *)
Definition some_keyword (itemName : jstring) (keywords : list string) : bool :=
  existsb (fun keyword => includes itemName (js keyword)) keywords.

(** [['produce', 'dairy'].includes(category) ? 'healthy' : 'neutral'] *)
Definition nutrition_of (category : string) : string :=
  if (String.eqb category "produce" || String.eqb category "dairy")%bool
  then "healthy"%string else "neutral"%string.

(** [item.name?.toLowerCase() || '']: [undefined] and [null] give the empty
    string, a string is lower-cased, any other value has no
    [toLowerCase]. *)
Definition lowered_name (v : value) : result jstring :=
  match v with
  | VUndef | VNull => Ok []
  | VStr s => Ok (toLowerCase s)
  | _ => Throw TypeError
  end.

(** The callback of [items.forEach] in [fallbackItemCategorization]: the
    item after it. *)
Definition categorize (item : Item) : result Item :=
  itemName <- lowered_name (name item) ;;
  let item1 :=
    match find (fun rule => some_keyword itemName (snd rule)) categoryRules with
    | Some (category, _) =>
      mkItem (name item) (VStr (js category)) (VStr (js (nutrition_of category)))
             (quantity item) (line_total item)
    | None => item
    end in
  Ok (if negb (truthy (category item1))
      then mkItem (name item1) (VStr (js "other")) (VStr (js "neutral"))
                  (quantity item1) (line_total item1)
      else item1).

(** [items.forEach(f)] for a callback that updates its element: the array
    afterwards, and the exception that ended the loop, if any.  The elements
    before the failing one keep their update. *)
Fixpoint forEach (f : Item -> result Item) (items : list Item) : list Item * option exn :=
  match items with
  | [] => ([], None)
  | item :: tl =>
    match f item with
    | Throw e => (items, Some e)
    | Ok item' => let (tl', r) := forEach f tl in (item' :: tl', r)
    end
  end.

(** [fallbackItemCategorization(items)] *)
Definition fallbackItemCategorization (items : list Item) : list Item * option exn :=
  forEach categorize items.

(** A prompt is a template literal: a fixed text with values converted to
    strings in between.  It is kept as the list of the converted values, in
    their order; the fixed text is left out. *)
Definition prompt : Type := list jstring.

(** [callOpenAI(prompt)]: the placeholder throws, with a key or without.
    [useAI] is [!!this.openaiApiKey]; the prompt is not read. *)
Definition callOpenAI (useAI : bool) (p : prompt) : result jstring :=
  if negb useAI then Throw (Error (js "No AI API key configured"))
  else Throw (Error (js "AI API not implemented - using fallback methods")).

(** [`${item.name} - $${item.line_total}`] *)
Definition item_prompt_line (item : Item) : result jstring :=
  nm <- ToString (name item) ;;
  lt <- ToString (line_total item) ;;
  Ok (nm ++ js " - $" ++ lt).

(** [lines.join(sep)] on strings *)
Fixpoint join (sep : jstring) (lines : list jstring) : jstring :=
  match lines with
  | [] => []
  | [l] => l
  | l :: tl => l ++ sep ++ join sep tl
  end.

(** [itemsPrompt] of [processItemBatch], built before the [try] block *)
Definition itemsPrompt (items : list Item) : result prompt :=
  lines <- mapM item_prompt_line items ;;
  Ok [join [10%N] lines].

(** [processItemBatch(items)]: an exception of the prompt leaves the batch
    as it is; the response would be applied to the items with
    [Object.assign]; the [catch] block categorizes the batch by the
    rules. *)
Definition processItemBatch (useAI : bool) (apply : jstring -> list Item -> list Item)
    (items : list Item) : list Item * option exn :=
  match itemsPrompt items with
  | Throw e => (items, Some e)
  | Ok p =>
    match callOpenAI useAI p with
    | Ok aiResponse => (apply aiResponse items, None)
    | Throw _ => fallbackItemCategorization items
    end
  end.

Definition batchSize : nat := 10.

(** The [for] loop of [aiCategorizeItems]: [items.slice(i, i + batchSize)]
    shares its elements with [items], so the updates of a batch are updates
    of [items]. *)
Fixpoint process_batches (fuel : nat) (useAI : bool)
    (apply : jstring -> list Item -> list Item) (items : list Item)
  : list Item * option exn :=
  match fuel, items with
  | O, _ | _, [] => (items, None)
  | S fuel', _ =>
    let (batch, r) := processItemBatch useAI apply (firstn batchSize items) in
    match r with
    | Some e => (batch ++ skipn batchSize items, Some e)
    | None =>
      let (rest, r') := process_batches fuel' useAI apply (skipn batchSize items) in
      (batch ++ rest, r')
    end
  end.

(** [aiCategorizeItems(rawReceiptData, result)], on [result.items] *)
Definition aiCategorizeItems (useAI : bool) (apply : jstring -> list Item -> list Item)
    (items : list Item) : list Item * option exn :=
  if negb useAI || Nat.eqb (List.length items) 0 then (items, None)
  else process_batches (List.length items) useAI apply items.

End EnricherItems.

(** * [src/unnamed/part_009]: class [AIDataParser], store and insights *)
Module Enricher.

(** [result.store], with the fields that the enhancement reads or writes;
    [location_address], [contact_phone] and [contact_website] are
    [store.location.address], [store.contact.phone] and
    [store.contact.website]. *)
Record Store : Type := mkStore {
  name : value;
  chain : value;
  normalized_name : value;
  store_type : value;
  price_range : value;
  location_address : value;
  contact_phone : value;
  contact_website : value
}.

(** [result.insights], with the fields that the rule-based path writes *)
Record Insights : Type := mkInsights {
  shopping_category : value;
  estimated_people : float;
  budget_category : value
}.

(** The [result] object of [parseReceiptData], as far as the enhancement
    and the quality scoring go *)
Record Result : Type := mkResult {
  store : Store;
  transaction_date : value;
  financial_grand_total : float;
  items : list EnricherItems.Item;
  insights : Insights;
  quality : AIDataParser.Quality;
  transaction_time : value
}.

(** [storePatterns], in the order of [Object.entries]: pattern, chain, type
    and price range *)
Definition storePatterns : list (string * (string * string * string)) :=
  [ ("trader joe", ("Trader Joe's", "grocery", "mid-range"));
    ("whole foods", ("Whole Foods Market", "grocery", "premium"));
    ("walmart", ("Walmart", "department", "budget"));
    ("target", ("Target", "department", "mid-range"));
    ("kroger", ("Kroger", "grocery", "mid-range"));
    ("safeway", ("Safeway", "grocery", "mid-range")) ]%string.

(** [store.normalized_name = store.name || store.chain || 'Unknown Store'],
    when the normalized name is falsy *)
Definition ensure_normalized_name (st : Store) : Store :=
  if negb (truthy (normalized_name st)) then
    mkStore (name st) (chain st)
            (js_or (js_or (name st) (chain st)) (VStr (js "Unknown Store")))
            (store_type st) (price_range st)
            (location_address st) (contact_phone st) (contact_website st)
  else st.

(** [fallbackStoreEnhancement(result)], on [result.store] *)
Definition fallbackStoreEnhancement (st : Store) : result Store :=
  storeName <- EnricherItems.lowered_name (name st) ;;
  let st1 :=
    match find (fun p => includes storeName (js (fst p))) storePatterns with
    | Some (_, (chain_, type_, price_range_)) =>
      mkStore (name st) (VStr (js chain_)) (VStr (js chain_)) (VStr (js type_))
              (VStr (js price_range_))
              (location_address st) (contact_phone st) (contact_website st)
    | None => st
    end in
  let st2 := ensure_normalized_name st1 in
  Ok (if negb (truthy (store_type st2))
      then mkStore (name st2) (chain st2) (normalized_name st2) (VStr (js "grocery"))
                   (price_range st2)
                   (location_address st2) (contact_phone st2) (contact_website st2)
      else st2).

(** [fallbackInsightsGeneration(result)]: the insights after it *)
Definition fallbackInsightsGeneration (result : Result) : Insights :=
  let totalAmount := financial_grand_total result in
  let itemCount := float_of_Z (Z.of_nat (List.length (items result))) in
  mkInsights
    (VStr (js (if PrimFloat.ltb 50 totalAmount then "grocery" else "convenience")))
    (Math_max 1 (Math_floor (itemCount / 15)))
    (VStr (js (if PrimFloat.ltb totalAmount 25 then "budget"
               else if PrimFloat.ltb totalAmount 100 then "moderate" else "premium"))).

Definition with_store (result : Result) (st : Store) : Result :=
  mkResult st (transaction_date result) (financial_grand_total result) (items result)
           (insights result) (quality result) (transaction_time result).

Definition with_items (result : Result) (its : list EnricherItems.Item) : Result :=
  mkResult (store result) (transaction_date result) (financial_grand_total result) its
           (insights result) (quality result) (transaction_time result).

Definition with_insights (result : Result) (ins : Insights) : Result :=
  mkResult (store result) (transaction_date result) (financial_grand_total result)
           (items result) ins (quality result) (transaction_time result).

(** [ruleBasedEnhancements(rawReceiptData, result)]: [result] afterwards,
    and the exception that ended it, if any. *)
Definition ruleBasedEnhancements (result : Result) : Result * option exn :=
  match fallbackStoreEnhancement (store result) with
  | Throw e => (result, Some e)
  | Ok st =>
    let r1 := with_store result st in
    let (its, thrown) := EnricherItems.fallbackItemCategorization (items r1) in
    let r2 := with_items r1 its in
    match thrown with
    | Some e => (r2, Some e)
    | None =>
      let r3 := with_insights r2 (fallbackInsightsGeneration r2) in
      (with_store r3 (ensure_normalized_name (store r3)), None)
    end
  end.

(** [storePrompt] of [aiEnhanceStore], built before the [try] block: store
    name, address, phone and website *)
Definition storePrompt (st : Store) : result EnricherItems.prompt :=
  mapM ToString [name st; location_address st; contact_phone st; contact_website st].

(** [aiEnhanceStore(rawReceiptData, result)], on [result.store]: the
    response would be applied by [apply]; the [catch] block falls back; the
    final check follows unless the prompt or the fallback throws. *)
Definition aiEnhanceStore (useAI : bool) (apply : jstring -> Store -> Store)
    (st : Store) : result Store :=
  if negb useAI then Ok st
  else
    p <- storePrompt st ;;
    st1 <- (match EnricherItems.callOpenAI useAI p with
            | Ok aiResponse => Ok (apply aiResponse st)
            | Throw _ => fallbackStoreEnhancement st
            end) ;;
    Ok (ensure_normalized_name st1).

(** [`${item.name} (${item.quantity}x $${item.line_total})`] *)
Definition item_summary (item : EnricherItems.Item) : result jstring :=
  nm <- ToString (EnricherItems.name item) ;;
  q <- ToString (EnricherItems.quantity item) ;;
  lt <- ToString (EnricherItems.line_total item) ;;
  Ok (nm ++ js " (" ++ q ++ js "x $" ++ lt ++ js ")").

(** [insightsPrompt] of [aiGenerateInsights], built before the [try]
    block: store name, total, the summary of the first twenty items, date
    and time *)
Definition insightsPrompt (result : Result) : JS.result EnricherItems.prompt :=
  lines <- mapM item_summary (firstn 20 (items result)) ;;
  nm <- ToString (name (store result)) ;;
  d <- ToString (transaction_date result) ;;
  t <- ToString (transaction_time result) ;;
  Ok [nm; Number_toString (financial_grand_total result);
      EnricherItems.join (js ", ") lines; d; t].

(** [aiGenerateInsights(rawReceiptData, result)]: the insights after it *)
Definition aiGenerateInsights (useAI : bool) (apply : jstring -> Insights -> Insights)
    (result : Result) : JS.result Insights :=
  if negb useAI then Ok (insights result)
  else
    p <- insightsPrompt result ;;
    Ok (match EnricherItems.callOpenAI useAI p with
        | Ok aiResponse => apply aiResponse (insights result)
        | Throw _ => fallbackInsightsGeneration result
        end).

(** The responses of the language model would be applied to the store, the
    items and the insights by these three functions. *)
Record Apply : Type := mkApply {
  apply_store : jstring -> Store -> Store;
  apply_items : jstring -> list EnricherItems.Item -> list EnricherItems.Item;
  apply_insights : jstring -> Insights -> Insights
}.

(** Step 2 of [parseReceiptData]: the branch on [this.useAI]. *)
Definition enhance (useAI : bool) (ap : Apply) (result : Result) : Result * option exn :=
  if useAI then
    match aiEnhanceStore useAI (apply_store ap) (store result) with
    | Throw e => (result, Some e)
    | Ok st =>
      let r1 := with_store result st in
      let (its, thrown) :=
        EnricherItems.aiCategorizeItems useAI (apply_items ap) (items r1) in
      let r2 := with_items r1 its in
      match thrown with
      | Some e => (r2, Some e)
      | None =>
        match aiGenerateInsights useAI (apply_insights ap) r2 with
        | Throw e => (r2, Some e)
        | Ok ins => (with_insights r2 ins, None)
        end
      end
    end
  else ruleBasedEnhancements result.

(** What [calculateQualityMetrics] reads of [result] *)
Definition quality_input (result : Result) : AIDataParser.ParsedData :=
  AIDataParser.mkParsedData
    (AIDataParser.mkStore (name (store result)) (normalized_name (store result))
                          (store_type (store result)))
    (transaction_date result) (financial_grand_total result)
    (map (fun _ => VObj []) (items result)) (quality result).

(** Step 3 of [parseReceiptData]: [calculateQualityMetrics(result)] writes
    [result.quality]. *)
Definition score (result : Result) : Result :=
  mkResult (store result) (transaction_date result) (financial_grand_total result)
           (items result) (insights result)
           (AIDataParser.quality (AIDataParser.calculateQualityMetrics (quality_input result)))
           (transaction_time result).

(** The default of [calculateAverageConfidence] *)
Definition DEFAULT_CONFIDENCE : float := 0.8%float.

(** [calculateAverageConfidence(tabscannerData)] *)
Definition calculateAverageConfidence (tabscannerData : value) : result float :=
  ec <- get tabscannerData "establishmentConfidence" ;;
  tc <- get tabscannerData "totalConfidence" ;;
  dc <- get tabscannerData "dateConfidence" ;;
  let confidenceScores := filter (fun v => negb (is_nullish v)) [ec; tc; dc] in
  match confidenceScores with
  | [] => Ok DEFAULT_CONFIDENCE
  | _ => OCRService.average confidenceScores
  end.

End Enricher.

(** * [src/unnamed/part_003]: class [CustomFieldMapper] *)
Module CustomFieldMapper.

(** [this.brandNormalization], in insertion order *)
Definition brandNormalization : list (jstring * jstring) :=
  [ (js "trader joes", js "Trader Joes");
    (js "trader joe's", js "Trader Joes");
    (js "traderjoes", js "Trader Joes") ].

(** The class of the regular expression in [rawBrand.replace]: the single
    and the double quote. *)
Definition is_quote (c : code_unit) : bool := ((c =? 39) || (c =? 34))%N.

(** [normalizeBrandName(rawBrand)] on a string *)
Definition normalizeBrandName (rawBrand : jstring) : jstring :=
  let normalized := trim (toLowerCase rawBrand) in
  match find (fun '(pattern, _) => includes normalized pattern) brandNormalization with
  | Some (_, replacement) => replacement
  | None => trim (remove_class is_quote rawBrand)
  end.

(** ** The address heuristics *)

(** The first maximal run of digits of [s] that lies between word
    boundaries; [prev_word] tells whether the unit before [s] is a word
    character.  This is the capture of [/\b(\d+)\b/]. *)
Fixpoint first_number (fuel : nat) (prev_word : bool) (s : jstring) : option jstring :=
  match fuel, s with
  | O, _ | _, [] => None
  | S f, c :: tl =>
    if is_digit c && negb prev_word then
      let (run, rest) := take_digits s in
      match rest with
      | [] => Some run
      | c' :: _ =>
        if is_word c' then first_number f true (skipn (List.length run) s)
        else Some run
      end
    else first_number f (is_word c) tl
  end.

(** [extractStreetNumber(address)] *)
Definition extractStreetNumber (address : jstring) : value :=
  match first_number (S (List.length address)) false address with
  | Some m => VStr m
  | None => VNull
  end.

Definition all_digits (s : jstring) : bool := forallb is_digit s.

Definition boundary_after (rest : jstring) : bool :=
  match rest with
  | [] => true
  | c :: _ => negb (is_word c)
  end.

(** A match of [\d{5}(?:-\d{4})?\b] at the head of [s] *)
Definition zip_at (s : jstring) : option jstring :=
  let five := firstn 5 s in
  let rest := skipn 5 s in
  if (Nat.eqb (List.length five) 5 && all_digits five)%bool then
    let ext :=
      match rest with
      | 45%N :: r =>
        let four := firstn 4 r in
        if (Nat.eqb (List.length four) 4 && all_digits four && boundary_after (skipn 4 r))%bool
        then Some (five ++ [45%N] ++ four) else None
      | _ => None
      end in
    match ext with
    | Some z => Some z
    | None => if boundary_after rest then Some five else None
    end
  else None.

Fixpoint first_zip (prev_word : bool) (s : jstring) : option jstring :=
  match s with
  | [] => None
  | c :: tl =>
    match (if negb prev_word then zip_at s else None) with
    | Some z => Some z
    | None => first_zip (is_word c) tl
    end
  end.

(** [extractZipCode(address)] *)
Definition extractZipCode (address : jstring) : value :=
  match first_zip false address with
  | Some m => VStr m
  | None => VNull
  end.

(** [s.replace(/^\d+\s*/, '')] *)
Definition strip_leading_number (s : jstring) : jstring :=
  match take_digits s with
  | ([], _) => s
  | (_, rest) => drop_ws rest
  end.

(** A match of [\s\(\d+\)] at the head of [s]: what follows it. *)
Definition store_tag_at (s : jstring) : option jstring :=
  match s with
  | c :: 40%N :: tl =>
    if is_ws c then
      match take_digits tl with
      | (_ :: _, 41%N :: rest) => Some rest
      | _ => None
      end
    else None
  | _ => None
  end.

(** The rest of [s] after the last store tag, when there is one: the greedy
    [[^,]*] of [/^[^,]*\s\(\d+\)\s*,?\s*/] on a string without commas. *)
Fixpoint after_last_store_tag (s : jstring) : option jstring :=
  match s with
  | [] => None
  | c :: tl =>
    match after_last_store_tag tl with
    | Some r => Some r
    | None => option_map drop_ws (store_tag_at s)
    end
  end.

(** [extractStreetName(address)] *)
Definition extractStreetName (address : jstring) : value :=
  let streetPart := trim (nth 0 (split_on 44%N address) []) in
  let s1 := strip_leading_number streetPart in
  let s2 := match after_last_store_tag s1 with Some r => r | None => s1 end in
  let streetName := trim s2 in
  js_or (VStr streetName) VNull.

(** The object returned by [parseAddress] *)
Record Address : Type := mkAddress {
  a_street_number : value;
  a_street_name : value;
  a_city : value;
  a_state : value;
  a_zipcode : value
}.

(** [x || f(rawAddress)]: the heuristic runs, on a string, only when [x] is
    falsy. *)
Definition or_extract (x rawAddress : value) (f : jstring -> value) : result value :=
  if truthy x then Ok x else (s <- as_string rawAddress ;; Ok (f s)).

(** [parseAddress(result)] *)
Definition parseAddress (res : value) : result Address :=
  an <- get res "addressNorm" ;;
  let addressNorm := js_or an (VObj []) in
  ra <- get res "address" ;;
  let rawAddress := js_or ra (VStr []) in
  number <- get addressNorm "number" ;;
  street_number <- or_extract number rawAddress extractStreetNumber ;;
  street <- get addressNorm "street" ;;
  street_name <- or_extract street rawAddress extractStreetName ;;
  city <- get addressNorm "city" ;;
  state <- get addressNorm "state" ;;
  postcode <- get addressNorm "postcode" ;;
  zipcode <- or_extract postcode rawAddress extractZipCode ;;
  Ok (mkAddress street_number street_name (js_or city VNull) (js_or state VNull) zipcode).

(** ** Taxes *)

(** The [filter] callback of [parseTaxes]:
    [item.lineType === 'Tax' || item.desc.toLowerCase().includes('tax')] *)
Definition is_tax_item (item : value) : result bool :=
  lineType <- get item "lineType" ;;
  match lineType with
  | VStr t =>
    if jstring_eqb t (js "Tax") then Ok true
    else (desc <- get item "desc" ;; d <- as_string desc ;;
          Ok (includes (toLowerCase d) (js "tax")))
  | _ =>
    desc <- get item "desc" ;; d <- as_string desc ;;
    Ok (includes (toLowerCase d) (js "tax"))
  end.

(** [a.filter(f)]: only arrays have [filter]. *)
Definition array_filter (a : value) (f : value -> result bool) : result (list value) :=
  match a with
  | VArr l => filterM f l
  | _ => Throw TypeError
  end.

(** [taxes[i] || (taxItems[i] ? taxItems[i].lineTotal : 0)] *)
Definition tax_slot (taxes : value) (taxItems : list value) (i : nat) : result value :=
  t <- get_index taxes i ;;
  if truthy t then Ok t
  else
    let ti := nth i taxItems VUndef in
    if truthy ti then get ti "lineTotal" else Ok (VNum zero).

(** [parseTaxes(result)]: the pair [(tax_1, tax_2)] *)
Definition parseTaxes (res : value) : result (value * value) :=
  tx <- get res "taxes" ;;
  let taxes := js_or tx (VArr []) in
  si <- get res "summaryItems" ;;
  let summaryItems := js_or si (VArr []) in
  taxItems <- array_filter summaryItems is_tax_item ;;
  tax_1 <- tax_slot taxes taxItems 0 ;;
  tax_2 <- tax_slot taxes taxItems 1 ;;
  Ok (tax_1, tax_2).

(** ** Items *)

Definition PROD := js "PROD".
Definition DAIRY := js "DAIRY".
Definition BAKERY := js "BAKERY".
Definition MEAT := js "MEAT".
Definition PANTRY := js "PANTRY".
Definition FEE := js "FEE".
Definition MISC := js "MISC".

(** [name.includes(k1) || name.includes(k2) || ...] *)
Definition includes_any (name : jstring) (keywords : list string) : bool :=
  existsb (fun k => includes name (js k)) keywords.

(** The chain of [if] statements of [generateItemTypeCode], on the
    lower-cased name. *)
Definition type_code_of_name (name : jstring) : jstring :=
  if includes_any name ["produce"; "fruit"; "vegetable"; "apple"; "banana";
                        "berries"; "broccoli"; "spinach"; "onion"]%string
  then PROD
  else if includes_any name ["milk"; "yogurt"; "cheese"; "dairy"]%string then DAIRY
  else if includes_any name ["bread"; "bakery"]%string then BAKERY
  else if includes_any name ["meat"; "beef"; "chicken"; "fish"]%string then MEAT
  else if includes_any name ["beans"; "oil"; "pasta"; "rice"]%string then PANTRY
  else if includes_any name ["bottle"; "deposit"; "fee"]%string then FEE
  else MISC.

(** [generateItemTypeCode(item, index)]; [index] is not used. *)
Definition generateItemTypeCode (item : value) (index : nat) : result jstring :=
  descClean <- get item "descClean" ;;
  nm <- (if truthy descClean then Ok descClean
         else desc <- get item "desc" ;; Ok (js_or desc (VStr []))) ;;
  s <- as_string nm ;;
  Ok (type_code_of_name (toLowerCase s)).

(** [categorizeItem(itemName)] *)
Definition categorizeItem (itemName : value) : result jstring :=
  match itemName with
  | VStr s =>
    let name := toLowerCase s in
    Ok (if includes_any name ["apple"; "berries"; "broccoli"; "spinach"; "onion";
                              "potato"; "lime"; "avocado"; "cauliflower"]%string
        then js "produce"
        else if includes_any name ["milk"; "coconut milk"]%string then js "dairy"
        else if includes_any name ["beans"; "oil"]%string then js "pantry"
        else if includes_any name ["sushi"; "wrap"; "curry"]%string then js "prepared_food"
        else js "other")
  | _ => Throw TypeError
  end.

(** One element of [items] in the mapped record *)
Record MappedItem : Type := mkMappedItem {
  item_name : value;
  item_type_code : jstring;
  item_price : value;
  quantity : value;
  unit_price : value;
  unit : value;
  category : jstring;
  confidence : value
}.

(** The callback of [lineItems.map] in [mapItems] *)
Definition map_item (item : value) (index : nat) : result MappedItem :=
  descClean <- get item "descClean" ;;
  desc <- (if truthy descClean then Ok descClean else get item "desc") ;;
  code <- generateItemTypeCode item index ;;
  lineTotal <- get item "lineTotal" ;;
  qty <- get item "qty" ;;
  price <- get item "price" ;;
  up <- (if truthy price then Ok price
         else lt <- get item "lineTotal" ;; q <- get item "qty" ;;
              x <- js_div lt (js_or q (VNum one)) ;; Ok (VNum x)) ;;
  u <- get item "unit" ;;
  dc2 <- get item "descClean" ;;
  nm2 <- (if truthy dc2 then Ok dc2 else get item "desc") ;;
  cat <- categorizeItem nm2 ;;
  conf <- get item "confidence" ;;
  Ok (mkMappedItem desc code (js_or lineTotal (VNum zero)) (js_or qty (VNum one)) up
                   (js_or u (VStr (js "each"))) cat (js_or conf (VNum one))).

Fixpoint mapM_index {A B} (f : A -> nat -> result B) (l : list A) (i : nat) : result (list B) :=
  match l with
  | [] => Ok []
  | x :: tl => y <- f x i ;; ys <- mapM_index f tl (S i) ;; Ok (y :: ys)
  end.

(** [mapItems(result)]: only arrays have [map]. *)
Definition mapItems (res : value) : result (list MappedItem) :=
  li <- get res "lineItems" ;;
  match js_or li (VArr []) with
  | VArr lineItems => mapM_index map_item lineItems 0
  | _ => Throw TypeError
  end.

(** ** Confidence *)

(** The default of [calculateOverallConfidence] *)
Definition DEFAULT_CONFIDENCE : float := 0.85%float.

(** [calculateOverallConfidence(result)] *)
Definition calculateOverallConfidence (res : value) : result float :=
  ec <- get res "establishmentConfidence" ;;
  tc <- get res "totalConfidence" ;;
  dc <- get res "dateConfidence" ;;
  let confidenceScores := filter (fun v => negb (is_nullish v)) [ec; tc; dc] in
  match confidenceScores with
  | [] => Ok DEFAULT_CONFIDENCE
  | _ => OCRService.average confidenceScores
  end.

(** ** Dates, and the mapped record *)

(** [:dd:dd] at the head of [s] *)
Definition clock_tail (s : jstring) : bool :=
  match s with
  | 58%N :: m1 :: m2 :: 58%N :: s1 :: s2 :: _ =>
    is_digit m1 && is_digit m2 && is_digit s1 && is_digit s2
  | _ => false
  end.

(** A match of [\d{1,2}:\d{2}:\d{2}] at the head of [s]: two digits for
    the hour if that gives a match, one otherwise. *)
Definition time_at (s : jstring) : option jstring :=
  match s with
  | h1 :: rest =>
    if is_digit h1 then
      match rest with
      | h2 :: rest' =>
        if is_digit h2 && clock_tail rest' then Some (firstn 8 s)
        else if clock_tail rest then Some (firstn 7 s)
        else None
      | [] => None
      end
    else None
  | [] => None
  end.

(** The capture of [dateString.match(/(\d{1,2}:\d{2}:\d{2})/)]: the
    leftmost match *)
Fixpoint first_time (s : jstring) : option jstring :=
  match time_at s with
  | Some m => Some m
  | None =>
    match s with
    | [] => None
    | _ :: tl => first_time tl
    end
  end.

(** [formatDate] and [formatTime] go through the host's [Date], whose
    parsing and time zone are not part of the sources.  [toISOString v] is
    [new Date(v).toISOString()] and [toTimeString v] is
    [new Date(v).toTimeString()], with [None] where the expression throws:
    [new Date(v)] throws when the conversion of [v] to a primitive does,
    and [toISOString] throws a [RangeError] on an invalid date.  Either
    exception is caught by the [catch] block. *)
Section Host.

Variable toISOString : value -> option jstring.
Variable toTimeString : value -> option jstring.

(** [formatDate(dateString)] *)
Definition formatDate (dateString : value) : result value :=
  if negb (truthy dateString) then Ok VNull
  else
    match toISOString dateString with
    | Some iso => Ok (VStr (nth 0 (split_on 84%N iso) []))
    | None =>
      s <- as_string dateString ;;
      Ok (js_or (VStr (nth 0 (split_on 32%N s) [])) dateString)
    end.

(** [formatTime(dateString)] *)
Definition formatTime (dateString : value) : result value :=
  if negb (truthy dateString) then Ok VNull
  else
    match toTimeString dateString with
    | Some t => Ok (VStr (nth 0 (split_on 32%N t) []))
    | None =>
      s <- as_string dateString ;;
      Ok (match first_time s with
          | Some m => VStr m
          | None => VNull
          end)
    end.

(** The object returned by [mapToCustomStructure] *)
Record MappedRecord : Type := mkMappedRecord {
  brand_name : jstring;
  street_number : value;
  street_name : value;
  city : value;
  state : value;
  zipcode : value;
  date_field : value;
  time_field : value;
  tax_field_1 : value;
  tax_field_2 : value;
  total_price_field : value;
  items : list MappedItem;
  original_merchant : value;
  phone : value;
  raw_address : value;
  confidence_score : float
}.

(** [mapToCustomStructure(tabScannerData)] *)
Definition mapToCustomStructure (tabScannerData : value) : result MappedRecord :=
  rawData <- get tabScannerData "rawData" ;;
  res <- (if is_nullish rawData then Ok VUndef else get rawData "result") ;;
  if negb (truthy res) then Throw (Error (js "No TabScanner result data found"))
  else
    addressData <- parseAddress res ;;
    taxData <- parseTaxes res ;;
    itemsData <- mapItems res ;;
    establishment <- get res "establishment" ;;
    brand <- (s <- as_string (js_or establishment (VStr [])) ;; Ok (normalizeBrandName s)) ;;
    dateISO <- get res "dateISO" ;;
    d1 <- (if truthy dateISO then Ok dateISO else get res "date") ;;
    date_f <- formatDate d1 ;;
    time_f <- formatTime d1 ;;
    tot <- get res "total" ;;
    phoneNumber <- get res "phoneNumber" ;;
    addr <- get res "address" ;;
    conf <- calculateOverallConfidence res ;;
    Ok (mkMappedRecord brand
          (a_street_number addressData) (a_street_name addressData)
          (a_city addressData) (a_state addressData) (a_zipcode addressData)
          date_f time_f (fst taxData) (snd taxData) (js_or tot (VNum zero))
          itemsData establishment phoneNumber addr conf).

End Host.

End CustomFieldMapper.

(** * Vocabulary of the properties

    The notions in which the properties are stated (in the words of the
    specification where it has words for them) and the inputs at which they
    are evaluated. *)

Section ConversionNotions.

(** The conversion of [v] to a string, or to a primitive, does not throw:
    [v] is not an object with an own [toString], nor an array that holds
    one at any depth. *)
Fixpoint convertible (v : value) : bool :=
  match v with
  | VArr l =>
    (fix all (l : list value) : bool :=
       match l with
       | [] => true
       | x :: tl => convertible x && all tl
       end) l
  | VObj fields => negb (has_own "toString" fields)
  | _ => true
  end.

(** The string that [ToString] gives when it does not throw *)
Fixpoint string_form (v : value) : jstring :=
  match v with
  | VUndef => js "undefined"
  | VNull => js "null"
  | VBool b => if b then js "true" else js "false"
  | VNum x => Number_toString x
  | VStr s => s
  | VArr l =>
    (fix join (l : list value) : jstring :=
       match l with
       | [] => []
       | x :: tl =>
         let sx := match x with VUndef | VNull => [] | _ => string_form x end in
         match tl with
         | [] => sx
         | _ => sx ++ [44%N] ++ join tl
         end
       end) l
  | VObj _ => js "[object Object]"
  end.

(** The primitive, the number, the sum and the quotient that [ToPrimitive],
    [ToNumber], [+] and [/] give when they do not throw *)
Definition primitive_form (v : value) : value :=
  match v with
  | VArr _ | VObj _ => VStr (string_form v)
  | _ => v
  end.

Definition number_form (v : value) : float := number_of_primitive (primitive_form v).

Definition sum_form (a b : value) : value :=
  match primitive_form a, primitive_form b with
  | VStr s, pb => VStr (s ++ string_of_primitive pb)
  | pa, VStr s => VStr (string_of_primitive pa ++ s)
  | pa, pb => VNum (number_of_primitive pa + number_of_primitive pb)
  end.

Definition quotient_form (a b : value) : float := (number_form a / number_form b)%float.

(** A string value *)
Definition is_string (v : value) : bool :=
  match v with VStr _ => true | _ => false end.

(** Neither an array nor an object *)
Definition is_primitive (v : value) : bool :=
  match v with
  | VArr _ | VObj _ => false
  | _ => true
  end.

(** A value that is not converted (it is falsy) or whose conversion does
    not throw: what [if (v) { ... `${v}` ... }] asks of [v]. *)
Definition usable (v : value) : bool := negb (truthy v) || convertible v.

(** [{ "toString": 1 }] *)
Definition toString_object : value := VObj [(js "toString", VNum 1)].

End ConversionNotions.

Section AmountNotions.
Import OCRService.

(** The two amount characters that are not digits *)
Definition dot_or_minus (c : code_unit) : Prop := c = 46%N \/ c = 45%N.

(** The amount that [parseAmount] returns when [String(amount)] does not
    throw *)
Definition amount_of (amount : value) : option float :=
  if negb (truthy amount) then None
  else
    let parsed := parseFloat_string (cleanAmount (string_form amount)) in
    if is_nan parsed then None else Some parsed.

End AmountNotions.

Section QualityNotions.
Import AIDataParser.

(** The specification's wording: the count of checks that hold, and that
    count as a percentage of [n] rounded to the nearest integer (halves
    up). *)
Definition true_checks (cs : list bool) : nat := count_occ bool_dec cs true.

Definition integer_percentage (k n : nat) : Z :=
  ((200 * Z.of_nat k + Z.of_nat n) / (2 * Z.of_nat n))%Z.

(** The specification's blend of completeness and OCR confidence *)
Definition blend (dataCompleteness ocrConfidence : float) : float :=
  Math_round ((Math_min 95 (dataCompleteness + 10) + ocrConfidence * 100) / 2)%float.

(** Five of the six checks hold (no date), with an OCR confidence of 0.9. *)
Definition example_parsed_data : ParsedData :=
  mkParsedData (mkStore (VStr (js "Trader Joe's")) (VStr (js "Trader Joes")) (VStr (js "grocery")))
               VNull 96.49%float [VObj []] (mkQuality 0.9%float 0%float 0%float).

End QualityNotions.

Section ValidatorNotions.
Import OCRService.

(** A field that holds text when it is present *)
Definition text_or_missing (v : value) : Prop :=
  v = VNull \/ v = VUndef \/ exists s, v = VStr s.

(** The four signals, as the validator reads them: no total above zero, a
    merchant that is missing or blank, a raw text of at most ten code units,
    no item. *)
Definition total_missing (rc : Receipt) : Prop :=
  forall x, total rc = Some x -> PrimFloat.ltb zero x = false.

Definition merchant_blank (rc : Receipt) : Prop :=
  forall s, merchant rc = VStr s -> trim s = [].

Definition rawText_short (r : OCRResult) : Prop :=
  (List.length (rawText r) <= 10)%nat.

(** The four signals, as the specification words them: empty, null or of
    length zero. *)
Definition all_empty (r : OCRResult) (rc : Receipt) : Prop :=
  (total rc = None \/ total rc = Some zero)
  /\ (merchant rc = VNull \/ merchant rc = VStr [])
  /\ rawText r = []
  /\ items rc = [].

(** The warnings pushed on the valid path, one per missing signal, after the
    low-confidence warning. *)
Definition valid_warnings (low hT hM hI : bool) : list jstring :=
  (if low then [MSG_LOW_CONFIDENCE] else [])
  ++ (if hT then [] else [MSG_NO_TOTAL])
  ++ (if hM then [] else [MSG_NO_MERCHANT])
  ++ (if hI then [] else [MSG_NO_ITEMS]).

(** The receipt whose only content is one item, Milk at 3. *)
Definition milk_only : Receipt :=
  mkReceipt VNull VNull VNull VNull VNull None None None
            [mkItem (VStr (js "Milk")) 1 None 3 VNull 1].

(** [ocrResult] with another confidence *)
Definition with_confidence (c : float) (r : OCRResult) : OCRResult :=
  mkOCRResult (success r) (error r) c (rawText r) (receipt r) (rawData r).

(** The reads of the validator that throw on a successful result: there is
    no receipt, or the merchant is truthy and not a string, so that it has
    no [trim]. *)
Definition validator_throws (r : OCRResult) : bool :=
  match receipt r with
  | None => true
  | Some rc => truthy (merchant rc) && negb (is_string (merchant rc))
  end.

(** [{ result: { establishment: 5, totalConfidence: 0.1 } }]: a merchant
    that is a number, at a low confidence *)
Definition low_numeric_merchant_payload : value :=
  VObj [(js "result", VObj [(js "establishment", VNum 5);
                            (js "totalConfidence", VNum 0.1)])].

End ValidatorNotions.

Section ParserNotions.
Import OCRService.

(** Neither [undefined] nor [null] *)
Definition not_nullish (v : value) : bool := negb (is_nullish v).

(** The conditions under which no property read of the parser fails:
    [dateISO] is falsy or a string, and no element of the [lineItems] array
    is [null]. *)
Definition date_ok (res : value) : bool :=
  match field res "dateISO" with
  | VStr _ => true
  | v => negb (truthy v)
  end.

Definition items_ok (res : value) : bool :=
  match field res "lineItems" with
  | VArr l => forallb not_nullish l
  | _ => true
  end.

(** The callbacks of [filter] and [map] on an element that is not [null] *)
Definition kept (item : value) : bool :=
  truthy (field item "descClean") && truthy (field item "lineTotal").

Definition parsed_item (item : value) : Item :=
  mkItem (if truthy (field item "descClean") then field item "descClean"
          else js_or (field item "desc") (VStr (js "Unknown Item")))
         (let q := parseFloat_string (string_form (field item "qty")) in
          if truthy (VNum q) then q else one)
         (num_or_null (amount_of (field item "price")))
         (num_or (amount_of (field item "lineTotal")) zero)
         VNull one.

(** The conversions of the [map] callback do not throw: [parseFloat] of
    the quantity, [parseAmount] of the price and of the line total. *)
Definition item_converts (item : value) : bool :=
  convertible (field item "qty")
  && usable (field item "price")
  && usable (field item "lineTotal").

(** The receipt and the confidence that the parser builds from a present
    result, when no property read fails. *)
Definition parsed_date (res : value) : value :=
  match field res "dateISO" with
  | VStr (c :: tl) => VStr (nth 0 (split_on 84%N (c :: tl)) [])
  | _ => field res "date"
  end.

Definition parsed_time (res : value) : value :=
  match field res "dateISO" with
  | VStr (c :: tl) =>
    match nth_error (split_on 84%N (c :: tl)) 1 with Some p => VStr p | None => VUndef end
  | _ => VNull
  end.

Definition parsed_items (res : value) : list Item :=
  match field res "lineItems" with
  | VArr l => map parsed_item (filter kept l)
  | _ => []
  end.

Definition parsed_receipt (res : value) : Receipt :=
  mkReceipt (js_or (field res "establishment") VNull)
            (js_or (field res "address") VNull)
            (js_or (field res "phoneNumber") VNull)
            (parsed_date res) (parsed_time res)
            (Some (num_or (amount_of (field res "total")) zero))
            (Some (num_or (amount_of (field res "tax")) zero))
            (Some (num_or (amount_of (field res "subTotal")) zero))
            (parsed_items res).

(** The confidences that are not [undefined], their mean when no
    conversion throws, and the confidence of the parsed result *)
Definition confidence_scores (res : value) : list value :=
  filter (fun v => negb (is_undefined v))
         [field res "establishmentConfidence"; field res "totalConfidence";
          field res "dateConfidence"].

Definition average_form (scores : list value) : float :=
  quotient_form (fold_left sum_form scores (VNum zero))
                (VNum (float_of_Z (Z.of_nat (List.length scores)))).

Definition parsed_confidence (res : value) : float :=
  match confidence_scores res with
  | [] => DEFAULT_CONFIDENCE
  | scores => average_form scores
  end.

(** The raw text of a receipt, when no conversion throws *)
Definition text_line_text (label : string) (v : value) : jstring :=
  if truthy v then js label ++ string_form v ++ [10%N] else [].

Definition item_line_text (item : Item) : jstring :=
  (if PrimFloat.ltb 1 (quantity item) then Number_toString (quantity item) ++ js "x "
   else [])
  ++ string_form (name item)
  ++ (if truthy (VNum (totalPrice item)) then js " $" ++ toFixed2 (totalPrice item) else [])
  ++ [10%N].

Definition summary_text (r : Receipt) : jstring :=
  text_line_text "" (merchant r)
  ++ text_line_text "" (address r)
  ++ text_line_text "Phone: " (phone r)
  ++ [10%N]
  ++ text_line_text "Date: " (date r)
  ++ [10%N]
  ++ List.concat (map item_line_text (items r))
  ++ [10%N]
  ++ money_line "Subtotal: $" (subtotal r)
  ++ money_line "Tax: $" (tax r)
  ++ money_line "Total: $" (total r).

(** The conditions under which no conversion of the parser throws, in the
    order of the [try] block: the three amounts, the kept line items, the
    confidences, and the texts printed into the summary (merchant, address,
    phone, date and the names of the items). *)
Definition amounts_ok (res : value) : bool :=
  usable (field res "total") && usable (field res "tax") && usable (field res "subTotal").

Definition items_convert (res : value) : bool :=
  match field res "lineItems" with
  | VArr l => forallb item_converts (filter kept l)
  | _ => true
  end.

Definition confidences_ok (res : value) : bool :=
  forallb convertible (confidence_scores res).

Definition summary_ok (r : Receipt) : bool :=
  usable (merchant r) && usable (address r) && usable (phone r) && usable (date r)
  && forallb (fun item => convertible (name item)) (items r).

(** Nothing in the [try] block throws. *)
Definition parse_clean (res : value) : bool :=
  date_ok res && amounts_ok res && items_ok res && items_convert res
  && confidences_ok res && summary_ok (parsed_receipt res).

(** The object of the [catch] branch *)
Definition parse_failure (tabScannerData : value) : OCRResult :=
  mkOCRResult false (Some (js "Failed to parse OCR response")) zero [] None tabScannerData.

(** [{ result: {} }], [{ result: { dateISO: 20250821 } }] and
    [{ result: { total: { "toString": 1 } } }] *)
Definition empty_result_payload : value := VObj [(js "result", VObj [])].
Definition numeric_date_payload : value :=
  VObj [(js "result", VObj [(js "dateISO", VNum 20250821)])].
Definition unprintable_total_payload : value :=
  VObj [(js "result", VObj [(js "total", toString_object)])].

(** The receipt parsed from an empty result object *)
Definition receipt_of_empty_result : Receipt :=
  mkReceipt VNull VNull VNull VUndef VNull (Some zero) (Some zero) (Some zero) [].

(** [{ error: 'Some error occurred' }], a payload without [result], and what
    the parser returns for it: [success] false and a confidence of 0. *)
Definition payload_without_result : value :=
  VObj [(js "error", VStr (js "Some error occurred"))].

Definition parsed_without_result : OCRResult :=
  mkOCRResult false None zero [] (Some empty_receipt) payload_without_result.

(** What the parser returns for [{ result: {} }]: the raw text is the three
    line breaks of the summary. *)
Definition parsed_empty_result : OCRResult :=
  mkOCRResult true None 0.9 [10%N; 10%N; 10%N] (Some receipt_of_empty_result)
              empty_result_payload.

End ParserNotions.

Section TypeCodeNotions.
Import CustomFieldMapper.

(** The fixed vocabulary of type codes *)
Definition type_codes : list jstring := [PROD; DAIRY; BAKERY; MEAT; PANTRY; FEE; MISC].

(** The keyword rules as an ordered table, and the first rule that
    matches. *)
Definition type_code_rules : list (list string * jstring) :=
  [ (["produce"; "fruit"; "vegetable"; "apple"; "banana"; "berries"; "broccoli";
      "spinach"; "onion"]%string, PROD);
    (["milk"; "yogurt"; "cheese"; "dairy"]%string, DAIRY);
    (["bread"; "bakery"]%string, BAKERY);
    (["meat"; "beef"; "chicken"; "fish"]%string, MEAT);
    (["beans"; "oil"; "pasta"; "rice"]%string, PANTRY);
    (["bottle"; "deposit"; "fee"]%string, FEE) ].

Fixpoint first_match (rules : list (list string * jstring)) (name : jstring)
    (default : jstring) : jstring :=
  match rules with
  | [] => default
  | (keywords, code) :: tl =>
    if includes_any name keywords then code else first_match tl name default
  end.

(** The name that [generateItemTypeCode] classifies:
    [item.descClean || item.desc || ''] *)
Definition description (item : value) : value :=
  js_or (js_or (field item "descClean") (field item "desc")) (VStr []).

(** A description that is missing or holds text *)
Definition text_or_absent (v : value) : Prop :=
  v = VUndef \/ v = VNull \/ exists s, v = VStr s.

End TypeCodeNotions.

Section MapperNotions.
Import CustomFieldMapper.

(** [{ rawData: { result: res } }], the shape [mapToCustomStructure]
    reads *)
Definition payload_of (res : value) : value :=
  VObj [(js "rawData", VObj [(js "result", res)])].

(** [{ lineItems: [{ desc: "Bag" }] }]: a line item with a description and
    neither [price] nor [lineTotal] nor [qty] *)
Definition item_without_prices : value :=
  VObj [(js "lineItems", VArr [VObj [(js "desc", VStr (js "Bag"))]])].

(** [{ summaryItems: [{ lineType: "Tax", desc: "Sales Tax" }] }]: a tax line
    without a [lineTotal] *)
Definition tax_line_without_total : value :=
  VObj [(js "summaryItems",
         VArr [VObj [(js "lineType", VStr (js "Tax")); (js "desc", VStr (js "Sales Tax"))]])].

(** [{ lineItems: [{ lineTotal: 3 }] }]: a line item without [descClean]
    and [desc] *)
Definition item_without_description : value :=
  VObj [(js "lineItems", VArr [VObj [(js "lineTotal", VNum 3)]])].

(** [{ summaryItems: [{ lineType: "Subtotal", lineTotal: 9 }] }]: a summary
    line without [desc] *)
Definition summary_line_without_description : value :=
  VObj [(js "summaryItems",
         VArr [VObj [(js "lineType", VStr (js "Subtotal")); (js "lineTotal", VNum 9)]])].

End MapperNotions.

Section TaxNotions.
Import CustomFieldMapper.

(** A summary line of the source receipt: an optional line type, a
    description and a line total. *)
Record SummaryLine : Type := mkSummaryLine {
  lineType : option jstring;
  desc : jstring;
  lineTotal : float
}.

Definition summary_value (l : SummaryLine) : value :=
  VObj ((match lineType l with
         | Some t => [(js "lineType", VStr t)]
         | None => []
         end)
        ++ [(js "desc", VStr (desc l)); (js "lineTotal", VNum (lineTotal l))]).

(** A field that is absent or holds an array *)
Definition optional_array {A} (enc : A -> value) (o : option (list A)) : value :=
  match o with
  | Some l => VArr (map enc l)
  | None => VUndef
  end.

(** A summary line is tax-tagged by its type or by its description. *)
Definition tax_tagged (l : SummaryLine) : bool :=
  (match lineType l with
   | Some t => jstring_eqb t (js "Tax")
   | None => false
   end)
  || includes (toLowerCase (desc l)) (js "tax").

Definition tax_lines (summary : option (list SummaryLine)) : list SummaryLine :=
  match summary with
  | Some l => filter tax_tagged l
  | None => []
  end.

(** Slot [i] of the target: entry [i] of the tax list when there is one and
    it is not zero, otherwise the total of tax-tagged line [i] when there is
    one, otherwise 0. *)
Definition slot (taxes : option (list float)) (summary : option (list SummaryLine))
    (i : nat) : value :=
  let fallback :=
    match nth_error (tax_lines summary) i with
    | Some l => VNum (lineTotal l)
    | None => VNum zero
    end in
  match taxes with
  | Some ts =>
    match nth_error ts i with
    | Some t => if truthy (VNum t) then VNum t else fallback
    | None => fallback
    end
  | None => fallback
  end.

(** The [filter] callback on a summary line does not throw: the line is
    not [null] or [undefined], and it has the type ['Tax'] or a string for
    [desc]. *)
Definition line_readable (item : value) : bool :=
  negb (is_nullish item)
  && (is_literal (field item "lineType") "Tax" || is_string (field item "desc")).

(** The line is tax-tagged, by its type or by its description. *)
Definition line_tagged (item : value) : bool :=
  is_literal (field item "lineType") "Tax"
  || match field item "desc" with
     | VStr d => includes (toLowerCase d) (js "tax")
     | _ => false
     end.

(** [result.summaryItems || []] can be filtered: it is an array of
    readable lines. *)
Definition summary_readable (res : value) : bool :=
  match js_or (field res "summaryItems") (VArr []) with
  | VArr l => forallb line_readable l
  | _ => false
  end.

(** The tax-tagged lines of [result.summaryItems || []], in order *)
Definition tagged_lines (res : value) : list value :=
  match js_or (field res "summaryItems") (VArr []) with
  | VArr l => filter line_tagged l
  | _ => []
  end.

(** [taxes[i]], where [taxes] is [result.taxes || []] *)
Definition tax_entry (res : value) (i : nat) : value :=
  match get_index (js_or (field res "taxes") (VArr [])) i with
  | Ok v => v
  | Throw _ => VUndef
  end.

(** Slot [i] on any result object: entry [i] of the tax list when it is
    truthy, otherwise the line total of tax-tagged line [i] when there is
    one, otherwise 0. *)
Definition slot_of (res : value) (i : nat) : value :=
  if truthy (tax_entry res i) then tax_entry res i
  else match nth_error (tagged_lines res) i with
       | Some line => field line "lineTotal"
       | None => VNum zero
       end.

(** The two slots as the specification words them: the first two values of
    the tax list or, when that is absent or empty, of the tax-tagged
    summary lines, a missing slot being 0. *)
Definition spec_tax_slots (taxes : option (list float))
    (summary : option (list SummaryLine)) : value * value :=
  let source :=
    match taxes with
    | Some (t :: ts) => t :: ts
    | _ => map lineTotal (tax_lines summary)
    end in
  (VNum (nth 0 source zero), VNum (nth 1 source zero)).

(** Two tax lines, [State Tax] at 0.15 and [City Tax] at 0.10; a receipt
    with the tax list [0.22] and these lines; and a receipt with the tax
    list [0, 0.22, 0.05] and one tax line at 0.49 *)
Definition two_tax_lines : list SummaryLine :=
  [mkSummaryLine (Some (js "Tax")) (js "State Tax") 0.15;
   mkSummaryLine (Some (js "Tax")) (js "City Tax") 0.1].

Definition one_tax_two_lines : value :=
  VObj [(js "taxes", VArr [VNum 0.22]);
        (js "summaryItems", VArr (map summary_value two_tax_lines))].

Definition zero_tax_first : value :=
  VObj [(js "taxes", VArr [VNum 0; VNum 0.22; VNum 0.05]);
        (js "summaryItems",
         VArr [summary_value (mkSummaryLine (Some (js "Tax")) (js "Sales Tax") 0.49)])].

(** [{ summaryItems: [{ lineType: "Total", desc: 7 }] }] and
    [{ summaryItems: 3 }] *)
Definition numeric_desc_line : value :=
  VObj [(js "summaryItems",
         VArr [VObj [(js "lineType", VStr (js "Total")); (js "desc", VNum 7)]])].
Definition numeric_summary : value := VObj [(js "summaryItems", VNum 3)].

(** The tax list of the specification, on a receipt that also has a
    tax-tagged summary line *)
Definition three_taxes_and_a_tax_line : value :=
  VObj [(js "taxes", VArr [VNum 0.22; VNum 0.22; VNum 0.05]);
        (js "summaryItems",
         VArr [summary_value (mkSummaryLine (Some (js "Tax")) (js "Sales Tax") 0.49)])].

End TaxNotions.

Section BrandNotions.
Import CustomFieldMapper.

(** No white space at the head *)
Definition no_lead_ws (s : jstring) : Prop :=
  match s with
  | c :: _ => is_ws c = false
  | [] => True
  end.

(** Dropping white space at the end *)
Definition drop_end (s : jstring) : jstring := rev (drop_ws (rev s)).

(** The canonical brand, and whether a name, lower-cased and trimmed,
    contains one of the aliases. *)
Definition CANONICAL : jstring := js "Trader Joes".

Definition matches_alias (s : jstring) : bool :=
  existsb (fun '(pattern, _) => includes (trim (toLowerCase s)) pattern) brandNormalization.

(** [TRADER 'JOES']: no alias occurs in it, but one occurs once the quotes
    are gone. *)
Definition quoted_brand : jstring := js "TRADER 'JOES'".

End BrandNotions.

Section ExampleInputs.

(** The result object of the end-to-end example of the specification:
    Trader Joe's, total 96.49, tax 0.62, two line items. *)
Definition trader_joes_result : value :=
  VObj [ (js "establishment", VStr (js "Trader Joe's"));
         (js "total", VNum 96.49);
         (js "tax", VNum 0.62);
         (js "lineItems",
          VArr [ VObj [(js "descClean", VStr (js "OL VE OIL")); (js "lineTotal", VNum 9.99)];
                 VObj [(js "descClean", VStr (js "COCONUT MILK")); (js "lineTotal", VNum 1.89)] ]) ].

(** The address of the specification's example *)
Definition portland_address : jstring :=
  js "Trader Joe'S Portland (519), Marginal Way, Portland, ME 04101".

End ExampleInputs.

Section PipelineNotions.
Import OCRService.

(** What every item of a parsed receipt satisfies: a truthy name, a quantity
    that is neither zero nor NaN, a unit price that is [null] or a non-zero
    number, a total price that is a number, no category, confidence 1. *)
Definition item_well_formed (it : Item) : Prop :=
  truthy (name it) = true
  /\ truthy (VNum (quantity it)) = true
  /\ (forall p, unitPrice it = Some p -> truthy (VNum p) = true)
  /\ is_nan (totalPrice it) = false
  /\ category it = VNull
  /\ confidence it = one.

(** [{ result: { lineItems: [ {descClean: "Milk", lineTotal: 3, qty: 0},
    {desc: "Bag"}, {descClean: "Tea", lineTotal: "n/a", price: 0} ] } }] *)
Definition three_lines_payload : value :=
  VObj [(js "result",
         VObj [(js "lineItems",
                VArr [ VObj [(js "descClean", VStr (js "Milk")); (js "lineTotal", VNum 3);
                             (js "qty", VNum 0)];
                       VObj [(js "desc", VStr (js "Bag"))];
                       VObj [(js "descClean", VStr (js "Tea"));
                             (js "lineTotal", VStr (js "n/a")); (js "price", VNum 0)] ])])].

(** [{ result: { establishment: 5 } }]: a merchant that is a number *)
Definition numeric_merchant_payload : value :=
  VObj [(js "result", VObj [(js "establishment", VNum 5)])].

(** [{ result: { date: "2025-08-21" } }]: a date and nothing else *)
Definition date_only_payload : value :=
  VObj [(js "result", VObj [(js "date", VStr (js "2025-08-21"))])].

End PipelineNotions.

Section MerchantTextNotions.
Import OCRService.

(** A text of four lines: an address, a phone number, a blank line and the
    name of the shop. *)
Definition shop_text : jstring :=
  js "1234 Main St" ++ [10%N] ++ js "555-0100" ++ [10%N] ++ js "  " ++ [10%N]
     ++ js " Corner Shop ".

End MerchantTextNotions.

Section NetworkNotions.
Import OCRService.

(** The response makes the loop go round again: a status that can be
    logged, other than ['error'] and ['failed'], and not ['done'] with a
    truthy result. *)
Definition waiting_response (r : result value) : bool :=
  match r with
  | Ok data =>
    match get data "status" with
    | Ok status =>
      convertible status
      && negb (is_literal status "done" && truthy (field data "result"))
      && negb (is_literal status "error" || is_literal status "failed")
    | Throw _ => false
    end
  | Throw _ => false
  end.

(** The response ends the loop with a parsed receipt. *)
Definition done_response (r : result value) : bool :=
  match r with
  | Ok data =>
    match get data "status" with
    | Ok status => is_literal status "done" && truthy (field data "result")
    | Throw _ => false
    end
  | Throw _ => false
  end.

Definition TIMEOUT : exn :=
  Error (js "Processing timeout - results not available after polling").

(** [{ success: true, token: "t1" }] *)
Definition upload_accepted : result value :=
  Ok (VObj [(js "success", VBool true); (js "token", VStr (js "t1"))]).

(** Two pending responses, then [{ status: "done", result: {} }] for ever *)
Definition third_time_done (k : nat) : result value :=
  if Nat.leb k 2 then Ok (VObj [(js "status", VStr (js "pending"))])
  else Ok (VObj [(js "status", VStr (js "done")); (js "result", VObj [])]).

(** [{ status: "done" }] for ever: done, but without a result *)
Definition done_without_result (k : nat) : result value :=
  Ok (VObj [(js "status", VStr (js "done"))]).

(** [{ status: { "toString": 1 } }] for ever: a status that cannot be
    logged *)
Definition unprintable_status (k : nat) : result value :=
  Ok (VObj [(js "status", toString_object)]).

(** [{ success: true, token: { "toString": 1 } }] *)
Definition upload_with_unprintable_token : result value :=
  Ok (VObj [(js "success", VBool true); (js "token", toString_object)]).

End NetworkNotions.

Section AddressNotions.
Import CustomFieldMapper.

(** [s] occurs in [t] *)
Definition occurs_in (s t : jstring) : Prop := exists a b, t = a ++ s ++ b.

(** Five digits, or five digits, a hyphen and four digits *)
Definition zip_shaped (z : jstring) : Prop :=
  (List.length z = 5%nat /\ all_digits z = true)
  \/ (exists five four,
        z = five ++ [45%N] ++ four
        /\ List.length five = 5%nat /\ all_digits five = true
        /\ List.length four = 4%nat /\ all_digits four = true).

(** No unit of [s] is a digit *)
Definition digit_free (s : jstring) : bool := forallb (fun c => negb (is_digit c)) s.

(** The last unit of [a], when there is one, is not a word character *)
Definition ends_outside_word (a : jstring) : Prop :=
  forall a' c, a = a' ++ [c] -> is_word c = false.

(** [{ address: 5, addressNorm: { number: "12", street: "Elm St",
    postcode: "04101" } }]: an address that is a number beside a complete
    structured address; and the same without the postcode *)
Definition structured_address : value :=
  VObj [(js "address", VNum 5);
        (js "addressNorm",
         VObj [(js "number", VStr (js "12")); (js "street", VStr (js "Elm St"));
               (js "postcode", VStr (js "04101"))])].
Definition structured_address_without_postcode : value :=
  VObj [(js "address", VNum 5);
        (js "addressNorm",
         VObj [(js "number", VStr (js "12")); (js "street", VStr (js "Elm St"))])].

(** The parts of [res] that [parseAddress] reads *)
Definition address_norm (res : value) : value := js_or (field res "addressNorm") (VObj []).
Definition raw_address_of (res : value) : value := js_or (field res "address") (VStr []).

(** Every heuristic is needed and the address is not a string *)
Definition heuristic_fails (res : value) : bool :=
  negb (is_string (raw_address_of res))
  && negb (truthy (field (address_norm res) "number")
           && truthy (field (address_norm res) "street")
           && truthy (field (address_norm res) "postcode")).

End AddressNotions.

Section MapperErrorNotions.
Import CustomFieldMapper.

(** The computation throws nothing but a [TypeError] *)
Definition throws_only_TypeError {A : Type} (m : result A) : Prop :=
  forall e, m = Throw e -> e = TypeError.

(** [tabScannerData.rawData?.result] *)
Definition result_of (tabScannerData : value) : value :=
  if is_nullish (field tabScannerData "rawData") then VUndef
  else field (field tabScannerData "rawData") "result".

Definition NO_RESULT : exn := Error (js "No TabScanner result data found").

(** A host whose [Date] accepts nothing: [toISOString] throws on every
    value, [toTimeString] prints [Invalid Date]; and a [toTimeString] that
    throws on every value *)
Definition no_dates (v : value) : option jstring := None.
Definition invalid_date (v : value) : option jstring := Some (js "Invalid Date").

(** [{ rawData: { result: 0 } }] *)
Definition zero_result_payload : value := payload_of (VNum 0).

(** [item.descClean || item.desc], the name of a mapped item *)
Definition item_description (item : value) : value :=
  js_or (field item "descClean") (field item "desc").

(** The unit price can be computed: there is a truthy [price], or the
    operands of [item.lineTotal / (item.qty || 1)] convert to numbers. *)
Definition price_computable (item : value) : bool :=
  truthy (field item "price")
  || (convertible (field item "lineTotal") && convertible (field item "qty")).

(** The line item can be mapped: it is not [null] or [undefined], its
    description is a string, and its unit price can be computed. *)
Definition describable (item : value) : bool :=
  negb (is_nullish item) && is_string (item_description item) && price_computable item.

Definition categories : list jstring :=
  [js "produce"; js "dairy"; js "pantry"; js "prepared_food"; js "other"].

(** What [mapItems] makes of one line item *)
Definition mapped_from (item : value) (m : MappedItem) : Prop :=
  item_name m = item_description item
  /\ (exists s, item_description item = VStr s
                /\ item_type_code m = type_code_of_name (toLowerCase s))
  /\ In (item_type_code m) type_codes
  /\ In (category m) categories
  /\ item_price m = js_or (field item "lineTotal") (VNum zero)
  /\ truthy (quantity m) = true
  /\ truthy (unit m) = true
  /\ truthy (confidence m) = true
  /\ (truthy (field item "price") = true -> unit_price m = field item "price")
  /\ (truthy (field item "price") = false ->
      unit_price m = VNum (quotient_form (field item "lineTotal")
                                         (js_or (field item "qty") (VNum one)))).

(** [{ lineItems: [ {descClean: "Oat Milk", price: 4}, {desc: ""} ] }], and
    the same with a third line [{ desc: 7 }] *)
Definition two_lines : value :=
  VObj [(js "lineItems",
         VArr [ VObj [(js "descClean", VStr (js "Oat Milk")); (js "price", VNum 4)];
                VObj [(js "desc", VStr [])] ])].
Definition three_lines_one_numeric : value :=
  VObj [(js "lineItems",
         VArr [ VObj [(js "descClean", VStr (js "Oat Milk")); (js "price", VNum 4)];
                VObj [(js "desc", VStr [])];
                VObj [(js "desc", VNum 7)] ])].

(** [{ lineItems: [ {desc: "a", lineTotal: {"toString": 1}} ] }]: a line
    total that does not convert to a number *)
Definition unprintable_line_total : value :=
  VObj [(js "lineItems",
         VArr [ VObj [(js "desc", VStr (js "a")); (js "lineTotal", toString_object)] ])].

(** The three confidences read by both calculators *)
Definition confidences (res : value) : list value :=
  [field res "establishmentConfidence"; field res "totalConfidence";
   field res "dateConfidence"].

(** [{ result: { totalConfidence: 0.5 } }] *)
Definition one_confidence_payload : value :=
  VObj [(js "result", VObj [(js "totalConfidence", VNum 0.5)])].

End MapperErrorNotions.

Section ItemCategoryNotions.
Import EnricherItems.

(** A name that has [toLowerCase] or is skipped by [?.]: a string, [null]
    or [undefined] *)
Definition text_or_nullish (v : value) : bool :=
  match v with
  | VUndef | VNull | VStr _ => true
  | _ => false
  end.

(** The categories that the rules can give, each with its nutrition
    category, and the default *)
Definition category_pairs : list (value * value) :=
  map (fun rule => (VStr (js (fst rule)), VStr (js (nutrition_of (fst rule)))))
      categoryRules
  ++ [(VStr (js "other"), VStr (js "neutral"))].

(** The item keeps the category it came with *)
Definition keeps_category (item item' : Item) : Prop :=
  truthy (category item) = true
  /\ category item' = category item
  /\ nutrition_category item' = nutrition_category item.

(** [{ name: "Vanilla Ice Cream", category: null, nutrition_category: null,
    quantity: 1, line_total: 4.99 }] *)
Definition vanilla_ice_cream : Item :=
  mkItem (VStr (js "Vanilla Ice Cream")) VNull VNull (VNum 1) (VNum 4.99).

(** The prompt of a batch can be built: the name and the line total of
    every item convert to strings. *)
Definition item_printable (item : Item) : bool :=
  convertible (name item) && convertible (line_total item).

(** The item can be categorized after its batch has been printed: its name
    is a string, [null] or [undefined], and its line total converts to a
    string. *)
Definition categorizable (item : Item) : bool :=
  text_or_nullish (name item) && convertible (line_total item).

(** What a categorization leaves of [items]: the array afterwards and the
    exception that ended it, if any.  The array keeps its length and its
    names; there is no exception exactly when every item can be
    categorized, and then every category is truthy; the only exception is a
    [TypeError]. *)
Definition categorized (items : list Item) (out : list Item * option exn) : Prop :=
  List.length (fst out) = List.length items
  /\ map name (fst out) = map name items
  /\ (snd out = None <-> forallb categorizable items = true)
  /\ (snd out = None ->
      Forall (fun item => truthy (category item) = true) (fst out))
  /\ (forall e, snd out = Some e -> e = TypeError).

(** [{ name: "Milk", ... }] and [{ name: { "toString": 1 }, ... }] *)
Definition milk_item : Item := mkItem (VStr (js "Milk")) VNull VNull (VNum 1) (VNum 3).
Definition unprintable_item : Item := mkItem toString_object VNull VNull (VNum 1) (VNum 3).

(** A stand-in for the application of a model response *)
Definition ignore_response (response : jstring) (items : list Item) : list Item := items.

End ItemCategoryNotions.

Section EnhancementNotions.
Import Enricher.

(** [{ name: "WALMART #12", chain: "WALMART #12", normalized_name: null,
    store_type: null }] and a store whose name is a number *)
Definition walmart_store : Store :=
  mkStore (VStr (js "WALMART #12")) (VStr (js "WALMART #12")) VNull VNull VUndef
          VNull VNull VUndef.
Definition numeric_store : Store :=
  mkStore (VNum 7) (VNum 7) VNull VNull VUndef VNull VNull VUndef.

Definition no_insights : Insights := mkInsights VNull one VUndef.

(** An empty result: no store name, no date, no total, no items *)
Definition blank_result : Result :=
  mkResult (mkStore VUndef VUndef VNull VNull VUndef VNull VNull VUndef) VUndef zero []
           no_insights (AIDataParser.mkQuality 0.8 0 0) VNull.

(** The same with the address [{ "toString": 1 }] *)
Definition unprintable_address_result : Result :=
  mkResult (mkStore VUndef VUndef VNull VNull VUndef toString_object VNull VUndef) VUndef
           zero [] no_insights (AIDataParser.mkQuality 0.8 0 0) VNull.

(** The prompts of the AI steps can be built: the store prompt over name,
    address, phone and website; the prompt of each batch; the insights
    prompt over the first twenty items, the store name, the date and the
    time. *)
Definition store_printable (st : Store) : bool :=
  forallb convertible [name st; location_address st; contact_phone st; contact_website st].

Definition summary_printable (item : EnricherItems.Item) : bool :=
  convertible (EnricherItems.name item)
  && convertible (EnricherItems.quantity item)
  && convertible (EnricherItems.line_total item).

Definition insights_printable (result : Result) : bool :=
  forallb summary_printable (firstn 20 (items result))
  && convertible (name (store result))
  && convertible (transaction_date result)
  && convertible (transaction_time result).

Definition prompts_printable (result : Result) : bool :=
  store_printable (store result)
  && forallb item_printable (items result)
  && insights_printable result.

(** The mean of a list of numbers, summed from the left *)
Definition float_mean (xs : list float) : float :=
  (fold_left PrimFloat.add xs zero / float_of_Z (Z.of_nat (List.length xs)))%float.

(** The confidences that are neither [null] nor [undefined] *)
Definition present_confidences (res : value) : list value :=
  filter (fun v => negb (is_nullish v)) (confidences res).

(** [{ totalConfidence: 0.5, dateConfidence: 1 }] and
    [{ totalConfidence: { "toString": 1 } }] *)
Definition two_confidences : value :=
  VObj [(js "totalConfidence", VNum 0.5); (js "dateConfidence", VNum 1)].
Definition unprintable_confidence : value :=
  VObj [(js "totalConfidence", toString_object)].

Definition ignore_all : Apply :=
  mkApply (fun _ st => st) ignore_response (fun _ ins => ins).

(** The values that [data_completeness] takes once the store has been
    enhanced: two of the six checks always hold *)
Definition enhanced_completeness : list float := [33; 50; 67; 83; 100]%float.

(** The checks that the enhancement does not settle: store name, date,
    total, items *)
Definition open_checks (result : Result) : list bool :=
  [ truthy (name (store result));
    truthy (transaction_date result);
    PrimFloat.ltb zero (financial_grand_total result);
    Nat.ltb 0 (List.length (items result)) ].

End EnhancementNotions.

Section UploadNotions.
Import OCRService.

(** [{ success: false, message: "Invalid API key" }] and [{ success: true }] *)
Definition upload_refused : result value :=
  Ok (VObj [(js "success", VBool false); (js "message", VStr (js "Invalid API key"))]).
Definition upload_without_token : result value :=
  Ok (VObj [(js "success", VBool true)]).

(** The message of a failed upload *)
Definition upload_failure (data : value) : exn :=
  Error (js "Upload failed: "
         ++ string_form (js_or (field data "message") (VStr (js "Unknown error")))).

(** [{ success: false, message: { "toString": 1 } }] *)
Definition upload_refused_unprintable : result value :=
  Ok (VObj [(js "success", VBool false); (js "message", toString_object)]).

End UploadNotions.

(** * Properties *)

(** Settles the comparisons of a code unit [c] against constants that the
    bounds in the context decide negatively. *)
Ltac decide_unit_tests c :=
  repeat match goal with
         | |- context [(c =? ?k)%N] =>
           replace (c =? k)%N with false by (symmetry; apply N.eqb_neq; lia)
         | |- context [(c <=? ?k)%N] =>
           replace (c <=? k)%N with false by (symmetry; apply N.leb_gt; lia)
         | |- context [(?k <=? c)%N] =>
           replace (k <=? c)%N with false by (symmetry; apply N.leb_gt; lia)
         end.

(** ** Conversions *)
Section ConversionFacts.

Lemma value_nested_ind (P : value -> Prop) :
  P VUndef -> P VNull -> (forall b, P (VBool b)) -> (forall x, P (VNum x)) ->
  (forall s, P (VStr s)) -> (forall l, Forall P l -> P (VArr l)) ->
  (forall fields, P (VObj fields)) ->
  forall v, P v.
Proof.
  intros H1 H2 H3 H4 H5 H6 H7. fix IH 1. intros [| |b|x|s|l|fields].
  - exact H1.
  - exact H2.
  - exact (H3 b).
  - exact (H4 x).
  - exact (H5 s).
  - apply H6. revert l. fix IHl 1. intros [|v tl]; constructor; [apply IH | apply IHl].
  - exact (H7 fields).
Qed.

Lemma ToString_cons (x : value) (tl : list value) :
  ToString (VArr (x :: tl))
  = bind (match x with VUndef | VNull => Ok [] | _ => ToString x end) (fun sx =>
    match tl with
    | [] => Ok sx
    | _ => bind (ToString (VArr tl)) (fun rest => Ok (sx ++ [44%N] ++ rest))
    end).
Proof. reflexivity. Qed.

Lemma convertible_cons (x : value) (tl : list value) :
  convertible (VArr (x :: tl)) = convertible x && convertible (VArr tl).
Proof. reflexivity. Qed.

Lemma string_form_cons (x : value) (tl : list value) :
  string_form (VArr (x :: tl))
  = let sx := match x with VUndef | VNull => [] | _ => string_form x end in
    match tl with
    | [] => sx
    | _ => sx ++ [44%N] ++ string_form (VArr tl)
    end.
Proof. reflexivity. Qed.

Lemma convertible_array (l : list value) :
  convertible (VArr l) = forallb convertible l.
Proof.
  induction l as [|x tl IH]; [reflexivity|].
  rewrite convertible_cons, IH. reflexivity.
Qed.

(** [ToString] throws, a [TypeError], exactly on the values that are not
    convertible. *)
Lemma ToString_spec (v : value) :
  ToString v = if convertible v then Ok (string_form v) else Throw TypeError.
Proof.
  induction v as [| |b|x|s|l IH|fields] using value_nested_ind; try reflexivity.
  - induction IH as [|x tl Hx _ IHtl]; [reflexivity|].
    rewrite ToString_cons, convertible_cons, string_form_cons, IHtl. cbv zeta.
    assert (Hhead : match x with VUndef | VNull => Ok [] | _ => ToString x end
                    = if convertible x
                      then Ok (match x with VUndef | VNull => [] | _ => string_form x end)
                      else Throw TypeError).
    { destruct x; try reflexivity; exact Hx. }
    rewrite Hhead. destruct (convertible x); cbn [bind andb]; [|reflexivity].
    destruct tl as [|y tl']; [reflexivity|].
    destruct (convertible (VArr (y :: tl'))); reflexivity.
  - cbn [ToString convertible string_form]. destruct (has_own "toString" fields); reflexivity.
Qed.

Lemma ToString_convertible (v : value) :
  convertible v = true -> ToString v = Ok (string_form v).
Proof. intros H. rewrite ToString_spec, H. reflexivity. Qed.

Lemma ToString_throws (v : value) :
  convertible v = false -> ToString v = Throw TypeError.
Proof. intros H. rewrite ToString_spec, H. reflexivity. Qed.

Lemma ToPrimitive_spec (v : value) :
  ToPrimitive v = if convertible v then Ok (primitive_form v) else Throw TypeError.
Proof.
  destruct v; try reflexivity; unfold ToPrimitive, primitive_form;
    rewrite ToString_spec; destruct (convertible _); reflexivity.
Qed.

Lemma ToNumber_spec (v : value) :
  ToNumber v = if convertible v then Ok (number_form v) else Throw TypeError.
Proof.
  unfold ToNumber, number_form. rewrite ToPrimitive_spec.
  destruct (convertible v); reflexivity.
Qed.

Lemma js_add_spec (a b : value) :
  js_add a b
  = if convertible a && convertible b then Ok (sum_form a b) else Throw TypeError.
Proof.
  unfold js_add, sum_form. rewrite !ToPrimitive_spec.
  destruct (convertible a); cbn [bind andb]; [|reflexivity].
  destruct (convertible b); cbn [bind]; [|reflexivity].
  destruct (primitive_form a), (primitive_form b); reflexivity.
Qed.

Lemma js_div_spec (a b : value) :
  js_div a b
  = if convertible a && convertible b then Ok (quotient_form a b) else Throw TypeError.
Proof.
  unfold js_div, quotient_form. rewrite !ToNumber_spec.
  destruct (convertible a); cbn [bind andb]; [|reflexivity].
  destruct (convertible b); reflexivity.
Qed.

Lemma parseFloat_spec (v : value) :
  parseFloat v
  = if convertible v then Ok (parseFloat_string (string_form v)) else Throw TypeError.
Proof. unfold parseFloat. rewrite ToString_spec. destruct (convertible v); reflexivity. Qed.

Lemma primitive_convertible (v : value) : is_primitive v = true -> convertible v = true.
Proof. destruct v; try discriminate; reflexivity. Qed.

Lemma falsy_convertible (v : value) : truthy v = false -> convertible v = true.
Proof. destruct v; try discriminate; reflexivity. Qed.

Lemma usable_or (v d : value) : is_primitive d = true -> usable (js_or v d) = usable v.
Proof.
  intros Hd. unfold js_or, usable. destruct (truthy v) eqn:E; [rewrite E; reflexivity|].
  cbn [negb orb]. rewrite (primitive_convertible d Hd). apply orb_true_r.
Qed.

Lemma sum_form_primitive (a b : value) : is_primitive (sum_form a b) = true.
Proof. unfold sum_form. destruct (primitive_form a), (primitive_form b); reflexivity. Qed.

(** The sum of [reduce]: it throws exactly when an element is not
    convertible. *)
Lemma foldM_js_add (l : list value) :
  forall acc, is_primitive acc = true ->
  foldM js_add l acc
  = if forallb convertible l then Ok (fold_left sum_form l acc) else Throw TypeError.
Proof.
  induction l as [|x tl IH]; intros acc Hacc; [reflexivity|].
  cbn [foldM forallb fold_left]. rewrite js_add_spec, (primitive_convertible acc Hacc).
  cbn [andb]. destruct (convertible x); cbn [bind andb]; [|reflexivity].
  apply IH, sum_form_primitive.
Qed.

Lemma fold_sum_primitive (l : list value) (acc : value) :
  is_primitive acc = true -> is_primitive (fold_left sum_form l acc) = true.
Proof.
  revert acc. induction l as [|x tl IH]; intros acc H; [exact H|].
  cbn [fold_left]. apply IH, sum_form_primitive.
Qed.

End ConversionFacts.

(** ** Amount parsing ([OCRService.parseAmount]) *)
Section ParseAmountFacts.
Import OCRService.

Lemma parseAmount_spec (amount : value) :
  parseAmount amount
  = if usable amount then Ok (amount_of amount) else Throw TypeError.
Proof.
  unfold parseAmount, amount_of, usable.
  destruct (truthy amount); cbn [negb orb]; [|reflexivity].
  rewrite ToString_spec. destruct (convertible amount); reflexivity.
Qed.

Lemma take_digits_no_digit (s : jstring) :
  match s with [] => True | c :: _ => is_digit c = false end ->
  take_digits s = ([], s).
Proof.
  destruct s as [|c tl]; simpl; [reflexivity|].
  intros ->. reflexivity.
Qed.

Lemma head_dot_or_minus (s : jstring) :
  Forall dot_or_minus s ->
  match s with [] => True | c :: _ => is_digit c = false end.
Proof.
  intros H. destruct s as [|c tl]; [exact I|].
  inversion H as [|? ? [-> | ->] _]; reflexivity.
Qed.

(** A string of dots and minus signs has no prefix that reads as a decimal
    literal. *)
Lemma read_unsigned_dot_or_minus (neg : bool) (s : jstring) :
  Forall dot_or_minus s -> read_unsigned neg s = None.
Proof.
  intros H. unfold read_unsigned.
  assert (Hi : starts_with (js "Infinity") s = false).
  { destruct s as [|c tl]; [reflexivity|].
    inversion H as [|? ? [-> | ->] _]; reflexivity. }
  rewrite Hi, (take_digits_no_digit s (head_dot_or_minus s H)).
  destruct s as [|c tl]; [reflexivity|].
  inversion H as [|? ? [-> | ->] Htl]; subst.
  - change ((46 =? 46)%N) with true; cbv iota.
    rewrite (take_digits_no_digit tl (head_dot_or_minus tl Htl)). reflexivity.
  - reflexivity.
Qed.

Lemma read_decimal_dot_or_minus (s : jstring) :
  Forall dot_or_minus s -> read_decimal (drop_ws s) = None.
Proof.
  intros H.
  assert (Hd : drop_ws s = s).
  { destruct s as [|c tl]; [reflexivity|].
    inversion H as [|? ? [-> | ->] _]; reflexivity. }
  rewrite Hd. unfold read_decimal.
  destruct s as [|c tl]; [reflexivity|].
  inversion H as [|? ? [-> | ->] Htl]; subst.
  - change ((46 =? 45)%N) with false; change ((46 =? 43)%N) with false; cbv iota.
    apply read_unsigned_dot_or_minus, H.
  - change ((45 =? 45)%N) with true; cbv iota.
    apply read_unsigned_dot_or_minus, Htl.
Qed.

Lemma cleanAmount_no_digit (s : jstring) :
  existsb is_digit s = false -> Forall dot_or_minus (cleanAmount s).
Proof.
  unfold cleanAmount, remove_class.
  induction s as [|c tl IH]; simpl; intros H.
  - constructor.
  - apply orb_false_iff in H as [Hc Htl].
    destruct (is_currency c); simpl; [exact (IH Htl)|].
    destruct (is_amount_char c) eqn:Ha; simpl; [|exact (IH Htl)].
    constructor; [|exact (IH Htl)].
    unfold is_amount_char in Ha. rewrite Hc in Ha. simpl in Ha.
    apply orb_true_iff in Ha as [Ha | Ha]; apply N.eqb_eq in Ha; [left | right]; exact Ha.
Qed.

Lemma amount_char_range (c : code_unit) :
  is_amount_char c = true -> (45 <= c <= 57)%N.
Proof.
  unfold is_amount_char, is_digit.
  destruct (N.leb_spec 48 c), (N.leb_spec c 57), (N.eqb_spec c 46), (N.eqb_spec c 45);
    simpl; intros Hc; try discriminate; lia.
Qed.

Lemma amount_char_not_stripped (c : code_unit) :
  is_amount_char c = true -> is_currency c = false /\ is_ws c = false.
Proof.
  intros H. apply amount_char_range in H.
  unfold is_currency, is_ws. split.
  - decide_unit_tests c. reflexivity.
  - replace (9 <=? c)%N with true by (symmetry; apply N.leb_le; lia).
    decide_unit_tests c. reflexivity.
Qed.

(** On a string made of currency symbols, white space and the characters of
    an amount, cleaning removes the currency symbols and the white space and
    nothing else. *)
Lemma cleanAmount_strips (s : jstring) :
  forallb (fun c => is_currency c || is_ws c || is_amount_char c) s = true ->
  cleanAmount s = remove_class (fun c => is_currency c || is_ws c) s.
Proof.
  unfold cleanAmount, remove_class.
  induction s as [|c tl IH]; simpl; intros H; [reflexivity|].
  apply andb_true_iff in H as [Hc Htl].
  specialize (IH Htl).
  destruct (is_amount_char c) eqn:Ha.
  - destruct (amount_char_not_stripped c Ha) as [H1 H2]. rewrite H1, H2. simpl.
    rewrite Ha. simpl. f_equal. exact IH.
  - rewrite orb_false_r in Hc.
    destruct (is_currency c) eqn:Hcur; simpl; [exact IH|].
    simpl in Hc. rewrite Hc. rewrite Ha. simpl. exact IH.
Qed.

Lemma cleanAmount_filter (s : jstring) : cleanAmount s = filter is_amount_char s.
Proof.
  unfold cleanAmount, remove_class.
  induction s as [|c tl IH]; [reflexivity|].
  cbn [filter]. destruct (is_amount_char c) eqn:Ha.
  - destruct (amount_char_not_stripped c Ha) as [Hc _]. rewrite Hc. cbn [negb filter].
    rewrite Ha. cbn [negb]. f_equal. exact IH.
  - destruct (is_currency c); cbn [negb filter]; [exact IH|].
    rewrite Ha. cbn [negb]. exact IH.
Qed.

Lemma amount_of_not_nan (v : value) (x : float) :
  amount_of v = Some x -> is_nan x = false.
Proof.
  unfold amount_of. destruct (negb (truthy v)); [discriminate|].
  destruct (is_nan (parseFloat_string (cleanAmount (string_form v)))) eqn:E; [discriminate|].
  intros H. injection H as <-. exact E.
Qed.

Lemma amount_of_no_digit (v : value) :
  existsb is_digit (string_form v) = false -> amount_of v = None.
Proof.
  intros H. unfold amount_of. destruct (negb (truthy v)); [reflexivity|].
  unfold parseFloat_string.
  rewrite (read_decimal_dot_or_minus _ (cleanAmount_no_digit _ H)). reflexivity.
Qed.

(** C3, as stated, fails twice.  A string that is not a number can give a
    number: cleaning removes the letter of [A1] and leaves 1 (the string is
    not numeric even with currency symbols and white space removed).  And
    [parseAmount] can throw: [String(amount)] throws on an object with an
    own [toString], and nothing catches it. *)
Lemma parseAmount_counterexample :
  parseAmount (VStr (js "A1")) = Ok (Some 1%float)
  /\ is_nan (StringToNumber
               (remove_class (fun c => is_currency c || is_ws c) (js "A1"))) = true
  /\ parseAmount toString_object = Throw TypeError
  /\ ~ (forall s,
          is_nan (StringToNumber (remove_class (fun c => is_currency c || is_ws c) s))
          = true ->
          parseAmount (VStr s) = Ok None)
  /\ ~ (forall amount, exists r, parseAmount amount = Ok r).
Proof.
  assert (H1 : parseAmount (VStr (js "A1")) = Ok (Some 1%float)) by (vm_compute; reflexivity).
  assert (H2 : parseAmount toString_object = Throw TypeError) by reflexivity.
  split; [exact H1|]. split; [vm_compute; reflexivity|]. split; [exact H2|]. split.
  - intros H. specialize (H (js "A1") ltac:(vm_compute; reflexivity)).
    rewrite H1 in H. discriminate H.
  - intros H. destruct (H toString_object) as [r Hr]. rewrite H2 in Hr. discriminate Hr.
Qed.

(** C3, amended.  [parseAmount] returns [null] on a falsy input and
    otherwise converts the input to a string: it throws, a [TypeError],
    exactly when the input is truthy and that conversion throws (an object
    with an own [toString], or an array that holds one).  When it returns,
    the answer is [null] or a number that is not NaN, namely the decimal
    parse of what is left of the string after every character other than a
    digit, a dot and a minus sign has been removed; on a string of currency
    symbols, white space and such characters that is the removal of the
    currency symbols and the white space.  So an input whose string has no
    digit gives [null], whereas [A1] gives 1, the array [[1, 2]] gives 12,
    the number 1e21 gives 121 and 1e-7 gives 1; the numbers 25.87 and -3
    give themselves.  The five inputs of the specification give 25.87,
    15.50, 12.34, null and null. *)
Theorem parseAmount_total_and_examples :
  (forall amount : value,
      (usable amount = false -> parseAmount amount = Throw TypeError)
      /\ (usable amount = true ->
          parseAmount amount = Ok None
          \/ exists x, parseAmount amount = Ok (Some x) /\ is_nan x = false))
  /\ (forall amount : value, truthy amount = false -> parseAmount amount = Ok None)
  /\ (forall amount : value,
         truthy amount = true -> convertible amount = true ->
         parseAmount amount
         = Ok (let parsed :=
                 parseFloat_string (filter is_amount_char (string_form amount)) in
               if is_nan parsed then None else Some parsed))
  /\ (forall amount : value,
         usable amount = true ->
         existsb is_digit (string_form amount) = false -> parseAmount amount = Ok None)
  /\ (forall s : jstring,
         forallb (fun c => is_currency c || is_ws c || is_amount_char c) s = true ->
         filter is_amount_char s = remove_class (fun c => is_currency c || is_ws c) s)
  /\ map parseAmount [VStr (js "$25.87"); VStr (js "€15.50"); VStr (js "  $12.34  ");
                      VStr (js ""); VStr (js "invalid")]
     = [Ok (Some 25.87%float); Ok (Some 15.50%float); Ok (Some 12.34%float);
        Ok None; Ok None]
  /\ map parseAmount [VStr (js "A1"); VArr [VNum 1; VNum 2]; VNum 1e21; VNum 1e-7;
                      VNum 25.87; VNum (-3); VNum 0]
     = [Ok (Some 1%float); Ok (Some 12%float); Ok (Some 121%float); Ok (Some 1%float);
        Ok (Some 25.87%float); Ok (Some (-3)%float); Ok None].
Proof.
  split; [|split; [|split; [|split; [|split; [|split]]]]].
  - intros amount. rewrite parseAmount_spec. split; intros ->; [reflexivity|].
    destruct (amount_of amount) as [x|] eqn:E; [right | left; reflexivity].
    exists x. split; [reflexivity | exact (amount_of_not_nan amount x E)].
  - intros amount H. unfold parseAmount. rewrite H. reflexivity.
  - intros amount Ht Hc. unfold parseAmount. rewrite Ht, (ToString_convertible _ Hc).
    cbn [negb bind]. rewrite cleanAmount_filter. reflexivity.
  - intros amount Hu Hd. rewrite parseAmount_spec, Hu, (amount_of_no_digit _ Hd).
    reflexivity.
  - intros s H. rewrite <- cleanAmount_filter. exact (cleanAmount_strips s H).
  - vm_compute. reflexivity.
  - vm_compute. reflexivity.
Qed.

(** An input without a digit, and a truthy input that is not
    convertible, through the theorem. *)
Lemma parseAmount_total_and_examples_witness :
  parseAmount (VStr (js "N/A")) = Ok None
  /\ parseAmount (VArr [toString_object]) = Throw TypeError.
Proof.
  split.
  - apply (proj1 (proj2 (proj2 (proj2 parseAmount_total_and_examples)))); reflexivity.
  - apply (proj1 (proj1 parseAmount_total_and_examples (VArr [toString_object]))).
    reflexivity.
Defined.

End ParseAmountFacts.

(** ** Quality scoring ([AIDataParser.calculateQualityMetrics]) *)
Section QualityFacts.
Import AIDataParser.

Lemma count_checks_from (cs : list bool) (a b : nat) :
  fold_left (fun (acc : nat * nat) (check : bool) =>
               let (completenessScore, totalFields) := acc in
               (if check then S completenessScore else completenessScore, S totalFields))
            cs (a, b)
  = (a + true_checks cs, b + List.length cs)%nat.
Proof.
  unfold true_checks.
  revert a b. induction cs as [|c tl IH]; intros a b; simpl.
  - f_equal; lia.
  - rewrite IH. destruct c; simpl; f_equal; lia.
Qed.

Lemma count_checks_spec (cs : list bool) :
  count_checks cs = (true_checks cs, List.length cs).
Proof. unfold count_checks. rewrite count_checks_from. reflexivity. Qed.

(** The float computation of the percentage agrees with the integer
    percentage, for each of the seven possible counts. *)
Lemma percentage_of_six (b1 b2 b3 b4 b5 b6 : bool) :
  let k := true_checks [b1; b2; b3; b4; b5; b6] in
  Math_round ((float_of_Z (Z.of_nat k) / float_of_Z 6) * 100)%float
  = float_of_Z (integer_percentage k 6).
Proof.
  destruct b1, b2, b3, b4, b5, b6; vm_compute; reflexivity.
Qed.

(** C4.  [calculateQualityMetrics] stores as data completeness the integer
    percentage of the six checks that hold (store name, normalized name,
    date, total above zero, at least one item, store type), and as overall
    confidence [round((min(95, completeness + 10) + ocr * 100) / 2)]; a
    completeness of 83 with an OCR confidence of 0.9 gives 92. *)
Theorem calculateQualityMetrics_formula (result : ParsedData) :
  let q := quality (calculateQualityMetrics result) in
  let ocr := ocr_confidence (quality result) in
  data_completeness q
  = float_of_Z (integer_percentage (true_checks (checks result)) 6)
  /\ true_checks (checks result)
     = true_checks [ truthy (name (store result));
                     truthy (normalized_name (store result));
                     truthy (transaction_date result);
                     PrimFloat.ltb 0 (financial_grand_total result);
                     Nat.ltb 0 (List.length (items result));
                     truthy (store_type (store result)) ]
  /\ ai_confidence q = blend (data_completeness q) ocr
  /\ ocr_confidence q = ocr
  /\ (data_completeness q = 83%float -> ocr = 0.9%float -> ai_confidence q = 92%float).
Proof.
  cbv zeta. unfold calculateQualityMetrics.
  rewrite count_checks_spec.
  change (List.length (checks result)) with 6%nat.
  cbn [quality data_completeness ai_confidence ocr_confidence].
  assert (Hdc :
    Math_round ((float_of_Z (Z.of_nat (true_checks (checks result)))
                 / float_of_Z (Z.of_nat 6)) * 100)%float
    = float_of_Z (integer_percentage (true_checks (checks result)) 6)).
  { exact (percentage_of_six _ _ _ _ _ _). }
  repeat split.
  - exact Hdc.
  - intros H83 H09. unfold blend in *. rewrite H83, H09. vm_compute. reflexivity.
Qed.

Lemma calculateQualityMetrics_formula_witness :
  ai_confidence (quality (calculateQualityMetrics example_parsed_data)) = 92%float.
Proof.
  destruct (calculateQualityMetrics_formula example_parsed_data) as (_ & _ & _ & _ & H).
  apply H; vm_compute; reflexivity.
Defined.

End QualityFacts.

(** ** The validator ([OCRService.validateOCRResult]) *)
Section ValidatorFacts.
Import OCRService.

(** A number above zero is neither zero nor NaN. *)
Lemma positive_truthy (x : float) :
  PrimFloat.ltb zero x = true -> truthy (VNum x) = true.
Proof.
  unfold truthy, is_zero, is_nan.
  rewrite ltb_spec, !eqb_spec.
  change (Prim2SF zero) with (S754_zero false).
  destruct (Prim2SF x) as [s | s | | s m e]; try destruct s; try discriminate.
  - reflexivity.
  - intros _. unfold SFeqb, SFcompare.
    rewrite Z.compare_refl, Pos.compare_cont_refl. reflexivity.
Qed.

(** [hasTotal]: the total is a number above zero. *)
Lemma hasTotal_spec (rc : Receipt) :
  hasTotal rc = true <-> exists x, total rc = Some x /\ PrimFloat.ltb zero x = true.
Proof.
  unfold hasTotal. destruct (total rc) as [x|].
  - split.
    + intros H. apply andb_true_iff in H as [_ H]. exists x. split; [reflexivity | exact H].
    + intros [y [Hy H]]. injection Hy as <-. rewrite H, (positive_truthy x H). reflexivity.
  - split; [discriminate | intros [y [Hy _]]; discriminate].
Qed.

Lemma hasTotal_false (rc : Receipt) : hasTotal rc = false <-> total_missing rc.
Proof.
  unfold total_missing. split.
  - intros H x Hx. destruct (PrimFloat.ltb zero x) eqn:E; [|reflexivity].
    assert (Ht : hasTotal rc = true) by (apply hasTotal_spec; exists x; auto).
    congruence.
  - intros H. destruct (hasTotal rc) eqn:E; [|reflexivity].
    apply hasTotal_spec in E as [x [Hx Hp]]. rewrite (H x Hx) in Hp. discriminate.
Qed.

Lemma hasMerchant_spec (rc : Receipt) :
  text_or_missing (merchant rc) ->
  exists hM, hasMerchant rc = Ok hM /\ (hM = false <-> merchant_blank rc).
Proof.
  unfold hasMerchant, merchant_blank.
  intros [H | [H | [s H]]]; rewrite H; simpl.
  - exists false. split; [reflexivity|]. split; [intros _ s' Hs'; discriminate | reflexivity].
  - exists false. split; [reflexivity|]. split; [intros _ s' Hs'; discriminate | reflexivity].
  - destruct s as [|c tl].
    + exists false. split; [reflexivity|].
      split; [intros _ s' Hs'; injection Hs' as <-; reflexivity | reflexivity].
    + exists (Nat.ltb 0 (List.length (trim (c :: tl)))). split; [reflexivity|].
      split.
      * intros Hl s' Hs'. injection Hs' as <-.
        destruct (trim (c :: tl)); [reflexivity | discriminate].
      * intros Hb. rewrite (Hb _ eq_refl). reflexivity.
Qed.

Lemma hasRawText_false (r : OCRResult) : hasRawText r = false <-> rawText_short r.
Proof.
  unfold hasRawText, rawText_short, truthy.
  destruct (rawText r) as [|c tl]; simpl.
  - split; [lia | reflexivity].
  - destruct (Nat.ltb_spec 10 (S (List.length tl))); split; intros; try discriminate; try lia;
      reflexivity.
Qed.

Lemma hasItems_false (rc : Receipt) : hasItems rc = false <-> items rc = [].
Proof.
  unfold hasItems. destruct (items rc); simpl; split; intros; try discriminate; reflexivity.
Qed.

Lemma valid_warnings_membership (low hT hM hI : bool) :
  (In MSG_LOW_CONFIDENCE (valid_warnings low hT hM hI) <-> low = true)
  /\ (In MSG_NO_TOTAL (valid_warnings low hT hM hI) <-> hT = false)
  /\ (In MSG_NO_MERCHANT (valid_warnings low hT hM hI) <-> hM = false)
  /\ (In MSG_NO_ITEMS (valid_warnings low hT hM hI) <-> hI = false).
Proof.
  destruct low, hT, hM, hI; vm_compute; intuition congruence.
Qed.

(** What [validateOCRResult] returns on a successful result whose merchant
    is text or missing. *)
Lemma validate_success (r : OCRResult) (rc : Receipt) (hM : bool) :
  success r = true -> receipt r = Some rc -> hasMerchant rc = Ok hM ->
  validateOCRResult r
  = Ok (if negb (hasTotal rc) && negb hM && negb (hasRawText r) && negb (hasItems rc)
        then mkValidation false [MSG_NO_DATA]
               (if PrimFloat.ltb (ocr_confidence r) 0.5 then [MSG_LOW_CONFIDENCE] else [])
        else mkValidation true []
               (valid_warnings (PrimFloat.ltb (ocr_confidence r) 0.5)
                               (hasTotal rc) hM (hasItems rc))).
Proof.
  intros Hs Hr Hm. unfold validateOCRResult. rewrite Hs, Hr, Hm. simpl.
  destruct (negb (hasTotal rc) && negb hM && negb (hasRawText r) && negb (hasItems rc));
    reflexivity.
Qed.

(** C1, as stated, fails: a raw text that is not empty but has ten code
    units or fewer does not count as a signal.  The result that the parser
    returns for an empty result object has the raw text of three line
    breaks; its verdict is negative although its raw text is not empty. *)
Lemma validate_short_text_counterexample :
  parseTabScannerResponse empty_result_payload = Ok parsed_empty_result
  /\ validateOCRResult parsed_empty_result = Ok (mkValidation false [MSG_NO_DATA] [])
  /\ rawText parsed_empty_result <> []
  /\ ~ (forall r rc v,
          success r = true -> receipt r = Some rc -> validateOCRResult r = Ok v ->
          (isValid v = false <-> all_empty r rc)).
Proof.
  assert (H1 : validateOCRResult parsed_empty_result
               = Ok (mkValidation false [MSG_NO_DATA] []))
    by (vm_compute; reflexivity).
  split; [vm_compute; reflexivity|]. split; [exact H1|]. split; [discriminate|].
  intros H.
  destruct (proj1 (H parsed_empty_result receipt_of_empty_result _ eq_refl eq_refl H1) eq_refl)
    as (_ & _ & Htext & _).
  discriminate Htext.
Qed.

(** C1, amended.  On a successful result whose merchant is text or missing,
    the verdict is negative exactly when there is no total above zero, the
    merchant is missing or blank, the raw text has at most ten code units
    and there is no item; the errors are then the one canonical message.
    Otherwise the result is valid without errors, and the warnings name
    exactly the missing ones among total, merchant and items.  The receipt
    holding only the item Milk is valid with the two warnings for total and
    merchant (after the low-confidence warning, when that applies). *)
Theorem validate_verdict :
  (forall (r : OCRResult) (rc : Receipt),
      success r = true -> receipt r = Some rc -> text_or_missing (merchant rc) ->
      exists v,
        validateOCRResult r = Ok v
        /\ (isValid v = false
            <-> total_missing rc /\ merchant_blank rc /\ rawText_short r /\ items rc = [])
        /\ (isValid v = false -> errors v = [MSG_NO_DATA])
        /\ (isValid v = true ->
            errors v = []
            /\ (In MSG_NO_TOTAL (warnings v) <-> total_missing rc)
            /\ (In MSG_NO_MERCHANT (warnings v) <-> merchant_blank rc)
            /\ (In MSG_NO_ITEMS (warnings v) <-> items rc = [])))
  /\ (forall (c : float) (text : jstring) (raw : value),
         validateOCRResult (mkOCRResult true None c text (Some milk_only) raw)
         = Ok (mkValidation true []
                 ((if PrimFloat.ltb c 0.5 then [MSG_LOW_CONFIDENCE] else [])
                    ++ [MSG_NO_TOTAL; MSG_NO_MERCHANT]))).
Proof.
  split.
  - intros r rc Hs Hr Hm.
    destruct (hasMerchant_spec rc Hm) as [hM [HM HMs]].
    rewrite (validate_success r rc hM Hs Hr HM).
    pose proof (hasTotal_false rc) as HT.
    pose proof (hasRawText_false r) as HR.
    pose proof (hasItems_false rc) as HI.
    pose proof (valid_warnings_membership (PrimFloat.ltb (ocr_confidence r) 0.5)
                  (hasTotal rc) hM (hasItems rc)) as (_ & W1 & W2 & W3).
    eexists. split; [reflexivity|].
    rewrite <- HT, <- HMs, <- HR, <- HI.
    clear HT HMs HR HI HM Hm Hs Hr.
    destruct (hasTotal rc), hM, (hasRawText r), (hasItems rc);
      cbn [negb andb isValid errors warnings];
      (split;
       [ split; [intros E; try discriminate E; repeat split
                | intros (A & B & C & D); try discriminate; reflexivity]
       | split;
         [ intros E; try discriminate E; reflexivity
         | intros E; try discriminate E;
           (split; [reflexivity | split; [exact W1 | split; [exact W2 | exact W3]]]) ] ]).
  - intros c text raw.
    rewrite (validate_success (mkOCRResult true None c text (Some milk_only) raw)
               milk_only false eq_refl eq_refl eq_refl).
    cbn [ocr_confidence].
    destruct (hasRawText _), (PrimFloat.ltb c 0.5); reflexivity.
Qed.

(** The hypotheses hold for the Milk receipt with any raw text. *)
Lemma validate_verdict_witness :
  exists v,
    validateOCRResult (mkOCRResult true None 0.9 [] (Some milk_only) VNull) = Ok v
    /\ isValid v = true.
Proof.
  destruct (proj1 validate_verdict (mkOCRResult true None 0.9 [] (Some milk_only) VNull)
              milk_only eq_refl eq_refl (or_introl eq_refl))
    as (v & Hv & Hiff & _).
  exists v. split; [exact Hv|].
  destruct (isValid v) eqn:E; [reflexivity|].
  destruct (proj1 Hiff eq_refl) as (_ & _ & _ & Hitems). discriminate Hitems.
Defined.

(** C10, as stated, fails: when [success] is false the validator returns
    before the confidence check, so a confidence below 0.5 adds no warning.
    The result that the parser returns for a payload without [result] has
    the confidence 0 and gets none. *)
Lemma low_confidence_counterexample :
  parseTabScannerResponse payload_without_result = Ok parsed_without_result
  /\ PrimFloat.ltb (ocr_confidence parsed_without_result) 0.5 = true
  /\ validateOCRResult parsed_without_result = Ok (mkValidation false [MSG_FAILED] [])
  /\ ~ (forall r v,
          PrimFloat.ltb (ocr_confidence r) 0.5 = true -> validateOCRResult r = Ok v ->
          In MSG_LOW_CONFIDENCE (warnings v)).
Proof.
  split; [vm_compute; reflexivity|]. split; [reflexivity|]. split; [reflexivity|].
  intros H. exact (H parsed_without_result _ eq_refl eq_refl).
Qed.

Lemma validate_with_confidence (c : float) (r : OCRResult) (v : Validation) :
  validateOCRResult r = Ok v ->
  exists v', validateOCRResult (with_confidence c r) = Ok v'
             /\ isValid v' = isValid v /\ errors v' = errors v.
Proof.
  unfold validateOCRResult, with_confidence. cbn [success ocr_confidence receipt rawText].
  destruct (success r); cbn [negb].
  - destruct (receipt r) as [rc|]; [|discriminate].
    destruct (hasMerchant rc) as [hM|e]; [|discriminate]. cbn [bind].
    unfold hasRawText. cbn [rawText].
    destruct (negb (hasTotal rc) && negb hM
              && negb (truthy (VStr (rawText r)) && Nat.ltb 10 (List.length (rawText r)))
              && negb (hasItems rc));
      intros H; injection H as <-; eexists; (split; [reflexivity|]); split; reflexivity.
  - intros H; injection H as <-. eexists. split; [reflexivity|]. split; reflexivity.
Qed.

Lemma hasMerchant_readable (rc : Receipt) :
  truthy (merchant rc) && negb (is_string (merchant rc)) = false ->
  exists hM, hasMerchant rc = Ok hM.
Proof.
  unfold hasMerchant. destruct (truthy (merchant rc)); cbn [andb]; [|eexists; reflexivity].
  destruct (merchant rc); try discriminate. intros _. eexists. reflexivity.
Qed.

Lemma hasMerchant_unreadable (rc : Receipt) :
  truthy (merchant rc) && negb (is_string (merchant rc)) = true ->
  hasMerchant rc = Throw TypeError.
Proof.
  unfold hasMerchant. intros H. apply andb_true_iff in H as [Ht Hs]. rewrite Ht.
  destruct (merchant rc); try discriminate Hs; reflexivity.
Qed.

Lemma validate_throws (r : OCRResult) :
  success r = true -> validator_throws r = true ->
  validateOCRResult r = Throw TypeError.
Proof.
  unfold validator_throws, validateOCRResult. intros -> H. cbn [negb].
  destruct (receipt r) as [rc|]; [|reflexivity].
  rewrite (hasMerchant_unreadable rc H). reflexivity.
Qed.

(** C10, amended.  On a successful result with a confidence below 0.5 the
    validator throws a [TypeError] when the result has no receipt or its
    merchant is truthy and not a string, and in every other case returns
    a verdict with the low-confidence warning among its warnings and not
    among its errors.  On any result the errors and the verdict do not
    depend on the confidence; a result whose [success] is false gets the
    processing-failed error and no warning, whatever its confidence. *)
Theorem low_confidence_warning :
  (forall r : OCRResult,
      success r = true -> PrimFloat.ltb (ocr_confidence r) 0.5 = true ->
      (validator_throws r = true -> validateOCRResult r = Throw TypeError)
      /\ (validator_throws r = false ->
          exists v, validateOCRResult r = Ok v
                    /\ In MSG_LOW_CONFIDENCE (warnings v)
                    /\ ~ In MSG_LOW_CONFIDENCE (errors v)))
  /\ (forall (c : float) (r : OCRResult) (v : Validation),
         validateOCRResult r = Ok v ->
         exists v', validateOCRResult (with_confidence c r) = Ok v'
                    /\ isValid v' = isValid v /\ errors v' = errors v)
  /\ (forall r : OCRResult,
         success r = false ->
         validateOCRResult r = Ok (mkValidation false [MSG_FAILED] []))
  /\ (exists r,
         parseTabScannerResponse low_numeric_merchant_payload = Ok r
         /\ success r = true
         /\ PrimFloat.ltb (ocr_confidence r) 0.5 = true
         /\ validateOCRResult r = Throw TypeError).
Proof.
  split; [|split; [|split]].
  - intros r Hs Hc. split; [exact (validate_throws r Hs)|].
    unfold validator_throws. destruct (receipt r) as [rc|] eqn:Hr; [|discriminate].
    intros Hm. destruct (hasMerchant_readable rc Hm) as [hM HM].
    rewrite (validate_success r rc hM Hs Hr HM), Hc.
    eexists. split; [reflexivity|].
    destruct (negb (hasTotal rc) && negb hM && negb (hasRawText r) && negb (hasItems rc));
      cbn [warnings errors].
    + split; [left; reflexivity|]. vm_compute. intuition congruence.
    + split; [left; reflexivity|]. intros [].
  - exact validate_with_confidence.
  - intros r Hs. unfold validateOCRResult. rewrite Hs. reflexivity.
  - eexists. split; [vm_compute; reflexivity|].
    split; [reflexivity|]. split; [reflexivity|]. vm_compute. reflexivity.
Qed.

(** The hypotheses hold for the Milk receipt at a confidence of 0.3, and
    for a receipt whose merchant is the number 5. *)
Lemma low_confidence_warning_witness :
  (exists v,
      validateOCRResult (mkOCRResult true None 0.3 [] (Some milk_only) VNull) = Ok v
      /\ In MSG_LOW_CONFIDENCE (warnings v))
  /\ validateOCRResult
       (mkOCRResult true None 0.1 []
          (Some (mkReceipt (VNum 5) VNull VNull VNull VNull None None None [])) VNull)
     = Throw TypeError.
Proof.
  split.
  - destruct (proj2 (proj1 low_confidence_warning
                       (mkOCRResult true None 0.3 [] (Some milk_only) VNull)
                       eq_refl eq_refl) eq_refl)
      as (v & Hv & Hin & _).
    exists v. split; [exact Hv | exact Hin].
  - apply (proj1 (proj1 low_confidence_warning
                    (mkOCRResult true None 0.1 []
                       (Some (mkReceipt (VNum 5) VNull VNull VNull VNull None None None []))
                       VNull)
                    eq_refl eq_refl)).
    reflexivity.
Defined.

End ValidatorFacts.

(** ** The parser ([OCRService.parseTabScannerResponse]) *)
Section ParserFacts.
Import OCRService.

Lemma get_ok (v : value) (k : string) :
  is_nullish v = false -> get v k = Ok (field v k).
Proof. unfold get. intros ->. reflexivity. Qed.

Lemma get_nullish (v : value) (k : string) :
  is_nullish v = true -> get v k = Throw TypeError.
Proof. unfold get. intros ->. reflexivity. Qed.

Lemma truthy_not_nullish (v : value) : truthy v = true -> is_nullish v = false.
Proof. destruct v; simpl; intros H; try discriminate; reflexivity. Qed.

Lemma keep_item_ok (item : value) :
  is_nullish item = false -> keep_item item = Ok (kept item).
Proof.
  intros H. unfold keep_item, kept. rewrite !(get_ok item _ H). cbn [bind].
  destruct (truthy (field item "descClean")); reflexivity.
Qed.

Lemma parse_item_spec (item : value) :
  is_nullish item = false ->
  parse_item item
  = if item_converts item then Ok (parsed_item item) else Throw TypeError.
Proof.
  intros H. unfold parse_item, parsed_item, item_converts.
  rewrite !(get_ok item _ H). cbn [bind].
  rewrite parseFloat_spec, !parseAmount_spec.
  destruct (truthy (field item "descClean")); cbn [bind];
    destruct (convertible (field item "qty")); cbn [bind andb]; try reflexivity;
    destruct (usable (field item "price")); cbn [bind andb]; try reflexivity;
    destruct (usable (field item "lineTotal")); reflexivity.
Qed.

Lemma filterM_keep_item (l : list value) :
  filterM keep_item l
  = if forallb not_nullish l then Ok (filter kept l) else Throw TypeError.
Proof.
  induction l as [|x tl IH]; [reflexivity|].
  cbn [filterM forallb filter]. unfold not_nullish at 1.
  destruct (is_nullish x) eqn:E; cbn [negb andb].
  - unfold keep_item. rewrite (get_nullish x _ E). reflexivity.
  - rewrite (keep_item_ok x E), IH. cbn [bind].
    destruct (forallb not_nullish tl); reflexivity.
Qed.

Lemma mapM_parse_item (l : list value) :
  forallb not_nullish l = true ->
  mapM parse_item l
  = if forallb item_converts l then Ok (map parsed_item l) else Throw TypeError.
Proof.
  induction l as [|x tl IH]; [reflexivity|].
  cbn [forallb mapM map]. intros H. apply andb_true_iff in H as [Hx Htl].
  unfold not_nullish in Hx. apply negb_true_iff in Hx.
  rewrite (parse_item_spec x Hx), (IH Htl).
  destruct (item_converts x); cbn [bind andb]; [|reflexivity].
  destruct (forallb item_converts tl); reflexivity.
Qed.

Lemma forallb_filter {A} (p q : A -> bool) (l : list A) :
  forallb p l = true -> forallb p (filter q l) = true.
Proof.
  induction l as [|x tl IH]; [reflexivity|].
  cbn [forallb filter]. intros H. apply andb_true_iff in H as [Hx Htl].
  destruct (q x); cbn [forallb]; [rewrite Hx|]; auto.
Qed.

Lemma text_line_spec (label : string) (v : value) :
  text_line label v
  = if usable v then Ok (text_line_text label v) else Throw TypeError.
Proof.
  unfold text_line, text_line_text, usable.
  destruct (truthy v); cbn [negb orb]; [|reflexivity].
  rewrite ToString_spec. destruct (convertible v); reflexivity.
Qed.

Lemma item_line_spec (item : Item) :
  item_line item
  = if convertible (name item) then Ok (item_line_text item) else Throw TypeError.
Proof.
  unfold item_line, item_line_text. rewrite ToString_spec.
  destruct (convertible (name item)); reflexivity.
Qed.

Lemma mapM_item_line (its : list Item) :
  mapM item_line its
  = if forallb (fun item => convertible (name item)) its
    then Ok (map item_line_text its) else Throw TypeError.
Proof.
  induction its as [|x tl IH]; [reflexivity|].
  cbn [mapM forallb map]. rewrite item_line_spec, IH.
  destruct (convertible (name x)); cbn [bind andb]; [|reflexivity].
  destruct (forallb _ tl); reflexivity.
Qed.

(** The summary throws exactly when a text that it prints is truthy and
    not convertible. *)
Lemma generateRawTextSummary_spec (r : Receipt) :
  generateRawTextSummary r
  = if summary_ok r then Ok (summary_text r) else Throw TypeError.
Proof.
  unfold generateRawTextSummary, summary_ok, summary_text.
  rewrite !text_line_spec, mapM_item_line.
  destruct (usable (merchant r)); cbn [bind andb]; [|reflexivity].
  destruct (usable (address r)); cbn [bind andb]; [|reflexivity].
  destruct (usable (phone r)); cbn [bind andb]; [|reflexivity].
  destruct (usable (date r)); cbn [bind andb]; [|reflexivity].
  destruct (forallb _ (items r)); reflexivity.
Qed.

Lemma average_spec (scores : list value) :
  average scores
  = if forallb convertible scores then Ok (average_form scores) else Throw TypeError.
Proof.
  unfold average, average_form. rewrite (foldM_js_add scores (VNum zero) eq_refl).
  destruct (forallb convertible scores); cbn [bind]; [|reflexivity].
  rewrite js_div_spec.
  rewrite (primitive_convertible _ (fold_sum_primitive scores (VNum zero) eq_refl)).
  reflexivity.
Qed.

Lemma overall_confidence_spec (res : value) :
  overall_confidence (confidence_scores res)
  = if confidences_ok res then Ok (parsed_confidence res) else Throw TypeError.
Proof.
  unfold overall_confidence, confidences_ok, parsed_confidence.
  destruct (confidence_scores res) as [|x tl] eqn:E; [reflexivity|].
  apply average_spec.
Qed.

Lemma date_block (res : value) :
  (if truthy (field res "dateISO")
   then parts <- (s <- as_string (field res "dateISO") ;; Ok (split_on 84%N s)) ;;
        Ok (VStr (nth 0 parts []))
   else Ok (field res "date"))
  = if date_ok res then Ok (parsed_date res) else Throw TypeError.
Proof.
  unfold date_ok, parsed_date.
  destruct (field res "dateISO") as [| |b|x|s|l|fields]; try reflexivity.
  - destruct b; reflexivity.
  - cbn [truthy]. destruct (negb (is_zero x || is_nan x)); reflexivity.
  - destruct s; reflexivity.
Qed.

Lemma time_block (res : value) :
  (if truthy (field res "dateISO")
   then parts <- (s <- as_string (field res "dateISO") ;; Ok (split_on 84%N s)) ;;
        Ok (match nth_error parts 1 with Some p => VStr p | None => VUndef end)
   else Ok VNull)
  = if date_ok res then Ok (parsed_time res) else Throw TypeError.
Proof.
  unfold date_ok, parsed_time.
  destruct (field res "dateISO") as [| |b|x|s|l|fields]; try reflexivity.
  - destruct b; reflexivity.
  - cbn [truthy]. destruct (negb (is_zero x || is_nan x)); reflexivity.
  - destruct s; reflexivity.
Qed.

Lemma items_block (res : value) :
  match field res "lineItems" with
  | VArr l => kept <- filterM keep_item l ;; mapM parse_item kept
  | _ => Ok []
  end
  = if items_ok res && items_convert res then Ok (parsed_items res) else Throw TypeError.
Proof.
  unfold items_ok, items_convert, parsed_items.
  destruct (field res "lineItems") as [| |b|x|s|l|fields]; try reflexivity.
  rewrite filterM_keep_item.
  destruct (forallb not_nullish l) eqn:Ef; cbn [bind andb]; [|reflexivity].
  exact (mapM_parse_item _ (forallb_filter _ kept _ Ef)).
Qed.

(** The parser on a payload whose [result] is truthy. *)
Lemma parse_present (d res : value) :
  get d "result" = Ok res -> truthy res = true ->
  parseTabScannerResponse d
  = Ok (if parse_clean res
        then mkOCRResult true None (parsed_confidence res)
                         (summary_text (parsed_receipt res))
                         (Some (parsed_receipt res)) d
        else parse_failure d).
Proof.
  intros Hd Ht. pose proof (truthy_not_nullish res Ht) as Hn.
  unfold parseTabScannerResponse, parse_try. rewrite Hd. cbn [bind]. rewrite Ht.
  rewrite !(get_ok res _ Hn). cbn [bind].
  fold (confidence_scores res).
  rewrite date_block, time_block, !parseAmount_spec, items_block, overall_confidence_spec.
  unfold parse_clean, amounts_ok.
  destruct (date_ok res); cbn [bind try_catch andb]; [|reflexivity].
  destruct (usable (field res "total")); cbn [bind try_catch andb]; [|reflexivity].
  destruct (usable (field res "tax")); cbn [bind try_catch andb]; [|reflexivity].
  destruct (usable (field res "subTotal")); cbn [bind try_catch andb]; [|reflexivity].
  destruct (items_ok res); cbn [bind try_catch andb]; [|reflexivity].
  destruct (items_convert res); cbn [bind try_catch andb]; [|reflexivity].
  destruct (confidences_ok res); cbn [bind try_catch andb]; [|reflexivity].
  change (mkReceipt (js_or (field res "establishment") VNull)
            (js_or (field res "address") VNull) (js_or (field res "phoneNumber") VNull)
            (parsed_date res) (parsed_time res)
            (Some (num_or (amount_of (field res "total")) zero))
            (Some (num_or (amount_of (field res "tax")) zero))
            (Some (num_or (amount_of (field res "subTotal")) zero))
            (parsed_items res))
    with (parsed_receipt res).
  rewrite generateRawTextSummary_spec.
  destruct (summary_ok (parsed_receipt res)); reflexivity.
Qed.

(** The parser on a payload whose [result] is falsy. *)
Lemma parse_absent (d res : value) :
  get d "result" = Ok res -> truthy res = false ->
  parseTabScannerResponse d = Ok (mkOCRResult false None zero [] (Some empty_receipt) d).
Proof.
  intros Hd Ht. unfold parseTabScannerResponse, parse_try.
  rewrite Hd. cbn [bind]. rewrite Ht. reflexivity.
Qed.

(** C2, as stated, fails twice.  An empty result object parses to a receipt
    whose total, tax and subtotal are 0 and whose date is [undefined], not
    [null]; and a result object that is present, with a numeric [dateISO],
    gives [success = false]. *)
Lemma parse_counterexample :
  parseTabScannerResponse empty_result_payload
  = Ok (mkOCRResult true None 0.9 [10%N; 10%N; 10%N]
          (Some receipt_of_empty_result) empty_result_payload)
  /\ total receipt_of_empty_result <> None
  /\ parseTabScannerResponse numeric_date_payload = Ok (parse_failure numeric_date_payload)
  /\ ~ (forall d r,
          parseTabScannerResponse d = Ok r ->
          (success r = false <-> field d "result" = VUndef)).
Proof.
  assert (H3 : parseTabScannerResponse numeric_date_payload
               = Ok (parse_failure numeric_date_payload)) by (vm_compute; reflexivity).
  split; [vm_compute; reflexivity|]. split; [discriminate|]. split; [exact H3|].
  intros H. specialize (H _ _ H3). destruct H as [H _].
  specialize (H eq_refl). vm_compute in H. discriminate.
Qed.

(** The parser on a payload that is not [null], by cases. *)
Lemma parse_cases (d : value) :
  is_nullish d = false ->
  parseTabScannerResponse d
  = Ok (if truthy (field d "result")
        then if parse_clean (field d "result")
             then mkOCRResult true None (parsed_confidence (field d "result"))
                    (summary_text (parsed_receipt (field d "result")))
                    (Some (parsed_receipt (field d "result"))) d
             else parse_failure d
        else mkOCRResult false None zero [] (Some empty_receipt) d).
Proof.
  intros Hd. destruct (truthy (field d "result")) eqn:Ht.
  - exact (parse_present d _ (get_ok d _ Hd) Ht).
  - exact (parse_absent d _ (get_ok d _ Hd) Ht).
Qed.

(** The parser on [null] or [undefined]: the property read fails and the
    [catch] branch answers. *)
Lemma parse_null (d : value) :
  is_nullish d = true -> parseTabScannerResponse d = Ok (parse_failure d).
Proof.
  intros Hd. unfold parseTabScannerResponse, parse_try.
  rewrite (get_nullish d _ Hd). reflexivity.
Qed.

Lemma parse_never_throws (d : value) : exists r, parseTabScannerResponse d = Ok r.
Proof.
  destruct (is_nullish d) eqn:Hd; eexists.
  - exact (parse_null d Hd).
  - exact (parse_cases d Hd).
Qed.

(** C2, amended.  The parser never throws.  For a payload that is not
    [null], [success] is true exactly when [result] is truthy and nothing in
    the [try] block throws: no property read fails ([dateISO] falsy or a
    string, no [null] among the line items) and no conversion does (the
    amounts, the kept line items, the confidences and the texts of the
    summary hold no object with an own [toString]); the result is then the
    parsed receipt with its confidence and summary.  An absent (or falsy)
    [result] gives [success = false] with the initial receipt; an empty
    result object gives [success = true] with merchant, address, phone and
    time [null], date [undefined], total, tax and subtotal 0, no item and
    the default confidence; a result whose total is an object with an own
    [toString] gives the failure object, and so does a [null] payload. *)
Theorem parse_success_flag :
  (forall d : value, exists r, parseTabScannerResponse d = Ok r)
  /\ (forall (d : value) (r : OCRResult),
         is_nullish d = false -> parseTabScannerResponse d = Ok r ->
         (success r = true
          <-> truthy (field d "result") = true
              /\ date_ok (field d "result") = true
              /\ amounts_ok (field d "result") = true
              /\ items_ok (field d "result") = true
              /\ items_convert (field d "result") = true
              /\ confidences_ok (field d "result") = true
              /\ summary_ok (parsed_receipt (field d "result")) = true)
         /\ (success r = true ->
             r = mkOCRResult true None (parsed_confidence (field d "result"))
                   (summary_text (parsed_receipt (field d "result")))
                   (Some (parsed_receipt (field d "result"))) d))
  /\ (forall d : value,
         is_nullish d = false -> truthy (field d "result") = false ->
         parseTabScannerResponse d
         = Ok (mkOCRResult false None zero [] (Some empty_receipt) d))
  /\ (forall d : value,
         is_nullish d = false -> field d "result" = VObj [] ->
         parseTabScannerResponse d
         = Ok (mkOCRResult true None DEFAULT_CONFIDENCE [10%N; 10%N; 10%N]
                 (Some receipt_of_empty_result) d))
  /\ parseTabScannerResponse unprintable_total_payload
     = Ok (parse_failure unprintable_total_payload)
  /\ (forall d : value,
         is_nullish d = true -> parseTabScannerResponse d = Ok (parse_failure d)).
Proof.
  split; [|split; [|split; [|split; [|split]]]].
  - exact parse_never_throws.
  - intros d r Hd Hp. rewrite (parse_cases d Hd) in Hp. injection Hp as <-.
    unfold parse_clean.
    destruct (truthy (field d "result")), (date_ok (field d "result")),
      (amounts_ok (field d "result")), (items_ok (field d "result")),
      (items_convert (field d "result")), (confidences_ok (field d "result")),
      (summary_ok (parsed_receipt (field d "result")));
      cbn [andb success parse_failure];
      (split; [split; [intros E; try discriminate E; repeat split
                      | intros (A & B & C & D & E & F & G); try discriminate; reflexivity]
              | intros E; try discriminate E; reflexivity]).
  - intros d Hd Ht. rewrite (parse_cases d Hd), Ht. reflexivity.
  - intros d Hd Hr. rewrite (parse_cases d Hd), Hr. reflexivity.
  - vm_compute. reflexivity.
  - exact parse_null.
Qed.

(** The hypotheses hold for the payload with an empty result object. *)
Lemma parse_success_flag_witness :
  exists r, parseTabScannerResponse empty_result_payload = Ok r /\ success r = true.
Proof.
  eexists. split.
  - apply (proj1 (proj2 (proj2 (proj2 parse_success_flag))) empty_result_payload);
      reflexivity.
  - reflexivity.
Defined.

End ParserFacts.

(** ** The field mapper ([CustomFieldMapper]) *)
Section TypeCodeFacts.
Import CustomFieldMapper.

Lemma first_match_in (rules : list (list string * jstring)) (name default : jstring) :
  In (first_match rules name default) (default :: map snd rules).
Proof.
  induction rules as [|[keywords code] tl IH]; cbn [first_match map snd].
  - left; reflexivity.
  - destruct (includes_any name keywords).
    + right; left; reflexivity.
    + destruct IH as [IH | IH]; [left; exact IH | right; right; exact IH].
Qed.

Lemma type_code_of_name_first_match (name : jstring) :
  type_code_of_name name = first_match type_code_rules name MISC.
Proof. reflexivity. Qed.

Lemma generateItemTypeCode_description (item : value) (index : nat) :
  is_nullish item = false ->
  generateItemTypeCode item index
  = (s <- as_string (description item) ;; Ok (type_code_of_name (toLowerCase s))).
Proof.
  intros Hn. unfold generateItemTypeCode, description, js_or.
  rewrite !(get_ok item _ Hn). cbn [bind].
  destruct (truthy (field item "descClean")) eqn:E; cbn [bind]; [rewrite E|]; reflexivity.
Qed.

Lemma type_code_in_codes (name : jstring) : In (type_code_of_name name) type_codes.
Proof.
  rewrite type_code_of_name_first_match.
  pose proof (first_match_in type_code_rules name MISC) as H.
  cbn [map snd type_code_rules] in H. unfold type_codes.
  cbn [In] in *. intuition.
Qed.

(** C7, as stated, fails: the assignment is not total.  A line item whose
    description is a number has no [toLowerCase], and neither has [null] a
    [descClean]: both calls throw. *)
Lemma generateItemTypeCode_counterexample :
  generateItemTypeCode (VObj [(js "desc", VNum 7)]) 0 = Throw TypeError
  /\ generateItemTypeCode VNull 0 = Throw TypeError
  /\ ~ (forall item index,
          exists code, generateItemTypeCode item index = Ok code /\ In code type_codes).
Proof.
  assert (H1 : generateItemTypeCode (VObj [(js "desc", VNum 7)]) 0 = Throw TypeError)
    by reflexivity.
  split; [exact H1|]. split; [reflexivity|].
  intros H. destruct (H (VObj [(js "desc", VNum 7)]) 0%nat) as (code & Hc & _).
  rewrite H1 in Hc. discriminate Hc.
Qed.

(** C7, amended.  On a line item that is not [null] and whose description
    [descClean || desc || ''] is a string, [generateItemTypeCode] returns a
    code: the one of the first keyword rule that matches the lower-cased
    description, MISC when no rule matches, and so one of the seven codes;
    an empty description gives MISC.  The description is a string whenever
    [descClean] and [desc] are each missing or text.  On every other input
    ([null], [undefined], a truthy description that is not a string) the
    call throws a [TypeError]. *)
Theorem generateItemTypeCode_total (item : value) (index : nat) :
  (forall s,
      is_nullish item = false -> description item = VStr s ->
      exists code,
        generateItemTypeCode item index = Ok code
        /\ code = first_match type_code_rules (toLowerCase s) MISC
        /\ In code type_codes
        /\ (s = [] -> code = MISC))
  /\ (text_or_absent (field item "descClean") -> text_or_absent (field item "desc") ->
      is_string (description item) = true)
  /\ (is_nullish item = true \/ is_string (description item) = false ->
      generateItemTypeCode item index = Throw TypeError).
Proof.
  split; [|split].
  - intros s Hn Hs. rewrite (generateItemTypeCode_description item index Hn), Hs.
    cbn [as_string bind]. eexists. split; [reflexivity|].
    split; [apply type_code_of_name_first_match|].
    split; [apply type_code_in_codes|]. intros ->. reflexivity.
  - unfold description, js_or.
    intros [Hc | [Hc | [s Hc]]] [Hd | [Hd | [s' Hd]]]; rewrite Hc, Hd;
      try (destruct s as [|c tl]); try (destruct s' as [|c' tl']); reflexivity.
  - intros [Hn | Hs].
    + unfold generateItemTypeCode. rewrite (get_nullish item _ Hn). reflexivity.
    + destruct (is_nullish item) eqn:Hn.
      * unfold generateItemTypeCode. rewrite (get_nullish item _ Hn). reflexivity.
      * rewrite (generateItemTypeCode_description item index Hn).
        destruct (description item); try discriminate Hs; reflexivity.
Qed.

(** A line item with a description, one with neither [descClean] nor
    [desc], and one whose description is a number. *)
Lemma generateItemTypeCode_total_witness :
  generateItemTypeCode (VObj [(js "descClean", VStr (js "COCONUT MILK"))]) 0 = Ok DAIRY
  /\ generateItemTypeCode (VObj [(js "lineTotal", VNum 3)]) 0 = Ok MISC
  /\ generateItemTypeCode (VObj [(js "desc", VNum 7)]) 0 = Throw TypeError.
Proof.
  split; [|split].
  - destruct (proj1 (generateItemTypeCode_total
                       (VObj [(js "descClean", VStr (js "COCONUT MILK"))]) 0)
                (js "COCONUT MILK") eq_refl eq_refl)
      as (code & Hg & Hc & _).
    rewrite Hg, Hc. reflexivity.
  - destruct (proj1 (generateItemTypeCode_total (VObj [(js "lineTotal", VNum 3)]) 0)
                [] eq_refl eq_refl)
      as (code & Hg & _ & _ & Hm).
    rewrite Hg, (Hm eq_refl). reflexivity.
  - apply (proj2 (proj2 (generateItemTypeCode_total (VObj [(js "desc", VNum 7)]) 0))).
    right. reflexivity.
Defined.

End TypeCodeFacts.

Section MapperFacts.
Import CustomFieldMapper.

(** C5 fails on the code.  For a line item that has neither [price] nor
    [lineTotal], [unit_price] is [undefined / 1], that is NaN, while
    [item_price] of the same item is defaulted to 0; and a tax line without
    a [lineTotal] leaves [tax_field_1] [undefined]. *)
Theorem money_fields_nan_and_undefined
    (toISOString toTimeString : value -> option jstring) :
  (exists r it,
      mapToCustomStructure toISOString toTimeString (payload_of item_without_prices) = Ok r
      /\ items r = [it]
      /\ item_price it = VNum 0
      /\ unit_price it = VNum nan)
  /\ (exists r,
         mapToCustomStructure toISOString toTimeString (payload_of tax_line_without_total)
         = Ok r
         /\ tax_field_1 r = VUndef
         /\ tax_field_2 r = VNum 0).
Proof.
  split.
  - eexists. eexists. split; [vm_compute; reflexivity|].
    split; [reflexivity|]. split; reflexivity.
  - eexists. split; [vm_compute; reflexivity|]. split; reflexivity.
Qed.

(** C9 fails on the code, for the mapper.  The parser never throws; the
    mapper throws a [TypeError] on a present result whose line item has no
    description ([categorizeItem] lower-cases [undefined], where
    [generateItemTypeCode] on the same item falls back to the empty string
    and returns MISC), and on one whose summary line has no [desc]. *)
Theorem mapper_throws_on_missing_description
    (toISOString toTimeString : value -> option jstring) :
  (forall d, exists r, OCRService.parseTabScannerResponse d = Ok r)
  /\ generateItemTypeCode (VObj [(js "lineTotal", VNum 3)]) 0 = Ok MISC
  /\ categorizeItem (field (VObj [(js "lineTotal", VNum 3)]) "desc") = Throw TypeError
  /\ mapItems item_without_description = Throw TypeError
  /\ mapToCustomStructure toISOString toTimeString (payload_of item_without_description)
     = Throw TypeError
  /\ mapToCustomStructure toISOString toTimeString
       (payload_of summary_line_without_description)
     = Throw TypeError.
Proof.
  split; [exact parse_never_throws|].
  repeat split; vm_compute; reflexivity.
Qed.

End MapperFacts.

(** ** Tax decomposition ([CustomFieldMapper.parseTaxes]) *)
Section TaxFacts.
Import CustomFieldMapper.

Lemma is_tax_item_summary (l : SummaryLine) :
  is_tax_item (summary_value l) = Ok (tax_tagged l).
Proof.
  unfold is_tax_item, summary_value, tax_tagged.
  destruct (lineType l) as [t|]; cbn [app].
  - change (get (VObj ((js "lineType", VStr t)
                       :: [(js "desc", VStr (desc l)); (js "lineTotal", VNum (lineTotal l))]))
                "lineType") with (Ok (VStr t)).
    cbn [bind]. destruct (jstring_eqb t (js "Tax")); reflexivity.
  - reflexivity.
Qed.

Lemma filterM_is_tax_item (ls : list SummaryLine) :
  filterM is_tax_item (map summary_value ls) = Ok (map summary_value (filter tax_tagged ls)).
Proof.
  induction ls as [|l tl IH]; [reflexivity|].
  cbn [map filterM filter]. rewrite is_tax_item_summary, IH. cbn [bind].
  destruct (tax_tagged l); reflexivity.
Qed.

Lemma lineTotal_of_summary (l : SummaryLine) :
  get (summary_value l) "lineTotal" = Ok (VNum (lineTotal l)).
Proof. unfold summary_value. destruct (lineType l); reflexivity. Qed.

Lemma nth_summary (fl : list SummaryLine) (i : nat) :
  (let ti := nth i (map summary_value fl) VUndef in
   if truthy ti then get ti "lineTotal" else Ok (VNum zero))
  = Ok (match nth_error fl i with
        | Some l => VNum (lineTotal l)
        | None => VNum zero
        end).
Proof.
  revert i. induction fl as [|l tl IH]; intros [|i]; cbn [map nth nth_error].
  - reflexivity.
  - reflexivity.
  - cbv zeta. rewrite lineTotal_of_summary. reflexivity.
  - apply IH.
Qed.

Lemma nth_tax (ts : list float) (i : nat) :
  nth i (map VNum ts) VUndef
  = match nth_error ts i with Some t => VNum t | None => VUndef end.
Proof.
  revert i. induction ts as [|t tl IH]; intros [|i]; cbn [map nth nth_error];
    try reflexivity. apply IH.
Qed.

Lemma tax_slot_spec (taxes : option (list float)) (summary : option (list SummaryLine))
    (i : nat) :
  tax_slot (js_or (optional_array VNum taxes) (VArr []))
           (map summary_value (tax_lines summary)) i
  = Ok (slot taxes summary i).
Proof.
  unfold tax_slot, slot.
  pose proof (nth_summary (tax_lines summary) i) as Hf. cbv zeta in Hf.
  destruct taxes as [ts|]; cbn [optional_array].
  - change (js_or (VArr (map VNum ts)) (VArr [])) with (VArr (map VNum ts)).
    cbn [get_index bind]. rewrite nth_tax. destruct (nth_error ts i) as [t|].
    + destruct (truthy (VNum t)); [reflexivity | exact Hf].
    + exact Hf.
  - change (js_or VUndef (VArr [])) with (VArr []).
    cbn [get_index bind]. destruct i; exact Hf.
Qed.

Lemma is_tax_item_spec (item : value) :
  is_tax_item item
  = if line_readable item then Ok (line_tagged item) else Throw TypeError.
Proof.
  unfold is_tax_item, line_readable, line_tagged.
  destruct (is_nullish item) eqn:Hn; [rewrite (get_nullish item _ Hn); reflexivity|].
  rewrite !(get_ok item _ Hn). cbn [bind negb andb].
  assert (Hdesc : (d <- as_string (field item "desc") ;;
                   Ok (includes (toLowerCase d) (js "tax")))
                  = if is_string (field item "desc")
                    then Ok (match field item "desc" with
                             | VStr d => includes (toLowerCase d) (js "tax")
                             | _ => false
                             end)
                    else Throw TypeError).
  { destruct (field item "desc"); reflexivity. }
  destruct (field item "lineType") as [| |b|x|t|l|fs]; cbn [is_literal orb];
    try exact Hdesc.
  destruct (jstring_eqb t (js "Tax")); [reflexivity | exact Hdesc].
Qed.

Lemma filterM_spec {A : Type} (f : A -> result bool) (ok g : A -> bool) :
  (forall x, f x = if ok x then Ok (g x) else Throw TypeError) ->
  forall l, filterM f l = if forallb ok l then Ok (filter g l) else Throw TypeError.
Proof.
  intros Hf. induction l as [|x tl IH]; [reflexivity|].
  cbn [filterM forallb filter]. rewrite Hf, IH.
  destruct (ok x); cbn [bind andb]; [|reflexivity].
  destruct (forallb ok tl); reflexivity.
Qed.

Lemma summary_filter_spec (res : value) :
  array_filter (js_or (field res "summaryItems") (VArr [])) is_tax_item
  = if summary_readable res then Ok (tagged_lines res) else Throw TypeError.
Proof.
  unfold summary_readable, tagged_lines.
  destruct (js_or (field res "summaryItems") (VArr [])); try reflexivity.
  cbn [array_filter]. apply (filterM_spec _ _ _ is_tax_item_spec).
Qed.

Lemma line_readable_truthy (item : value) :
  line_readable item = true -> truthy item = true.
Proof. destruct item; try discriminate; reflexivity. Qed.

Lemma tagged_lines_truthy (res : value) :
  summary_readable res = true -> Forall (fun line => truthy line = true) (tagged_lines res).
Proof.
  unfold summary_readable, tagged_lines.
  destruct (js_or (field res "summaryItems") (VArr [])); try discriminate.
  intros H. apply Forall_forall. intros line Hin. apply filter_In in Hin as [Hin _].
  rewrite forallb_forall in H. exact (line_readable_truthy line (H line Hin)).
Qed.

Lemma nth_line (lines : list value) (i : nat) :
  Forall (fun line => truthy line = true) lines ->
  (let ti := nth i lines VUndef in
   if truthy ti then get ti "lineTotal" else Ok (VNum zero))
  = Ok (match nth_error lines i with
        | Some line => field line "lineTotal"
        | None => VNum zero
        end).
Proof.
  intros H. revert i. induction H as [|line tl Hl _ IH]; intros [|i];
    cbn [nth nth_error]; try reflexivity.
  - cbv zeta. rewrite Hl. exact (get_ok line _ (truthy_not_nullish line Hl)).
  - apply IH.
Qed.

Lemma tax_entry_spec (res : value) (i : nat) :
  get_index (js_or (field res "taxes") (VArr [])) i = Ok (tax_entry res i).
Proof.
  unfold tax_entry, js_or.
  destruct (truthy (field res "taxes")) eqn:Ht; [|reflexivity].
  destruct (field res "taxes"); try discriminate Ht; reflexivity.
Qed.

Lemma tax_slot_of (res : value) (i : nat) :
  summary_readable res = true ->
  tax_slot (js_or (field res "taxes") (VArr [])) (tagged_lines res) i
  = Ok (slot_of res i).
Proof.
  intros Hr. unfold tax_slot, slot_of. rewrite tax_entry_spec. cbn [bind].
  destruct (truthy (tax_entry res i)); [reflexivity|].
  exact (nth_line (tagged_lines res) i (tagged_lines_truthy res Hr)).
Qed.

Lemma parseTaxes_cases (res : value) :
  is_nullish res = false ->
  parseTaxes res
  = if summary_readable res then Ok (slot_of res 0, slot_of res 1) else Throw TypeError.
Proof.
  intros Hn. unfold parseTaxes. rewrite !(get_ok res _ Hn). cbn [bind].
  rewrite summary_filter_spec.
  destruct (summary_readable res) eqn:Hr; [|reflexivity].
  cbn [bind]. rewrite !(tax_slot_of res _ Hr). reflexivity.
Qed.

(** C8, as stated, fails: the tax list and the tax-tagged lines are not
    alternatives, each slot falls back on its own.  With the tax list
    [0.22] and two tax lines at 0.15 and 0.10 the second slot is 0.10, the
    total of the second tax line, not 0; with the tax list
    [0, 0.22, 0.05] and a tax line at 0.49 the first slot is 0.49 and the
    second is 0.22, so the slots are not the first two values of the
    list. *)
Lemma parseTaxes_counterexample :
  parseTaxes one_tax_two_lines = Ok (VNum 0.22, VNum 0.1)
  /\ spec_tax_slots (Some [0.22%float]) (Some two_tax_lines) = (VNum 0.22, VNum zero)
  /\ parseTaxes zero_tax_first = Ok (VNum 0.49, VNum 0.22)
  /\ ~ (forall (res : value) (taxes : option (list float))
               (summary : option (list SummaryLine)),
          is_nullish res = false ->
          field res "taxes" = optional_array VNum taxes ->
          field res "summaryItems" = optional_array summary_value summary ->
          parseTaxes res = Ok (spec_tax_slots taxes summary)).
Proof.
  assert (H1 : parseTaxes one_tax_two_lines = Ok (VNum 0.22, VNum 0.1))
    by (vm_compute; reflexivity).
  split; [exact H1|]. split; [reflexivity|]. split; [vm_compute; reflexivity|].
  intros H.
  specialize (H one_tax_two_lines (Some [0.22%float]) (Some two_tax_lines)
                eq_refl eq_refl eq_refl).
  rewrite H1 in H. vm_compute in H. discriminate H.
Qed.

(** C8, amended.  On [null] and [undefined] [parseTaxes] throws a
    [TypeError].  On any other result it throws a [TypeError] exactly when
    [summaryItems] is truthy and not an array, or holds a line that is
    [null] or [undefined] or that has neither the type [Tax] nor a string
    for [desc]; otherwise it fills the two slots, each on its own: slot [i]
    is entry [i] of the tax list when that is truthy, else the line total
    of tax-tagged line [i] when there is one, else 0.  On a receipt whose
    tax list is absent or a list of numbers and whose summary lines carry
    a description and a line total, this is the slot of the vocabulary; a
    tax list with two leading non-zero entries gives those two, whatever
    follows them; without a tax list the slots are the first two
    tax-tagged lines, in order; without either both are 0; and
    [0.22, 0.22, 0.05] gives 0.22 and 0.22. *)
Theorem parseTaxes_two_slots :
  (forall res : value,
      (is_nullish res = true -> parseTaxes res = Throw TypeError)
      /\ (is_nullish res = false -> summary_readable res = false ->
          parseTaxes res = Throw TypeError)
      /\ (is_nullish res = false -> summary_readable res = true ->
          parseTaxes res = Ok (slot_of res 0, slot_of res 1)))
  /\ (forall (res : value) (taxes : option (list float))
             (summary : option (list SummaryLine)),
         is_nullish res = false ->
         field res "taxes" = optional_array VNum taxes ->
         field res "summaryItems" = optional_array summary_value summary ->
         parseTaxes res = Ok (slot taxes summary 0, slot taxes summary 1))
  /\ (forall (t1 t2 : float) (rest : list float) (summary : option (list SummaryLine)),
         truthy (VNum t1) = true -> truthy (VNum t2) = true ->
         slot (Some (t1 :: t2 :: rest)) summary 0 = VNum t1
         /\ slot (Some (t1 :: t2 :: rest)) summary 1 = VNum t2)
  /\ (forall (summary : option (list SummaryLine)),
         slot None summary 0
         = match tax_lines summary with l :: _ => VNum (lineTotal l) | [] => VNum zero end
         /\ slot None summary 1
            = match tax_lines summary with
              | _ :: l :: _ => VNum (lineTotal l)
              | _ => VNum zero
              end)
  /\ parseTaxes (VObj [(js "taxes", VArr [VNum 0.22; VNum 0.22; VNum 0.05])])
     = Ok (VNum 0.22, VNum 0.22).
Proof.
  split; [|split; [|split; [|split]]].
  - intros res. split; [|split].
    + intros Hn. unfold parseTaxes. rewrite (get_nullish res _ Hn). reflexivity.
    + intros Hn Hr. rewrite (parseTaxes_cases res Hn), Hr. reflexivity.
    + intros Hn Hr. rewrite (parseTaxes_cases res Hn), Hr. reflexivity.
  - intros res taxes summary Hn Ht Hs. unfold parseTaxes.
    rewrite !(get_ok res _ Hn), Ht, Hs. cbn [bind].
    assert (Hf : array_filter (js_or (optional_array summary_value summary) (VArr []))
                              is_tax_item
                 = Ok (map summary_value (tax_lines summary))).
    { destruct summary as [ls|]; cbn [optional_array js_or truthy array_filter tax_lines].
      - apply filterM_is_tax_item.
      - reflexivity. }
    rewrite Hf. cbn [bind]. rewrite !tax_slot_spec. reflexivity.
  - intros t1 t2 rest summary H1 H2. unfold slot. cbn [nth_error]. rewrite H1, H2.
    split; reflexivity.
  - intros summary. unfold slot. cbn [nth_error].
    destruct (tax_lines summary) as [|l1 [|l2 tl]]; split; reflexivity.
  - vm_compute. reflexivity.
Qed.

Lemma parseTaxes_two_slots_witness :
  parseTaxes three_taxes_and_a_tax_line = Ok (VNum 0.22, VNum 0.22)
  /\ parseTaxes VNull = Throw TypeError
  /\ parseTaxes numeric_desc_line = Throw TypeError
  /\ parseTaxes numeric_summary = Throw TypeError
  /\ parseTaxes one_tax_two_lines = Ok (VNum 0.22, VNum 0.1).
Proof.
  split; [|split; [|split; [|split]]].
  - rewrite (proj1 (proj2 parseTaxes_two_slots) three_taxes_and_a_tax_line
               (Some [0.22; 0.22; 0.05]%float)
               (Some [mkSummaryLine (Some (js "Tax")) (js "Sales Tax") 0.49])
               eq_refl eq_refl eq_refl).
    destruct (proj1 (proj2 (proj2 parseTaxes_two_slots)) 0.22%float 0.22%float
                [0.05%float]
                (Some [mkSummaryLine (Some (js "Tax")) (js "Sales Tax") 0.49])
                eq_refl eq_refl) as [-> ->].
    reflexivity.
  - apply (proj1 (proj1 parseTaxes_two_slots VNull)). reflexivity.
  - apply (proj1 (proj2 (proj1 parseTaxes_two_slots numeric_desc_line)));
      reflexivity.
  - apply (proj1 (proj2 (proj1 parseTaxes_two_slots numeric_summary)));
      reflexivity.
  - rewrite (proj2 (proj2 (proj1 parseTaxes_two_slots one_tax_two_lines))
               eq_refl eq_refl).
    vm_compute. reflexivity.
Defined.

End TaxFacts.

(** ** Brand normalization ([CustomFieldMapper.normalizeBrandName]) *)
Section BrandFacts.
Import CustomFieldMapper.

Lemma drop_ws_no_lead (s : jstring) : no_lead_ws (drop_ws s).
Proof.
  induction s as [|c tl IH]; [exact I|].
  cbn [drop_ws]. destruct (is_ws c) eqn:E; [exact IH | exact E].
Qed.

Lemma drop_ws_fixed (s : jstring) : no_lead_ws s -> drop_ws s = s.
Proof. destruct s as [|c tl]; [reflexivity|]. cbn. intros ->. reflexivity. Qed.

Lemma drop_ws_suffix (s : jstring) : exists p, s = p ++ drop_ws s.
Proof.
  induction s as [|c tl [p Hp]]; [exists []; reflexivity|].
  cbn [drop_ws]. destruct (is_ws c).
  - exists (c :: p). cbn. f_equal. exact Hp.
  - exists []. reflexivity.
Qed.

Lemma trim_drop_end (s : jstring) : trim s = drop_end (drop_ws s).
Proof. reflexivity. Qed.

Lemma drop_end_no_lead (a : jstring) : no_lead_ws a -> no_lead_ws (drop_end a).
Proof.
  intros Ha. unfold drop_end.
  destruct (drop_ws_suffix (rev a)) as [p Hp].
  assert (Ha' : a = rev (drop_ws (rev a)) ++ rev p).
  { rewrite <- rev_app_distr, <- Hp, rev_involutive. reflexivity. }
  destruct (rev (drop_ws (rev a))) as [|c t]; [exact I|].
  rewrite Ha' in Ha. exact Ha.
Qed.

Lemma trim_idempotent (s : jstring) : trim (trim s) = trim s.
Proof.
  rewrite !trim_drop_end.
  rewrite (drop_ws_fixed (drop_end (drop_ws s)) (drop_end_no_lead _ (drop_ws_no_lead s))).
  unfold drop_end. rewrite rev_involutive.
  rewrite (drop_ws_fixed (drop_ws (rev (drop_ws s))) (drop_ws_no_lead _)).
  reflexivity.
Qed.

Lemma drop_ws_incl (s : jstring) (c : code_unit) : In c (drop_ws s) -> In c s.
Proof.
  induction s as [|x tl IH]; [intros []|].
  cbn [drop_ws]. destruct (is_ws x); [intros H; right; exact (IH H) | exact (fun H => H)].
Qed.

Lemma trim_incl (s : jstring) (c : code_unit) : In c (trim s) -> In c s.
Proof.
  unfold trim. intros H.
  apply in_rev in H. apply drop_ws_incl in H. apply in_rev in H.
  exact (drop_ws_incl s c H).
Qed.

Lemma remove_class_none (cls : code_unit -> bool) (s : jstring) :
  (forall c, In c s -> cls c = false) -> remove_class cls s = s.
Proof.
  unfold remove_class. induction s as [|x tl IH]; [reflexivity|].
  intros H. cbn [filter]. rewrite (H x (or_introl eq_refl)). cbn [negb].
  f_equal. apply IH. intros c Hc. apply H. right; exact Hc.
Qed.

Lemma remove_class_free (cls : code_unit -> bool) (s : jstring) (c : code_unit) :
  In c (remove_class cls s) -> cls c = false.
Proof.
  unfold remove_class. intros H. apply filter_In in H as [_ H].
  apply negb_true_iff in H. exact H.
Qed.

Lemma normalizeBrandName_cases (x : jstring) :
  normalizeBrandName x
  = if matches_alias x then CANONICAL else trim (remove_class is_quote x).
Proof.
  unfold normalizeBrandName, matches_alias, brandNormalization.
  generalize (trim (toLowerCase x)) as n. intros n.
  cbn [find existsb].
  repeat match goal with
         | |- context [includes n ?p] => destruct (includes n p)
         end; reflexivity.
Qed.

Lemma matches_alias_canonical : matches_alias CANONICAL = true.
Proof. vm_compute. reflexivity. Qed.

(** The cleaned version of a name is a fixed point of the cleaning. *)
Lemma cleaned_fixed (x : jstring) :
  trim (remove_class is_quote (trim (remove_class is_quote x)))
  = trim (remove_class is_quote x).
Proof.
  rewrite (remove_class_none is_quote (trim (remove_class is_quote x))).
  - apply trim_idempotent.
  - intros c Hc. apply trim_incl in Hc. exact (remove_class_free _ _ _ Hc).
Qed.

Lemma normalize_twice_cases (x : jstring) :
  normalizeBrandName (normalizeBrandName x)
  = if matches_alias (normalizeBrandName x) then CANONICAL else normalizeBrandName x.
Proof.
  rewrite (normalizeBrandName_cases (normalizeBrandName x)).
  destruct (matches_alias (normalizeBrandName x)) eqn:E; [reflexivity|].
  rewrite (normalizeBrandName_cases x) in *.
  destruct (matches_alias x).
  - rewrite matches_alias_canonical in E. discriminate.
  - apply cleaned_fixed.
Qed.

(** Lower-casing keeps white space and never produces any. *)
Lemma lower_unit_cases (c : code_unit) :
  ((65 <= c <= 90)%N /\ lower_unit c = [(c + 32)%N])
  \/ (c = 8490%N /\ lower_unit c = [107%N])
  \/ (c = 304%N /\ lower_unit c = [105%N; 775%N])
  \/ lower_unit c = [c].
Proof.
  unfold lower_unit.
  destruct (N.leb_spec 65 c), (N.leb_spec c 90); cbn [andb];
    try (left; split; [lia | reflexivity]);
    (destruct (N.eqb_spec c 8490); [right; left; split; [assumption | reflexivity]|];
     destruct (N.eqb_spec c 304); [right; right; left; split; [assumption | reflexivity]|];
     right; right; right; reflexivity).
Qed.

Lemma upper_not_ws (c : code_unit) : (65 <= c <= 90)%N -> is_ws c = false /\ is_ws (c + 32)%N = false.
Proof.
  intros H. unfold is_ws. split.
  - replace (9 <=? c)%N with true by (symmetry; apply N.leb_le; lia).
    decide_unit_tests c. reflexivity.
  - replace (9 <=? c + 32)%N with true by (symmetry; apply N.leb_le; lia).
    decide_unit_tests (c + 32)%N. reflexivity.
Qed.

Lemma lower_unit_ws (c : code_unit) : is_ws c = true -> lower_unit c = [c].
Proof.
  intros H. destruct (lower_unit_cases c) as [[Hr _] | [[-> _] | [[-> _] | Hc]]].
  - rewrite (proj1 (upper_not_ws c Hr)) in H. discriminate.
  - discriminate.
  - discriminate.
  - exact Hc.
Qed.

Lemma lower_unit_not_ws (c : code_unit) :
  is_ws c = false ->
  exists l u, lower_unit c = l ++ [u] /\ is_ws u = false /\ no_lead_ws (lower_unit c).
Proof.
  intros H. destruct (lower_unit_cases c) as [[Hr ->] | [[-> ->] | [[-> ->] | ->]]].
  - exists [], (c + 32)%N. split; [reflexivity|].
    split; exact (proj2 (upper_not_ws c Hr)).
  - exists [], 107%N. repeat split.
  - exists [105%N], 775%N. repeat split.
  - exists [], c. split; [reflexivity|]. split; exact H.
Qed.

Lemma toLowerCase_drop_ws (s : jstring) : toLowerCase (drop_ws s) = drop_ws (toLowerCase s).
Proof.
  induction s as [|c tl IH]; [reflexivity|].
  cbn [drop_ws]. destruct (is_ws c) eqn:E.
  - rewrite IH. unfold toLowerCase at 2. cbn [flat_map].
    rewrite (lower_unit_ws c E). cbn [app drop_ws]. rewrite E. reflexivity.
  - destruct (lower_unit_not_ws c E) as (l & u & Hl & _ & Hn).
    symmetry. apply drop_ws_fixed.
    unfold toLowerCase. cbn [flat_map].
    destruct (lower_unit c) as [|x xs]; [destruct l; discriminate|]. exact Hn.
Qed.

Lemma drop_end_snoc (s : jstring) (c : code_unit) :
  drop_end (s ++ [c]) = if is_ws c then drop_end s else s ++ [c].
Proof.
  unfold drop_end. rewrite rev_app_distr. cbn [rev app drop_ws].
  destruct (is_ws c); [reflexivity|].
  cbn [rev]. rewrite rev_involutive. reflexivity.
Qed.

Lemma toLowerCase_app (a b : jstring) : toLowerCase (a ++ b) = toLowerCase a ++ toLowerCase b.
Proof. apply flat_map_app. Qed.

Lemma toLowerCase_drop_end (s : jstring) : toLowerCase (drop_end s) = drop_end (toLowerCase s).
Proof.
  induction s as [|c t IH] using rev_ind; [reflexivity|].
  rewrite drop_end_snoc, toLowerCase_app.
  unfold toLowerCase at 3. cbn [flat_map]. rewrite app_nil_r.
  destruct (is_ws c) eqn:E.
  - rewrite (lower_unit_ws c E), drop_end_snoc, E. exact IH.
  - destruct (lower_unit_not_ws c E) as (l & u & Hl & Hu & _).
    rewrite toLowerCase_app. unfold toLowerCase at 2. cbn [flat_map]. rewrite app_nil_r.
    rewrite Hl, app_assoc, drop_end_snoc, Hu. reflexivity.
Qed.

Lemma toLowerCase_trim (s : jstring) : toLowerCase (trim s) = trim (toLowerCase s).
Proof. rewrite !trim_drop_end, toLowerCase_drop_end, toLowerCase_drop_ws. reflexivity. Qed.

Lemma matches_alias_trim (s : jstring) : matches_alias (trim s) = matches_alias s.
Proof. unfold matches_alias. rewrite toLowerCase_trim, trim_idempotent. reflexivity. Qed.

(** C6, as stated, fails: the quotes are removed after the alias test, so
    the first pass leaves [TRADER JOES] and only the second one reaches the
    canonical brand. *)
Lemma normalizeBrandName_not_idempotent :
  normalizeBrandName quoted_brand = js "TRADER JOES"
  /\ normalizeBrandName (normalizeBrandName quoted_brand) = js "Trader Joes"
  /\ ~ (forall x, normalizeBrandName (normalizeBrandName x) = normalizeBrandName x).
Proof.
  assert (H1 : normalizeBrandName quoted_brand = js "TRADER JOES") by (vm_compute; reflexivity).
  assert (H2 : normalizeBrandName (normalizeBrandName quoted_brand) = js "Trader Joes")
    by (vm_compute; reflexivity).
  split; [exact H1|]. split; [exact H2|].
  intros H. specialize (H quoted_brand). rewrite H2, H1 in H.
  vm_compute in H. discriminate.
Qed.

(** C6, amended.  [normalizeBrandName] is idempotent on every name that
    contains an alias, on every name without a quote character, and more
    generally whenever its result contains no alias; in the remaining case
    the second pass gives the canonical brand, so that it is idempotent from
    the second pass on. *)
Theorem normalizeBrandName_idempotence :
  (forall x, matches_alias x = true ->
             normalizeBrandName (normalizeBrandName x) = normalizeBrandName x)
  /\ (forall x, (forall c, In c x -> is_quote c = false) ->
                normalizeBrandName (normalizeBrandName x) = normalizeBrandName x)
  /\ (forall x, matches_alias (normalizeBrandName x) = false ->
                normalizeBrandName (normalizeBrandName x) = normalizeBrandName x)
  /\ (forall x, matches_alias (normalizeBrandName x) = true ->
                normalizeBrandName (normalizeBrandName x) = CANONICAL)
  /\ (forall x, normalizeBrandName (normalizeBrandName (normalizeBrandName x))
                = normalizeBrandName (normalizeBrandName x)).
Proof.
  split; [|split; [|split; [|split]]].
  - intros x H. rewrite normalize_twice_cases.
    rewrite (normalizeBrandName_cases x), H, matches_alias_canonical. reflexivity.
  - intros x Hq. rewrite normalize_twice_cases.
    rewrite (normalizeBrandName_cases x).
    destruct (matches_alias x) eqn:E.
    + rewrite matches_alias_canonical. reflexivity.
    + rewrite (remove_class_none is_quote x Hq), matches_alias_trim, E. reflexivity.
  - intros x H. rewrite normalize_twice_cases, H. reflexivity.
  - intros x H. rewrite normalize_twice_cases, H. reflexivity.
  - intros x. rewrite (normalize_twice_cases (normalizeBrandName x)).
    rewrite (normalize_twice_cases x).
    destruct (matches_alias (normalizeBrandName x)) eqn:E.
    + rewrite matches_alias_canonical. reflexivity.
    + rewrite E. reflexivity.
Qed.

(** A name with an alias, and a name without quotes *)
Lemma normalizeBrandName_idempotence_witness :
  normalizeBrandName (normalizeBrandName (js "Trader Joe's #519"))
  = normalizeBrandName (js "Trader Joe's #519")
  /\ normalizeBrandName (normalizeBrandName (js "  Whole Foods Market "))
     = normalizeBrandName (js "  Whole Foods Market ").
Proof.
  split.
  - apply (proj1 normalizeBrandName_idempotence). vm_compute. reflexivity.
  - apply (proj1 (proj2 normalizeBrandName_idempotence)).
    intros c Hc. vm_compute in Hc.
    repeat (destruct Hc as [<- | Hc]; [reflexivity|]). destruct Hc.
Defined.

End BrandFacts.

(** ** The examples of the specification, evaluated *)
Section Examples.

Example number_to_string_examples :
  map Number_toString [25.87; 0.9; 1e21; 1e-7; 0.1 + 0.2; -1.5; 100]%float
  = map js ["25.87"; "0.9"; "1e+21"; "1e-7"; "0.30000000000000004"; "-1.5"; "100"]%string.
Proof. vm_compute. reflexivity. Qed.

Example to_fixed_examples :
  map toFixed2 [96.49; 0.62; 3; 0.125; 1.005; -0.001]%float
  = map js ["96.49"; "0.62"; "3.00"; "0.13"; "1.00"; "-0.00"]%string.
Proof. vm_compute. reflexivity. Qed.

Example math_round_examples :
  map Math_round [0.5; 1.5; 2.5; -0.5; -1.5; 91.5; 0.49999999999999994]%float
  = [1; 2; 3; -0; -1; 92; 0]%float.
Proof. vm_compute. reflexivity. Qed.

Example address_example :
  CustomFieldMapper.extractZipCode portland_address = VStr (js "04101")
  /\ CustomFieldMapper.extractStreetNumber portland_address = VStr (js "519").
Proof. split; vm_compute; reflexivity. Qed.

(** The end-to-end example: the parser keeps the total and both items, the
    validator accepts, and the mapper assigns PANTRY and DAIRY and the brand
    Trader Joes. *)
Example end_to_end_example
    (toISOString toTimeString : value -> option jstring) :
  (exists r rc,
      OCRService.parseTabScannerResponse (VObj [(js "result", trader_joes_result)]) = Ok r
      /\ OCRService.receipt r = Some rc
      /\ OCRService.total rc = Some 96.49%float
      /\ List.length (OCRService.items rc) = 2%nat
      /\ OCRService.validateOCRResult r = Ok (OCRService.mkValidation true [] []))
  /\ (exists m,
         CustomFieldMapper.mapToCustomStructure toISOString toTimeString
           (payload_of trader_joes_result) = Ok m
         /\ CustomFieldMapper.brand_name m = js "Trader Joes"
         /\ map CustomFieldMapper.item_type_code (CustomFieldMapper.items m)
            = [CustomFieldMapper.PANTRY; CustomFieldMapper.DAIRY]
         /\ CustomFieldMapper.tax_field_1 m = VNum 0
         /\ CustomFieldMapper.total_price_field m = VNum 96.49).
Proof.
  split.
  - eexists. eexists. split; [vm_compute; reflexivity|].
    split; [reflexivity|]. split; [reflexivity|]. split; [reflexivity|].
    vm_compute. reflexivity.
  - eexists. split; [vm_compute; reflexivity|]. repeat split.
Qed.

End Examples.

(** * Further properties *)

(** ** The parser and the validator together *)
Section PipelineFacts.
Import OCRService.

Lemma num_or_not_nan (v : value) : is_nan (num_or (amount_of v) zero) = false.
Proof.
  unfold num_or. destruct (amount_of v) as [a|] eqn:E; [|reflexivity].
  destruct (truthy (VNum a)); [exact (amount_of_not_nan v a E) | reflexivity].
Qed.

Lemma num_or_falsy (v : value) : truthy v = false -> num_or (amount_of v) zero = zero.
Proof. intros H. unfold amount_of. rewrite H. reflexivity. Qed.

Lemma parsed_item_well_formed (item : value) :
  kept item = true -> item_well_formed (parsed_item item).
Proof.
  unfold kept, item_well_formed, parsed_item. intros H.
  apply andb_true_iff in H as [Hd _]. rewrite Hd.
  cbn [name quantity unitPrice totalPrice category confidence].
  split; [exact Hd|]. split.
  - destruct (truthy (VNum (parseFloat_string (string_form (field item "qty"))))) eqn:E;
      [exact E | reflexivity].
  - split.
    + intros p Hp. unfold num_or_null in Hp.
      destruct (amount_of (field item "price")) as [a|]; [|discriminate].
      destruct (truthy (VNum a)) eqn:E; [|discriminate].
      injection Hp as <-. exact E.
    + split; [apply num_or_not_nan|]. split; reflexivity.
Qed.

Lemma parsed_items_well_formed (res : value) :
  Forall item_well_formed (parsed_items res)
  /\ (forall l, field res "lineItems" = VArr l ->
                (List.length (parsed_items res) <= List.length l)%nat).
Proof.
  unfold parsed_items. destruct (field res "lineItems") as [| |b|x|s|l|fs].
  1-5,7: split; [constructor | intros l' H; discriminate].
  split.
  - apply Forall_forall. intros it Hit.
    apply in_map_iff in Hit as [src [<- Hsrc]].
    apply filter_In in Hsrc as [_ Hk]. exact (parsed_item_well_formed src Hk).
  - intros l' H. injection H as <-. rewrite length_map. apply filter_length_le.
Qed.

(** The receipt of a parsed result, by cases *)
Lemma parsed_receipt_cases (d : value) (r : OCRResult) (rc : Receipt) :
  parseTabScannerResponse d = Ok r -> receipt r = Some rc ->
  (success r = true /\ rc = parsed_receipt (field d "result")
   /\ r = mkOCRResult true None (parsed_confidence (field d "result"))
            (summary_text rc) (Some rc) d
   /\ truthy (field d "result") = true)
  \/ (success r = false /\ rc = empty_receipt).
Proof.
  intros Hp Hr. destruct (is_nullish d) eqn:Hd.
  - rewrite (parse_null d Hd) in Hp. injection Hp as <-. discriminate Hr.
  - rewrite (parse_cases d Hd) in Hp. injection Hp as <-.
    destruct (truthy (field d "result")) eqn:Ht.
    + destruct (parse_clean (field d "result")).
      * left. cbn [receipt] in Hr. injection Hr as <-.
        split; [reflexivity | split; [reflexivity | split; reflexivity]].
      * discriminate Hr.
    + right. cbn [receipt] in Hr. injection Hr as <-. split; reflexivity.
Qed.

Lemma parsed_items_named (res : value) (it : Item) :
  In it (parsed_items res) ->
  exists l src,
    field res "lineItems" = VArr l /\ In src l
    /\ truthy (field src "descClean") = true
    /\ name it = field src "descClean".
Proof.
  unfold parsed_items. destruct (field res "lineItems") as [| |b|x|s|l|fs];
    try (intros []).
  intros Hin. apply in_map_iff in Hin as (src & <- & Hsrc).
  apply filter_In in Hsrc as [Hsrc Hk].
  unfold kept in Hk. apply andb_true_iff in Hk as [Hd _].
  exists l, src. split; [reflexivity|]. split; [exact Hsrc|]. split; [exact Hd|].
  unfold parsed_item. cbn [name]. rewrite Hd. reflexivity.
Qed.

(** X1.  Every item of a parsed receipt is well formed: its name is truthy
    (the default name is never needed, the filter keeps only lines with a
    clean description, and the name is that description), its quantity is
    neither zero nor NaN, its unit price is [null] or a non-zero number, its
    total price is a number, and the receipt has no more items than the
    source has lines. *)
Theorem parsed_items_invariant (d : value) (r : OCRResult) (rc : Receipt) :
  parseTabScannerResponse d = Ok r -> receipt r = Some rc ->
  Forall item_well_formed (items rc)
  /\ (forall l, field (field d "result") "lineItems" = VArr l ->
                (List.length (items rc) <= List.length l)%nat)
  /\ (forall it, In it (items rc) ->
        exists l src,
          field (field d "result") "lineItems" = VArr l /\ In src l
          /\ truthy (field src "descClean") = true
          /\ name it = field src "descClean").
Proof.
  intros Hp Hr.
  destruct (parsed_receipt_cases d r rc Hp Hr) as [(_ & -> & _) | (_ & ->)].
  - destruct (parsed_items_well_formed (field d "result")) as [H1 H2].
    split; [exact H1|]. split; [exact H2|].
    exact (parsed_items_named (field d "result")).
  - split; [constructor|]. split; [intros l _; apply Nat.le_0_l | intros it []].
Qed.

Lemma parsed_items_invariant_witness :
  exists r rc,
    parseTabScannerResponse three_lines_payload = Ok r /\ receipt r = Some rc
    /\ List.length (items rc) = 2%nat
    /\ Forall item_well_formed (items rc).
Proof.
  destruct (parse_never_throws three_lines_payload) as [r Hr].
  assert (Hr' := Hr). vm_compute in Hr'. injection Hr' as Hr'.
  eexists r, _. split; [exact Hr|].
  assert (Hrc : receipt r = Some (parsed_receipt (field three_lines_payload "result"))).
  { rewrite <- Hr'. vm_compute. reflexivity. }
  split; [exact Hrc|]. split; [vm_compute; reflexivity|].
  exact (proj1 (parsed_items_invariant three_lines_payload r _ Hr Hrc)).
Defined.

(** X2.  The total, the tax and the subtotal of a successfully parsed
    receipt are numbers, never [null] and never NaN, and are 0 where the
    source field is missing or falsy. *)
Theorem parsed_money_fields (d : value) (r : OCRResult) (rc : Receipt) :
  parseTabScannerResponse d = Ok r -> success r = true -> receipt r = Some rc ->
  exists t x s,
    total rc = Some t /\ tax rc = Some x /\ subtotal rc = Some s
    /\ is_nan t = false /\ is_nan x = false /\ is_nan s = false
    /\ (truthy (field (field d "result") "total") = false -> t = zero)
    /\ (truthy (field (field d "result") "tax") = false -> x = zero)
    /\ (truthy (field (field d "result") "subTotal") = false -> s = zero).
Proof.
  intros Hp Hs Hr.
  destruct (parsed_receipt_cases d r rc Hp Hr) as [(_ & -> & _) | (Hf & _)];
    [|congruence].
  unfold parsed_receipt. cbn [total tax subtotal].
  eexists _, _, _. repeat split; try apply num_or_not_nan; apply num_or_falsy.
Qed.

Lemma parsed_money_fields_witness :
  exists r rc,
    parseTabScannerResponse empty_result_payload = Ok r /\ receipt r = Some rc
    /\ total rc = Some zero.
Proof.
  exists parsed_empty_result, receipt_of_empty_result.
  assert (Hp : parseTabScannerResponse empty_result_payload = Ok parsed_empty_result)
    by (vm_compute; reflexivity).
  split; [exact Hp|]. split; [reflexivity|].
  destruct (parsed_money_fields _ _ receipt_of_empty_result Hp eq_refl eq_refl)
    as (t & x & s & Ht & _ & _ & _ & _ & _ & H0 & _).
  rewrite Ht. rewrite (H0 eq_refl). reflexivity.
Defined.

Lemma validate_failed (r : OCRResult) :
  success r = false -> validateOCRResult r = Ok (mkValidation false [MSG_FAILED] []).
Proof. intros H. unfold validateOCRResult. rewrite H. reflexivity. Qed.

(** X3.  The validator applied to the parser's result throws exactly when
    the parse succeeded and the source's [establishment] is truthy without
    being a string (its [trim] is missing); in every other case it returns
    a verdict. *)
Theorem validate_after_parse (d : value) (r : OCRResult) :
  parseTabScannerResponse d = Ok r ->
  let est := field (field d "result") "establishment" in
  (success r && truthy est && negb (is_string est) = true ->
   validateOCRResult r = Throw TypeError)
  /\ (success r && truthy est && negb (is_string est) = false ->
      exists v, validateOCRResult r = Ok v).
Proof.
  intros Hp est.
  destruct (success r) eqn:Hs; cbn [andb].
  2: { split; [discriminate|]. intros _. eexists. exact (validate_failed r Hs). }
  assert (Hrc : receipt r = Some (parsed_receipt (field d "result"))).
  { destruct (is_nullish d) eqn:Hd.
    - rewrite (parse_null d Hd) in Hp. injection Hp as <-. discriminate Hs.
    - rewrite (parse_cases d Hd) in Hp. injection Hp as <-.
      destruct (truthy (field d "result")); [|discriminate Hs].
      destruct (parse_clean (field d "result")); [reflexivity | discriminate Hs]. }
  assert (Hm : merchant (parsed_receipt (field d "result")) = js_or est VNull)
    by reflexivity.
  unfold validateOCRResult. rewrite Hs, Hrc. cbn [negb].
  unfold hasMerchant. rewrite Hm. unfold js_or.
  destruct (truthy est) eqn:Ht; cbn [andb].
  - rewrite Ht. destruct est; cbn [is_string negb as_string bind];
      try discriminate Ht; split; intros H; try discriminate H; try reflexivity.
    match goal with
    | |- exists v, (if ?c then _ else _) = Ok v => destruct c; eexists; reflexivity
    end.
  - split; [discriminate|]. intros _. cbn [truthy bind].
    match goal with
    | |- exists v, (if ?c then _ else _) = Ok v => destruct c; eexists; reflexivity
    end.
Qed.

Lemma validate_after_parse_witness :
  exists r,
    parseTabScannerResponse numeric_merchant_payload = Ok r
    /\ validateOCRResult r = Throw TypeError.
Proof.
  destruct (parse_never_throws numeric_merchant_payload) as [r Hr].
  exists r. split; [exact Hr|].
  apply (proj1 (validate_after_parse numeric_merchant_payload r Hr)).
  assert (Hr' := Hr). vm_compute in Hr'. injection Hr' as <-. reflexivity.
Defined.

Lemma summary_longer_than_date (rc : Receipt) (c : code_unit) (tl : jstring) :
  date rc = VStr (c :: tl) ->
  (10 < List.length (summary_text rc))%nat.
Proof.
  intros Hd. unfold summary_text. rewrite Hd.
  unfold text_line_text at 4. cbn [truthy string_form].
  rewrite !length_app.
  change (List.length (js "Date: ")) with 6%nat. cbn [List.length]. lia.
Qed.

(** X4.  A date alone makes a successfully parsed receipt valid: when the
    parse succeeded, the source's date is a non-empty string and its
    merchant is text or missing, the generated raw text is longer than ten
    code units, so the validator accepts the result whatever else is
    missing. *)
Theorem dated_receipt_is_valid (d : value) (r : OCRResult) (c : code_unit) (tl : jstring) :
  parseTabScannerResponse d = Ok r -> success r = true ->
  text_or_missing (field (field d "result") "establishment") ->
  parsed_date (field d "result") = VStr (c :: tl) ->
  (10 < List.length (rawText r))%nat
  /\ exists v,
       validateOCRResult r = Ok v
       /\ isValid v = true /\ errors v = [].
Proof.
  intros Hp Hs He Hdate.
  set (rc := parsed_receipt (field d "result")).
  assert (Hr : r = mkOCRResult true None (parsed_confidence (field d "result"))
                               (summary_text rc) (Some rc) d).
  { destruct (is_nullish d) eqn:Hd.
    - rewrite (parse_null d Hd) in Hp. injection Hp as <-. discriminate Hs.
    - rewrite (parse_cases d Hd) in Hp. injection Hp as <-.
      destruct (truthy (field d "result")); [|discriminate Hs].
      destruct (parse_clean (field d "result")); [reflexivity | discriminate Hs]. }
  assert (Hm : text_or_missing (merchant rc)).
  { unfold rc, parsed_receipt. cbn [merchant]. unfold js_or.
    destruct He as [-> | [-> | [s ->]]]; cbn [truthy].
    - left; reflexivity.
    - left; reflexivity.
    - destruct s; [left; reflexivity | right; right; eexists; reflexivity]. }
  destruct (hasMerchant_spec rc Hm) as [hM [HM _]].
  pose proof (summary_longer_than_date rc c tl Hdate) as Hl.
  subst r. cbn [rawText]. split; [exact Hl|].
  set (r := mkOCRResult true None (parsed_confidence (field d "result"))
                        (summary_text rc) (Some rc) d) in *.
  eexists.
  rewrite (validate_success r rc hM eq_refl eq_refl HM).
  assert (HR : hasRawText r = true).
  { unfold hasRawText, r. cbn [rawText].
    destruct (summary_text rc) as [|x xs]; [cbn in Hl; lia|].
    cbn [truthy andb]. apply Nat.ltb_lt. exact Hl. }
  rewrite HR. rewrite !andb_false_r. cbn [negb andb].
  split; [reflexivity|]. split; reflexivity.
Qed.

Lemma dated_receipt_is_valid_witness :
  exists r v,
    parseTabScannerResponse date_only_payload = Ok r
    /\ validateOCRResult r = Ok v /\ isValid v = true.
Proof.
  destruct (parse_never_throws date_only_payload) as [r Hr].
  assert (Hs : success r = true).
  { assert (Hr' := Hr). vm_compute in Hr'. injection Hr' as <-. reflexivity. }
  destruct (dated_receipt_is_valid date_only_payload r 50%N (js "025-08-21")
              Hr Hs (or_intror (or_introl eq_refl)) eq_refl)
    as (_ & v & Hv & Hi & _).
  exists r, v. split; [exact Hr|]. split; [exact Hv | exact Hi].
Defined.

End PipelineFacts.

(** ** The merchant of a raw text *)
Section MerchantTextFacts.
Import OCRService.

Lemma find_first {A : Type} (f : A -> bool) (l : list A) (x : A) :
  find f l = Some x ->
  f x = true
  /\ exists before after, l = before ++ x :: after
                          /\ Forall (fun y => f y = false) before.
Proof.
  induction l as [|y tl IH]; [discriminate|].
  cbn [find]. destruct (f y) eqn:E.
  - intros H. injection H as <-. split; [exact E|].
    exists [], tl. split; [reflexivity | constructor].
  - intros H. destruct (IH H) as (Hx & before & after & -> & Hb).
    split; [exact Hx|]. exists (y :: before), after.
    split; [reflexivity | constructor; assumption].
Qed.

Lemma find_nothing {A : Type} (f : A -> bool) (l : list A) :
  find f l = None -> Forall (fun y => f y = false) l.
Proof.
  induction l as [|y tl IH]; [constructor|].
  cbn [find]. destruct (f y) eqn:E; [discriminate|].
  intros H. constructor; [exact E | exact (IH H)].
Qed.

Lemma in_firstn {A : Type} (n : nat) (l : list A) (x : A) :
  In x (firstn n l) -> In x l.
Proof.
  intros H. rewrite <- (firstn_skipn n l). apply in_or_app. left. exact H.
Qed.

Lemma split_on_no_separator (sep : code_unit) (s piece : jstring) :
  In piece (split_on sep s) -> ~ In sep piece.
Proof.
  revert piece. induction s as [|c tl IH]; intros piece.
  - cbn. intros [<- | []]. exact (fun H => H).
  - cbn [split_on]. unfold unit_eqb. destruct (N.eqb_spec c sep) as [E | E].
    + intros [<- | H]; [exact (fun H => H) | exact (IH piece H)].
    + destruct (split_on sep tl) as [|h r].
      * intros [<- | []]. intros [H | []]. exact (E H).
      * intros [<- | H].
        -- intros [H | H]; [exact (E H) | exact (IH h (or_introl eq_refl) H)].
        -- exact (IH piece (or_intror H)).
Qed.

Lemma nonblank_line_origin (s line : jstring) :
  In line (nonblank_lines s) ->
  line <> [] /\ exists raw, In raw (split_on 10%N s) /\ line = trim raw.
Proof.
  unfold nonblank_lines. intros H. apply filter_In in H as [H Hl].
  apply in_map_iff in H as [raw [<- Hraw]]. split.
  - intros E. rewrite E in Hl. discriminate Hl.
  - exists raw. split; [exact Hraw | reflexivity].
Qed.

(** X5.  [extractMerchantFromText]: a falsy text gives [null]; a truthy
    value that is not a string has no [split] and throws; for a string the
    answer is [null] or the first of the first three non-blank trimmed lines
    that is longer than two units, has no run of three digits and does not
    start like an item line.  Such an answer is a trimmed line of the text
    without a line feed, and [null] means none of the three qualifies, also
    when a later line would. *)
Theorem extractMerchantFromText_spec (text : value) :
  (truthy text = false -> extractMerchantFromText text = Ok VNull)
  /\ (truthy text = true -> is_string text = false ->
      extractMerchantFromText text = Throw TypeError)
  /\ (forall s, text = VStr s ->
      let lines := firstn 3 (nonblank_lines s) in
      (extractMerchantFromText text = Ok VNull
       /\ Forall (fun l => merchant_candidate l = false) lines)
      \/ (exists line before after,
            extractMerchantFromText text = Ok (VStr line)
            /\ lines = before ++ line :: after
            /\ Forall (fun l => merchant_candidate l = false) before
            /\ (2 < List.length line)%nat
            /\ has_three_digits O line = false
            /\ starts_with_number_and_word line = false
            /\ trim line = line
            /\ ~ In 10%N line
            /\ exists raw, In raw (split_on 10%N s) /\ line = trim raw)).
Proof.
  split; [|split].
  - intros H. unfold extractMerchantFromText. rewrite H. reflexivity.
  - intros Ht Hs. unfold extractMerchantFromText. rewrite Ht.
    destruct text; try discriminate Hs; reflexivity.
  - intros s -> lines. unfold extractMerchantFromText.
    destruct (truthy (VStr s)) eqn:Ht; cbn [negb].
    + cbn [as_string bind]. fold lines.
      destruct (find merchant_candidate lines) as [line|] eqn:Hf.
      * right. destruct (find_first _ _ _ Hf) as (Hc & before & after & Hl & Hb).
        exists line, before, after.
        unfold merchant_candidate in Hc.
        apply andb_true_iff in Hc as [Hc Hlen]. apply andb_true_iff in Hc as [H3 Hn].
        assert (Hin : In line (nonblank_lines s)).
        { apply (in_firstn 3). fold lines. rewrite Hl. apply in_or_app. right. left.
          reflexivity. }
        destruct (nonblank_line_origin s line Hin) as (_ & raw & Hraw & Hline).
        split; [reflexivity|]. split; [exact Hl|]. split; [exact Hb|].
        split; [apply Nat.ltb_lt; exact Hlen|].
        split; [apply negb_true_iff; exact H3|].
        split; [apply negb_true_iff; exact Hn|].
        split; [rewrite Hline; apply trim_idempotent|].
        split.
        -- rewrite Hline. intros H. apply trim_incl in H.
           exact (split_on_no_separator _ _ _ Hraw H).
        -- exists raw. split; [exact Hraw | exact Hline].
      * left. split; [reflexivity | exact (find_nothing _ _ Hf)].
    + left. destruct s; [|discriminate Ht]. split; [reflexivity | constructor].
Qed.

Lemma extractMerchantFromText_spec_witness :
  extractMerchantFromText (VNum 5) = Throw TypeError
  /\ extractMerchantFromText (VStr shop_text) = Ok (VStr (js "Corner Shop")).
Proof.
  split.
  - apply (proj1 (proj2 (extractMerchantFromText_spec (VNum 5)))); reflexivity.
  - vm_compute. reflexivity.
Defined.

End MerchantTextFacts.

(** ** Upload and polling *)
Section NetworkFacts.
Import OCRService.

Variable upload : result value.
Variable poll : nat -> result value.

(** The status that the loop tests, after the log line has printed it *)
Lemma logged_status (data : value) :
  (status <- get data "status" ;; _ <- ToString status ;; Ok status)
  = match get data "status" with
    | Ok status => if convertible status then Ok status else Throw TypeError
    | Throw e => Throw e
    end.
Proof.
  destruct (get data "status") as [status|e]; [|reflexivity]. cbn [bind].
  rewrite ToString_spec. destruct (convertible status); reflexivity.
Qed.

Lemma poll_results_waiting (fuel a : nat) :
  waiting_response (poll (S a)) = true ->
  poll_results poll (S fuel) a = poll_results poll fuel (S a).
Proof.
  unfold waiting_response. cbn [poll_results].
  destruct (poll (S a)) as [data|e]; [|discriminate].
  rewrite logged_status.
  destruct (get data "status") as [status|e]; [|discriminate].
  intros H. apply andb_true_iff in H as [H1 H2]. apply andb_true_iff in H1 as [H0 H1].
  apply negb_true_iff in H1. apply negb_true_iff in H2. rewrite H0, H1.
  destruct (is_literal status "pending"); [reflexivity|]. rewrite H2. reflexivity.
Qed.

Lemma literal_convertible (status : value) (s : string) :
  is_literal status s = true -> convertible status = true.
Proof. destruct status; try discriminate. reflexivity. Qed.

Lemma poll_results_done (fuel a : nat) (data : value) :
  poll (S a) = Ok data -> done_response (poll (S a)) = true ->
  poll_results poll (S fuel) a = (parseTabScannerResponse data, S a).
Proof.
  intros Hp. unfold done_response. cbn [poll_results]. rewrite Hp, logged_status.
  destruct (get data "status") as [status|e]; [|discriminate].
  intros H. pose proof H as H'. apply andb_true_iff in H' as [H' _].
  rewrite (literal_convertible status "done" H'), H. reflexivity.
Qed.

Lemma poll_results_unprintable (fuel a : nat) (data status : value) :
  poll (S a) = Ok data -> get data "status" = Ok status -> convertible status = false ->
  poll_results poll (S fuel) a = (Throw TypeError, S a).
Proof.
  intros Hp Hg Hc. cbn [poll_results]. rewrite Hp, logged_status, Hg, Hc. reflexivity.
Qed.

Lemma poll_results_bound (fuel a : nat) :
  (a <= snd (poll_results poll fuel a) <= a + fuel)%nat.
Proof.
  revert a. induction fuel as [|fuel IH]; intros a; [cbn; lia|].
  cbn [poll_results]. specialize (IH (S a)).
  destruct (poll (S a)) as [data|e]; [|cbn; lia].
  rewrite logged_status.
  destruct (get data "status") as [status|e]; [|cbn; lia].
  destruct (convertible status); [|cbn; lia].
  destruct (is_literal status "done" && truthy (field data "result")); [cbn; lia|].
  destruct (is_literal status "pending"); [lia|].
  destruct (is_literal status "error" || is_literal status "failed"); [cbn; lia | lia].
Qed.

Lemma poll_results_at_least_one (fuel a : nat) :
  (S a <= snd (poll_results poll (S fuel) a))%nat.
Proof.
  pose proof (poll_results_bound fuel (S a)) as Hb.
  cbn [poll_results].
  destruct (poll (S a)) as [data|e]; [|cbn; lia].
  rewrite logged_status.
  destruct (get data "status") as [status|e]; [|cbn; lia].
  destruct (convertible status); [|cbn; lia].
  destruct (is_literal status "done" && truthy (field data "result")); [cbn; lia|].
  destruct (is_literal status "pending"); [lia|].
  destruct (is_literal status "error" || is_literal status "failed"); [cbn; lia | lia].
Qed.

Lemma poll_results_all_waiting (fuel a : nat) :
  (forall k, (a < k <= a + fuel)%nat -> waiting_response (poll k) = true) ->
  poll_results poll fuel a = (Throw TIMEOUT, (a + fuel)%nat).
Proof.
  revert a. induction fuel as [|fuel IH]; intros a H.
  - cbn [poll_results]. rewrite Nat.add_0_r. reflexivity.
  - rewrite (poll_results_waiting fuel a) by (apply H; lia).
    rewrite (IH (S a)) by (intros k Hk; apply H; lia).
    f_equal. lia.
Qed.

Lemma poll_results_first_done (fuel a k : nat) (data : value) :
  (a < k <= a + fuel)%nat ->
  (forall j, (a < j < k)%nat -> waiting_response (poll j) = true) ->
  poll k = Ok data -> done_response (poll k) = true ->
  poll_results poll fuel a = (parseTabScannerResponse data, k).
Proof.
  revert a. induction fuel as [|fuel IH]; intros a Hk Hw Hp Hd; [lia|].
  destruct (Nat.eq_dec k (S a)) as [-> | Hne].
  - exact (poll_results_done fuel a data Hp Hd).
  - rewrite (poll_results_waiting fuel a) by (apply Hw; lia).
    apply IH; [lia | intros j Hj; apply Hw; lia | exact Hp | exact Hd].
Qed.

Lemma poll_results_first_unprintable (fuel a k : nat) (data status : value) :
  (a < k <= a + fuel)%nat ->
  (forall j, (a < j < k)%nat -> waiting_response (poll j) = true) ->
  poll k = Ok data -> get data "status" = Ok status -> convertible status = false ->
  poll_results poll fuel a = (Throw TypeError, k).
Proof.
  revert a. induction fuel as [|fuel IH]; intros a Hk Hw Hp Hg Hc; [lia|].
  destruct (Nat.eq_dec k (S a)) as [-> | Hne].
  - exact (poll_results_unprintable fuel a data status Hp Hg Hc).
  - rewrite (poll_results_waiting fuel a) by (apply Hw; lia).
    apply IH; [lia | intros j Hj; apply Hw; lia | exact Hp | exact Hg | exact Hc].
Qed.

Lemma poll_results_ok (fuel a : nat) (r : OCRResult) :
  fst (poll_results poll fuel a) = Ok r ->
  exists k data,
    (a < k <= a + fuel)%nat
    /\ (forall j, (a < j < k)%nat -> waiting_response (poll j) = true)
    /\ poll k = Ok data /\ done_response (poll k) = true
    /\ parseTabScannerResponse data = Ok r
    /\ snd (poll_results poll fuel a) = k.
Proof.
  revert a. induction fuel as [|fuel IH]; intros a; [discriminate|].
  destruct (waiting_response (poll (S a))) eqn:Hw.
  - rewrite (poll_results_waiting fuel a Hw). intros H.
    destruct (IH (S a) H) as (k & data & Hk & Hj & Hp & Hd & Hr & Hs).
    exists k, data. split; [lia|]. split.
    + intros j Hjk. destruct (Nat.eq_dec j (S a)) as [-> | Hne];
        [exact Hw | apply Hj; lia].
    + repeat split; assumption.
  - revert Hw. unfold waiting_response. cbn [poll_results].
    destruct (poll (S a)) as [data|e] eqn:Hp; [|discriminate].
    rewrite logged_status.
    destruct (get data "status") as [status|e] eqn:Hg; [|discriminate].
    destruct (convertible status) eqn:Hc; [|discriminate].
    destruct (is_literal status "done" && truthy (field data "result")) eqn:Hd.
    + intros _ H. exists (S a), data. split; [lia|]. split; [intros j Hj; lia|].
      split; [exact Hp|]. split; [|split; [exact H | reflexivity]].
      unfold done_response. rewrite Hp, Hg. exact Hd.
    + cbn [negb andb]. intros He. apply negb_false_iff in He.
      destruct (is_literal status "pending") eqn:Hpe.
      * destruct status as [| | | |s| |]; try discriminate Hpe.
        cbn [is_literal] in He, Hpe.
        apply orb_true_iff in He.
        assert (Hs : s = js "pending").
        { clear - Hpe. revert Hpe. generalize (js "pending"). 
          induction s as [|x s IH]; intros [|y p]; cbn; try discriminate; [reflexivity|].
          unfold unit_eqb. intros H. apply andb_true_iff in H as [H1 H2].
          apply N.eqb_eq in H1. rewrite H1, (IH p H2). reflexivity. }
        subst s. destruct He as [He | He]; vm_compute in He; discriminate He.
      * rewrite He. destruct (failure_of "Processing failed: " data); discriminate.
Qed.

Lemma processReceipt_with_token (token : value) :
  upload_token upload = Ok token ->
  processReceipt upload poll
  = if convertible token then poll_results poll maxAttempts 0
    else (Throw TypeError, 0%nat).
Proof.
  intros Hu. unfold processReceipt, resultUrl. rewrite Hu. cbn [bind].
  rewrite ToString_spec. destruct (convertible token); reflexivity.
Qed.

(** X6.  [processReceipt] after an accepted upload.  A token whose
    conversion to a string throws makes the result URL throw a TypeError
    before any result request.  With any other token the call makes between
    one and twenty result requests; twenty responses that are neither done
    nor failed, each with a status that can be printed, give the time-out
    error after exactly twenty requests; the first response that is done
    with a truthy result, the earlier ones all waiting, settles the call
    with the parse of that response; the first response whose status cannot
    be printed, the earlier ones all waiting, makes the log line throw a
    TypeError; and a receipt is only ever returned from a response that is
    done with a truthy result. *)
Theorem processReceipt_polling (token : value) :
  upload_token upload = Ok token ->
  (convertible token = false ->
   processReceipt upload poll = (Throw TypeError, 0%nat))
  /\ (convertible token = true ->
      (1 <= snd (processReceipt upload poll) <= 20)%nat
      /\ ((forall k, (1 <= k <= 20)%nat -> waiting_response (poll k) = true) ->
          processReceipt upload poll = (Throw TIMEOUT, 20%nat))
      /\ (forall k data,
            (1 <= k <= 20)%nat ->
            (forall j, (1 <= j < k)%nat -> waiting_response (poll j) = true) ->
            poll k = Ok data -> done_response (poll k) = true ->
            processReceipt upload poll = (parseTabScannerResponse data, k))
      /\ (forall k data status,
            (1 <= k <= 20)%nat ->
            (forall j, (1 <= j < k)%nat -> waiting_response (poll j) = true) ->
            poll k = Ok data -> get data "status" = Ok status ->
            convertible status = false ->
            processReceipt upload poll = (Throw TypeError, k))
      /\ (forall r,
            fst (processReceipt upload poll) = Ok r ->
            exists k data,
              (1 <= k <= 20)%nat /\ poll k = Ok data
              /\ done_response (poll k) = true
              /\ truthy (field data "result") = true
              /\ parseTabScannerResponse data = Ok r
              /\ snd (processReceipt upload poll) = k)).
Proof.
  intros Hu. rewrite (processReceipt_with_token token Hu). unfold maxAttempts.
  split; [intros ->; reflexivity|]. intros ->.
  split; [|split; [|split; [|split]]].
  - pose proof (poll_results_bound 20 0) as Hb.
    pose proof (poll_results_at_least_one 19 0) as Hb1. lia.
  - intros H. apply (poll_results_all_waiting 20 0). intros k Hk. apply H. lia.
  - intros k data Hk Hw Hp Hd.
    apply (poll_results_first_done 20 0 k data); [lia | | exact Hp | exact Hd].
    intros j Hj. apply Hw. lia.
  - intros k data status Hk Hw Hp Hg Hc.
    apply (poll_results_first_unprintable 20 0 k data status);
      [lia | | exact Hp | exact Hg | exact Hc].
    intros j Hj. apply Hw. lia.
  - intros r Hr.
    destruct (poll_results_ok 20 0 r Hr) as (k & data & Hk & _ & Hp & Hd & Hpr & Hs).
    exists k, data. split; [lia|]. split; [exact Hp|]. split; [exact Hd|].
    split; [|split; [exact Hpr | exact Hs]].
    revert Hd. unfold done_response. rewrite Hp.
    destruct (get data "status"); [|discriminate].
    intros H. apply andb_true_iff in H as [_ H]. exact H.
Qed.

End NetworkFacts.

Lemma processReceipt_polling_witness :
  snd (OCRService.processReceipt upload_accepted third_time_done) = 3%nat
  /\ OCRService.processReceipt upload_accepted done_without_result
     = (Throw TIMEOUT, 20%nat)
  /\ OCRService.processReceipt upload_accepted unprintable_status
     = (Throw TypeError, 1%nat)
  /\ OCRService.processReceipt upload_with_unprintable_token third_time_done
     = (Throw TypeError, 0%nat).
Proof.
  split; [|split; [|split]].
  - destruct (proj2 (processReceipt_polling upload_accepted third_time_done
                       (VStr (js "t1")) eq_refl) eq_refl) as (_ & _ & H & _).
    rewrite (H 3%nat (VObj [(js "status", VStr (js "done")); (js "result", VObj [])])).
    + reflexivity.
    + lia.
    + intros j Hj. assert (E : j = 1%nat \/ j = 2%nat) by lia.
      destruct E as [-> | ->]; vm_compute; reflexivity.
    + reflexivity.
    + vm_compute. reflexivity.
  - destruct (proj2 (processReceipt_polling upload_accepted done_without_result
                       (VStr (js "t1")) eq_refl) eq_refl) as (_ & H & _).
    apply H. intros k _. vm_compute. reflexivity.
  - destruct (proj2 (processReceipt_polling upload_accepted unprintable_status
                       (VStr (js "t1")) eq_refl) eq_refl) as (_ & _ & _ & H & _).
    apply (H 1%nat (VObj [(js "status", toString_object)]) toString_object);
      [lia | intros j Hj; lia | reflexivity | reflexivity | reflexivity].
  - apply (proj1 (processReceipt_polling upload_with_unprintable_token third_time_done
                    toString_object eq_refl)).
    reflexivity.
Defined.

(** ** The address heuristics *)
Section AddressFacts.
Import CustomFieldMapper.

Lemma take_digits_split (s : jstring) :
  s = fst (take_digits s) ++ snd (take_digits s)
  /\ all_digits (fst (take_digits s)) = true
  /\ match snd (take_digits s) with [] => True | c :: _ => is_digit c = false end.
Proof.
  induction s as [|c tl (IH1 & IH2 & IH3)]; [repeat split|].
  cbn [take_digits]. destruct (is_digit c) eqn:E.
  - destruct (take_digits tl) as [ds r]. cbn [fst snd] in *.
    split; [cbn; f_equal; exact IH1|]. split; [|exact IH3].
    cbn. rewrite E. exact IH2.
  - cbn [fst snd]. split; [reflexivity|]. split; [reflexivity | exact E].
Qed.

Lemma take_digits_app (run rest : jstring) :
  all_digits run = true ->
  match rest with [] => True | c :: _ => is_digit c = false end ->
  take_digits (run ++ rest) = (run, rest).
Proof.
  intros Hr Hb. induction run as [|c tl IH].
  - exact (take_digits_no_digit rest Hb).
  - cbn in Hr. apply andb_true_iff in Hr as [Hc Ht].
    cbn [app take_digits]. rewrite Hc, (IH Ht). reflexivity.
Qed.

Lemma not_word_not_digit (c : code_unit) : is_word c = false -> is_digit c = false.
Proof. unfold is_word. destruct (is_digit c); [discriminate | reflexivity]. Qed.

Lemma first_number_shape (fuel : nat) :
  forall (prev : bool) (s m : jstring),
    first_number fuel prev s = Some m ->
    exists a b,
      s = a ++ m ++ b /\ m <> [] /\ all_digits m = true /\ boundary_after b = true
      /\ (a = [] -> prev = false) /\ ends_outside_word a.
Proof.
  induction fuel as [|fuel IH]; intros prev s m; [discriminate|].
  destruct s as [|c tl]; [discriminate|]. cbn [first_number].
  destruct (is_digit c && negb prev) eqn:E.
  - apply andb_true_iff in E as [Hc Hprev]. apply negb_true_iff in Hprev.
    destruct (take_digits_split (c :: tl)) as (Hs & Hd & _).
    assert (Hne : fst (take_digits (c :: tl)) <> []).
    { cbn [take_digits]. rewrite Hc. destruct (take_digits tl). discriminate. }
    destruct (take_digits (c :: tl)) as [run rest]. cbn [fst snd] in *.
    destruct rest as [|c' rest'].
    + intros H. injection H as <-. exists [], [].
      split; [exact Hs|]. split; [exact Hne|]. split; [exact Hd|].
      split; [reflexivity|]. split; [intros _; exact Hprev|].
      intros a' x H. destruct a'; discriminate H.
    + destruct (is_word c') eqn:Hw.
      * rewrite Hs, skipn_app, Nat.sub_diag, skipn_all. cbn [skipn app].
        intros H. destruct (IH true _ m H) as (a & b & Hab & Hm & Hdm & Hb & Ha & Hl).
        exists (run ++ a), b. split; [rewrite Hab, <- app_assoc; reflexivity|].
        split; [exact Hm|]. split; [exact Hdm|]. split; [exact Hb|]. split.
        -- intros H0. apply app_eq_nil in H0 as [H0 _]. contradiction.
        -- intros a' x Hx. destruct (exists_last (l := a)) as (a0 & x0 & Ha0).
           { intros H0. specialize (Ha H0). discriminate Ha. }
           rewrite Ha0, app_assoc in Hx. apply app_inj_tail in Hx as [_ <-].
           exact (Hl a0 x0 Ha0).
      * intros H. injection H as <-. exists [], (c' :: rest').
        split; [exact Hs|]. split; [exact Hne|]. split; [exact Hd|].
        split; [cbn; rewrite Hw; reflexivity|]. split; [intros _; exact Hprev|].
        intros a' x H. destruct a'; discriminate H.
  - intros H. destruct (IH (is_word c) tl m H) as (a & b & Hab & Hm & Hdm & Hb & Ha & Hl).
    exists (c :: a), b. split; [rewrite Hab; reflexivity|].
    split; [exact Hm|]. split; [exact Hdm|]. split; [exact Hb|].
    split; [discriminate|].
    intros a' x Hx. destruct a as [|y a0].
    + destruct a' as [|z a'']; [|destruct a''; discriminate Hx].
      injection Hx as <-. exact (Ha eq_refl).
    + destruct a' as [|z a'']; [discriminate Hx|].
      injection Hx as _ Hx. exact (Hl a'' x Hx).
Qed.

Lemma first_number_none (fuel : nat) (prev : bool) (s : jstring) :
  digit_free s = true -> first_number fuel prev s = None.
Proof.
  revert fuel prev. induction s as [|c tl IH]; intros fuel prev H.
  - destruct fuel; reflexivity.
  - cbn in H. apply andb_true_iff in H as [Hc Ht]. apply negb_true_iff in Hc.
    destruct fuel; [reflexivity|]. cbn [first_number]. rewrite Hc. cbn [andb].
    exact (IH fuel _ Ht).
Qed.

Lemma zip_at_shape (s z : jstring) :
  zip_at s = Some z -> zip_shaped z /\ exists b, s = z ++ b.
Proof.
  unfold zip_at. cbv zeta.
  destruct (Nat.eqb (List.length (firstn 5 s)) 5 && all_digits (firstn 5 s)) eqn:E;
    [|discriminate].
  apply andb_true_iff in E as [Hl Hd]. apply Nat.eqb_eq in Hl.
  assert (Hplain : zip_shaped (firstn 5 s) /\ exists b, s = firstn 5 s ++ b).
  { split; [left; split; assumption|]. exists (skipn 5 s).
    symmetry. apply firstn_skipn. }
  destruct (skipn 5 s) as [|c r] eqn:Hrest.
  - destruct (boundary_after []); [|discriminate].
    intros H. injection H as <-. exact Hplain.
  - destruct (N.eq_dec c 45) as [-> | Hc].
    + destruct (Nat.eqb (List.length (firstn 4 r)) 4 && all_digits (firstn 4 r)
                && boundary_after (skipn 4 r)) eqn:E4.
      * assert (Hsplit : s = (firstn 5 s ++ [45%N] ++ firstn 4 r) ++ skipn 4 r).
        { pose proof (firstn_skipn 5 s) as H5. rewrite Hrest in H5.
          pose proof (firstn_skipn 4 r) as H4.
          rewrite <- !app_assoc. change ([45%N] ++ firstn 4 r ++ skipn 4 r)
            with (45%N :: (firstn 4 r ++ skipn 4 r)).
          rewrite H4. symmetry. exact H5. }
        apply andb_true_iff in E4 as [E4 _]. apply andb_true_iff in E4 as [Hl4 Hd4].
        apply Nat.eqb_eq in Hl4.
        assert (Hz : zip_shaped (firstn 5 s ++ [45%N] ++ firstn 4 r)).
        { right. exists (firstn 5 s), (firstn 4 r).
          split; [reflexivity|]. split; [exact Hl|]. split; [exact Hd|].
          split; [exact Hl4 | exact Hd4]. }
        intros H. injection H as <-. split; [exact Hz|].
        exists (skipn 4 r). exact Hsplit.
      * clear E4. destruct (boundary_after _); [|discriminate].
        intros H. injection H as <-. exact Hplain.
    + assert (Hext : match c :: r with
                     | 45%N :: r0 =>
                       if Nat.eqb (List.length (firstn 4 r0)) 4 && all_digits (firstn 4 r0)
                          && boundary_after (skipn 4 r0)
                       then Some (firstn 5 s ++ [45%N] ++ firstn 4 r0) else None
                     | _ => None
                     end = None).
      { destruct c as [|p]; [reflexivity|].
        do 6 (destruct p as [p|p|]; try reflexivity). contradiction Hc. reflexivity. }
      rewrite Hext. destruct (boundary_after _); [|discriminate].
      intros H. injection H as <-. exact Hplain.
Qed.

Lemma first_zip_shape (s : jstring) :
  forall (prev : bool) (z : jstring),
    first_zip prev s = Some z -> zip_shaped z /\ occurs_in z s.
Proof.
  induction s as [|c tl IH]; intros prev z; [discriminate|].
  cbn [first_zip].
  destruct (if negb prev then zip_at (c :: tl) else None) as [z'|] eqn:E.
  - intros H. injection H as <-. destruct prev; [discriminate E|]. cbn [negb] in E.
    destruct (zip_at_shape _ _ E) as [Hz [b Hb]].
    split; [exact Hz|]. exists [], b. exact Hb.
  - intros H. destruct (IH _ z H) as [Hz (a & b & Hab)].
    split; [exact Hz|]. exists (c :: a), b. rewrite Hab. reflexivity.
Qed.

Lemma zip_at_no_digit (c : code_unit) (tl : jstring) :
  is_digit c = false -> zip_at (c :: tl) = None.
Proof.
  intros Hc. unfold zip_at. cbn [firstn all_digits forallb]. rewrite Hc.
  cbn [andb]. rewrite andb_false_r. reflexivity.
Qed.

Lemma first_zip_none (s : jstring) (prev : bool) :
  digit_free s = true -> first_zip prev s = None.
Proof.
  revert prev. induction s as [|c tl IH]; intros prev H; [reflexivity|].
  cbn in H. apply andb_true_iff in H as [Hc Ht]. apply negb_true_iff in Hc.
  cbn [first_zip]. rewrite (zip_at_no_digit c tl Hc).
  destruct (negb prev); exact (IH _ Ht).
Qed.

(** X7.  [extractZipCode] returns [null] or a string that occurs in the
    address and is five digits, or five digits, a hyphen and four digits;
    an address without a digit has no zip code. *)
Theorem extractZipCode_shape (address : jstring) :
  (extractZipCode address = VNull
   \/ exists z, extractZipCode address = VStr z /\ zip_shaped z /\ occurs_in z address)
  /\ (digit_free address = true -> extractZipCode address = VNull).
Proof.
  unfold extractZipCode. split.
  - destruct (first_zip false address) as [z|] eqn:E; [right | left; reflexivity].
    exists z. split; [reflexivity|]. exact (first_zip_shape address false z E).
  - intros H. rewrite (first_zip_none address false H). reflexivity.
Qed.

Lemma extractZipCode_shape_witness :
  extractZipCode (js "Main Street, Portland") = VNull.
Proof.
  apply (proj2 (extractZipCode_shape (js "Main Street, Portland"))).
  vm_compute. reflexivity.
Defined.

(** X8.  [extractStreetNumber] returns [null] or a non-empty string of
    digits that occurs in the address between two word boundaries; an
    address that starts with a number followed by a non-word unit (or by
    nothing) has that number, and an address without a digit has none. *)
Theorem extractStreetNumber_shape (address : jstring) :
  (extractStreetNumber address = VNull
   \/ exists m a b,
        extractStreetNumber address = VStr m /\ address = a ++ m ++ b
        /\ m <> [] /\ all_digits m = true
        /\ ends_outside_word a /\ boundary_after b = true)
  /\ (forall run rest,
        address = run ++ rest -> run <> [] -> all_digits run = true ->
        boundary_after rest = true ->
        extractStreetNumber address = VStr run)
  /\ (digit_free address = true -> extractStreetNumber address = VNull).
Proof.
  unfold extractStreetNumber. split; [|split].
  - destruct (first_number (S (List.length address)) false address) as [m|] eqn:E;
      [right | left; reflexivity].
    destruct (first_number_shape _ _ _ _ E) as (a & b & Hab & Hm & Hd & Hb & _ & Ha).
    exists m, a, b. repeat split; assumption.
  - intros run rest -> Hne Hd Hb.
    assert (Hrest : match rest with [] => True | c :: _ => is_digit c = false end).
    { destruct rest as [|c r]; [exact I|]. cbn in Hb. apply negb_true_iff in Hb.
      exact (not_word_not_digit c Hb). }
    destruct run as [|c run']; [contradiction Hne; reflexivity|].
    assert (Hc : is_digit c = true).
    { cbn in Hd. apply andb_true_iff in Hd as [Hd _]. exact Hd. }
    change ((c :: run') ++ rest) with (c :: (run' ++ rest)) at 2.
    cbn [first_number]. rewrite Hc. cbn [negb andb].
    change (c :: (run' ++ rest)) with ((c :: run') ++ rest).
    rewrite (take_digits_app (c :: run') rest Hd Hrest).
    destruct rest as [|c' r]; [reflexivity|].
    cbn in Hb. apply negb_true_iff in Hb. rewrite Hb. reflexivity.
  - intros H. rewrite (first_number_none _ false address H). reflexivity.
Qed.

Lemma extractStreetNumber_shape_witness :
  extractStreetNumber (js "87 Marginal Way") = VStr (js "87")
  /\ extractStreetNumber (js "Marginal Way") = VNull.
Proof.
  split.
  - apply (proj1 (proj2 (extractStreetNumber_shape (js "87 Marginal Way")))
             (js "87") (js " Marginal Way")).
    + reflexivity.
    + discriminate.
    + reflexivity.
    + reflexivity.
  - apply (proj2 (proj2 (extractStreetNumber_shape (js "Marginal Way")))).
    vm_compute. reflexivity.
Defined.

Lemma split_on_units (sep : code_unit) (s piece : jstring) (c : code_unit) :
  In piece (split_on sep s) -> In c piece -> In c s.
Proof.
  revert piece. induction s as [|x tl IH]; intros piece.
  - cbn. intros [<- | []] [].
  - cbn [split_on]. destruct (unit_eqb x sep).
    + intros [<- | H]; [intros [] | intros Hc; right; exact (IH piece H Hc)].
    + destruct (split_on sep tl) as [|h r].
      * intros [<- | []] [<- | []]. left; reflexivity.
      * intros [<- | H].
        -- intros [<- | Hc]; [left; reflexivity | right].
           exact (IH h (or_introl eq_refl) Hc).
        -- intros Hc. right. exact (IH piece (or_intror H) Hc).
Qed.

Lemma split_on_head (sep : code_unit) (s : jstring) :
  In (nth 0 (split_on sep s) []) (split_on sep s).
Proof.
  destruct s as [|c tl]; [left; reflexivity|].
  cbn [split_on]. destruct (unit_eqb c sep); [left; reflexivity|].
  destruct (split_on sep tl); left; reflexivity.
Qed.

Lemma strip_leading_number_units (s : jstring) (c : code_unit) :
  In c (strip_leading_number s) -> In c s.
Proof.
  unfold strip_leading_number.
  destruct (take_digits_split s) as (Hs & _).
  destruct (take_digits s) as [run rest]. cbn [fst snd] in Hs.
  destruct run as [|d run']; [exact (fun H => H)|].
  intros H. apply drop_ws_incl in H. rewrite Hs. apply in_or_app. right. exact H.
Qed.

Lemma store_tag_at_units (s r : jstring) (c : code_unit) :
  store_tag_at s = Some r -> In c r -> In c s.
Proof.
  unfold store_tag_at. destruct s as [|x [|y tl]]; try discriminate.
  destruct (N.eq_dec y 40) as [-> | Hy].
  - destruct (is_ws x); [|discriminate].
    destruct (take_digits_split tl) as (Hs & _).
    destruct (take_digits tl) as [run rest]. cbn [fst snd] in Hs.
    destruct run as [|d run']; [discriminate|].
    destruct rest as [|z rest']; [discriminate|].
    destruct (N.eq_dec z 41) as [-> | Hz].
    + intros H. injection H as <-. intros Hc. right. right. rewrite Hs.
      apply in_or_app. right. right. exact Hc.
    + intros H. exfalso. revert H.
      destruct z as [|p]; [discriminate|].
      do 6 (destruct p as [p|p|]; try discriminate). contradiction Hz. reflexivity.
  - intros H. exfalso. revert H.
    destruct y as [|p]; [discriminate|].
    do 6 (destruct p as [p|p|]; try discriminate). contradiction Hy. reflexivity.
Qed.

Lemma after_last_store_tag_units (s r : jstring) (c : code_unit) :
  after_last_store_tag s = Some r -> In c r -> In c s.
Proof.
  revert r. induction s as [|x tl IH]; intros r; [discriminate|].
  cbn [after_last_store_tag].
  destruct (after_last_store_tag tl) as [r'|].
  - intros H. injection H as <-. intros Hc. right. exact (IH r' eq_refl Hc).
  - destruct (store_tag_at (x :: tl)) as [r0|] eqn:E; [|discriminate].
    cbn [option_map]. intros H. injection H as <-. intros Hc.
    apply drop_ws_incl in Hc. exact (store_tag_at_units _ _ c E Hc).
Qed.

(** X9.  [extractStreetName] never returns an empty string: it returns
    [null] or a non-empty trimmed string without a comma, made of units of
    the address. *)
Theorem extractStreetName_shape (address : jstring) :
  extractStreetName address = VNull
  \/ exists n,
       extractStreetName address = VStr n
       /\ n <> [] /\ trim n = n /\ ~ In 44%N n
       /\ (forall c, In c n -> In c address).
Proof.
  unfold extractStreetName.
  set (streetPart := trim (nth 0 (split_on 44%N address) [])).
  set (s1 := strip_leading_number streetPart).
  set (s2 := match after_last_store_tag s1 with Some r => r | None => s1 end).
  assert (H2 : forall c, In c s2 -> In c (nth 0 (split_on 44%N address) [])).
  { intros c Hc. apply trim_incl. fold streetPart.
    apply strip_leading_number_units. fold s1. unfold s2 in Hc.
    destruct (after_last_store_tag s1) as [r|] eqn:E; [|exact Hc].
    exact (after_last_store_tag_units s1 r c E Hc). }
  unfold js_or. destruct (trim s2) as [|x n] eqn:Hn; [left; reflexivity|].
  right. exists (x :: n). cbn [truthy]. split; [reflexivity|].
  split; [discriminate|]. split; [rewrite <- Hn; apply trim_idempotent|].
  split.
  - intros H. rewrite <- Hn in H. apply trim_incl in H. apply H2 in H.
    exact (split_on_no_separator _ _ _ (split_on_head 44%N address) H).
  - intros c H. rewrite <- Hn in H. apply trim_incl in H. apply H2 in H.
    exact (split_on_units _ _ _ c (split_on_head 44%N address) H).
Qed.

Lemma parseAddress_not_nullish (res : value) :
  is_nullish res = false ->
  parseAddress res
  = (street_number <- or_extract (field (address_norm res) "number")
                        (raw_address_of res) extractStreetNumber ;;
     street_name <- or_extract (field (address_norm res) "street")
                      (raw_address_of res) extractStreetName ;;
     zipcode <- or_extract (field (address_norm res) "postcode")
                  (raw_address_of res) extractZipCode ;;
     Ok (mkAddress street_number street_name
           (js_or (field (address_norm res) "city") VNull)
           (js_or (field (address_norm res) "state") VNull) zipcode)).
Proof.
  intros H. unfold parseAddress. rewrite !(get_ok res _ H). cbn [bind].
  fold (address_norm res). fold (raw_address_of res).
  assert (Hn : is_nullish (address_norm res) = false).
  { unfold address_norm, js_or.
    destruct (truthy (field res "addressNorm")) eqn:E;
      [exact (truthy_not_nullish _ E) | reflexivity]. }
  rewrite !(get_ok _ _ Hn). cbn [bind].
  destruct (or_extract (field (address_norm res) "number") (raw_address_of res)
              extractStreetNumber); [|reflexivity].
  cbn [bind].
  destruct (or_extract (field (address_norm res) "street") (raw_address_of res)
              extractStreetName); reflexivity.
Qed.

(** X10.  [parseAddress] on a result object: the structured address takes
    precedence, and a heuristic runs only for a part that is missing there.
    So the call throws exactly when the address is truthy without being a
    string and one of number, street and postcode is missing from the
    structured address; when it returns, each of the three parts is the
    structured one if that is truthy, and city and state are [null] or
    truthy. *)
Theorem parseAddress_precedence (res : value) :
  is_nullish res = false ->
  (heuristic_fails res = true -> parseAddress res = Throw TypeError)
  /\ (heuristic_fails res = false ->
      exists a,
        parseAddress res = Ok a
        /\ (forall k part extract,
              In (k, part, extract)
                 [("number"%string, a_street_number a, extractStreetNumber);
                  ("street"%string, a_street_name a, extractStreetName);
                  ("postcode"%string, a_zipcode a, extractZipCode)] ->
              (truthy (field (address_norm res) k) = true ->
               part = field (address_norm res) k)
              /\ (truthy (field (address_norm res) k) = false ->
                  exists s, raw_address_of res = VStr s /\ part = extract s))
        /\ (a_city a = VNull \/ truthy (a_city a) = true)
        /\ (a_state a = VNull \/ truthy (a_state a) = true)).
Proof.
  intros Hres. rewrite (parseAddress_not_nullish res Hres).
  unfold heuristic_fails, or_extract.
  set (an := address_norm res). set (ra := raw_address_of res).
  assert (Hor : forall v, js_or v VNull = VNull \/ truthy (js_or v VNull) = true).
  { intros v. unfold js_or. destruct (truthy v) eqn:E; [right; exact E | left; reflexivity]. }
  destruct ra as [| |b|x|s|l|fs]; cbn [is_string negb andb as_string bind].
  5: { split; [discriminate|]. intros _.
       destruct (truthy (field an "number")) eqn:E1,
         (truthy (field an "street")) eqn:E2,
         (truthy (field an "postcode")) eqn:E3; cbn [bind];
       (eexists; split; [reflexivity|]; split; [|split; apply Hor]);
       intros k part extract Hin; cbn [In] in Hin;
       destruct Hin as [E | [E | [E | []]]]; injection E as <- <- <-;
       cbn [a_street_number a_street_name a_zipcode];
       (split; intros Ht;
        [reflexivity || congruence | (eexists; split; reflexivity) || congruence]). }
  all: destruct (truthy (field an "number")) eqn:E1,
         (truthy (field an "street")) eqn:E2,
         (truthy (field an "postcode")) eqn:E3; cbn [negb andb bind];
    (split; [intros Hf; try discriminate Hf; reflexivity|]);
    intros Hf; try discriminate Hf;
    (eexists; split; [reflexivity|]; split; [|split; apply Hor]);
    intros k part extract Hin; cbn [In] in Hin;
    destruct Hin as [E | [E | [E | []]]]; injection E as <- <- <-;
    cbn [a_street_number a_street_name a_zipcode];
    (split; intros Ht; [reflexivity | congruence]).
Qed.

Lemma parseAddress_precedence_witness :
  (exists a, parseAddress structured_address = Ok a)
  /\ parseAddress structured_address_without_postcode = Throw TypeError.
Proof.
  split.
  - destruct (proj2 (parseAddress_precedence structured_address eq_refl) eq_refl)
      as (a & Ha & _).
    exists a. exact Ha.
  - apply (proj1 (parseAddress_precedence structured_address_without_postcode eq_refl)).
    reflexivity.
Defined.

End AddressFacts.

(** ** Substrings *)
Section SubstringFacts.

Lemma starts_with_iff (p s : jstring) :
  starts_with p s = true <-> exists b, s = p ++ b.
Proof.
  revert s. induction p as [|x p IH]; intros s; cbn [starts_with].
  - split; [intros _; exists s; reflexivity | reflexivity].
  - destruct s as [|y s]; [split; [discriminate | intros [b H]; discriminate H]|].
    unfold unit_eqb. rewrite andb_true_iff, N.eqb_eq, IH. split.
    + intros [-> [b ->]]. exists b. reflexivity.
    + intros [b H]. injection H as -> ->. split; [reflexivity | exists b; reflexivity].
Qed.

Lemma includes_iff (s p : jstring) :
  includes s p = true <-> exists a b, s = a ++ p ++ b.
Proof.
  induction s as [|c s IH]; cbn [includes].
  - rewrite orb_false_r, starts_with_iff. split.
    + intros [b H]. exists [], b. exact H.
    + intros (a & b & H). destruct a; [exists b; exact H | discriminate H].
  - rewrite orb_true_iff, starts_with_iff, IH. split.
    + intros [[b H] | (a & b & H)];
        [exists [], b; exact H | exists (c :: a), b; rewrite H; reflexivity].
    + intros (a & b & H). destruct a as [|x a];
        [left; exists b; exact H | right; injection H as _ H; exists a, b; exact H].
Qed.

Lemma includes_trans (s p q : jstring) :
  includes s p = true -> includes p q = true -> includes s q = true.
Proof.
  rewrite !includes_iff. intros (a & b & ->) (a' & b' & ->).
  exists (a ++ a'), (b' ++ b). rewrite <- !app_assoc. reflexivity.
Qed.

End SubstringFacts.

(** ** The mapper: items, errors, brand and confidence *)
Section MapperItemFacts.
Import CustomFieldMapper.

Lemma is_string_inv (v : value) : is_string v = true -> exists s, v = VStr s.
Proof. destruct v; try discriminate. intros _. eexists. reflexivity. Qed.

Lemma type_code_in (name : jstring) : In (type_code_of_name name) type_codes.
Proof.
  rewrite type_code_of_name_first_match.
  pose proof (first_match_in type_code_rules name MISC) as H.
  cbn [map snd type_code_rules In] in H. unfold type_codes. cbn [In].
  intuition.
Qed.

Lemma categorizeItem_in (s c : jstring) :
  categorizeItem (VStr s) = Ok c -> In c categories.
Proof.
  cbn [categorizeItem]. intros H. injection H as <-. unfold categories. cbn [In].
  repeat match goal with
         | |- context [if ?b then _ else _] => destruct b
         end; auto 6.
Qed.

Lemma js_or_default_truthy (v d : value) : truthy d = true -> truthy (js_or v d) = true.
Proof. intros H. unfold js_or. destruct (truthy v) eqn:E; [exact E | exact H]. Qed.

Lemma convertible_or (v d : value) :
  is_primitive d = true -> convertible (js_or v d) = convertible v.
Proof.
  intros Hd. unfold js_or. destruct (truthy v) eqn:E; [reflexivity|].
  rewrite (primitive_convertible d Hd), (falsy_convertible v E). reflexivity.
Qed.

Lemma unit_price_spec (item : value) :
  (if truthy (field item "price") then Ok (field item "price")
   else x <- js_div (field item "lineTotal") (js_or (field item "qty") (VNum one)) ;;
        Ok (VNum x))
  = if price_computable item
    then Ok (if truthy (field item "price") then field item "price"
             else VNum (quotient_form (field item "lineTotal")
                                      (js_or (field item "qty") (VNum one))))
    else Throw TypeError.
Proof.
  unfold price_computable. destruct (truthy (field item "price")); [reflexivity|].
  cbn [orb]. rewrite js_div_spec, (convertible_or _ (VNum one) eq_refl).
  destruct (convertible (field item "lineTotal") && convertible (field item "qty"));
    reflexivity.
Qed.

Lemma map_item_describable (item : value) (index : nat) :
  describable item = true ->
  exists m, map_item item index = Ok m /\ mapped_from item m.
Proof.
  unfold describable. intros H. apply andb_true_iff in H as [H Hpc].
  apply andb_true_iff in H as [Hn Hs].
  apply negb_true_iff in Hn. destruct (is_string_inv _ Hs) as [s Hd].
  unfold map_item, generateItemTypeCode. rewrite !(get_ok item _ Hn). cbn [bind].
  unfold item_description, js_or in Hd.
  assert (Hname : (if truthy (field item "descClean")
                   then Ok (field item "descClean")
                   else Ok (field item "desc")) = Ok (VStr s)).
  { destruct (truthy (field item "descClean")); rewrite Hd; reflexivity. }
  assert (Hcode : (if truthy (field item "descClean")
                   then Ok (field item "descClean")
                   else Ok (js_or (field item "desc") (VStr []))) = Ok (VStr s)).
  { destruct (truthy (field item "descClean")); [rewrite Hd; reflexivity|].
    rewrite Hd. unfold js_or. destruct s; reflexivity. }
  rewrite Hname, Hcode. cbn [bind as_string].
  destruct (categorizeItem (VStr s)) as [c|e] eqn:Hc; [|discriminate Hc].
  rewrite unit_price_spec, Hpc. cbn [bind].
  eexists. split; [reflexivity|].
  unfold mapped_from.
  cbn [item_name item_type_code item_price quantity unit_price unit category confidence].
  split; [unfold item_description, js_or; rewrite Hd; reflexivity|].
  split; [exists s; split; [unfold item_description, js_or; exact Hd | reflexivity]|].
  split; [apply type_code_in|].
  split; [exact (categorizeItem_in s c Hc)|].
  split; [reflexivity|].
  split; [apply js_or_default_truthy; reflexivity|].
  split; [apply js_or_default_truthy; reflexivity|].
  split; [apply js_or_default_truthy; reflexivity|].
  split; intros ->; reflexivity.
Qed.

Lemma map_item_undescribable (item : value) (index : nat) :
  describable item = false -> map_item item index = Throw TypeError.
Proof.
  unfold describable.
  destruct (is_nullish item) eqn:Hn; cbn [negb andb].
  - intros _. unfold map_item. rewrite (get_nullish item _ Hn). reflexivity.
  - destruct (is_string (item_description item)) eqn:Hs; cbn [andb].
    + intros Hpc. destruct (is_string_inv _ Hs) as [s Hd].
      unfold map_item, generateItemTypeCode. rewrite !(get_ok item _ Hn). cbn [bind].
      unfold item_description, js_or in Hd.
      assert (Hname : (if truthy (field item "descClean")
                       then Ok (field item "descClean")
                       else Ok (field item "desc")) = Ok (VStr s)).
      { destruct (truthy (field item "descClean")); rewrite Hd; reflexivity. }
      assert (Hcode : (if truthy (field item "descClean")
                       then Ok (field item "descClean")
                       else Ok (js_or (field item "desc") (VStr []))) = Ok (VStr s)).
      { destruct (truthy (field item "descClean")); [rewrite Hd; reflexivity|].
        rewrite Hd. unfold js_or. destruct s; reflexivity. }
      rewrite Hname, Hcode. cbn [bind as_string].
      rewrite unit_price_spec, Hpc. reflexivity.
    + intros _. unfold map_item, generateItemTypeCode.
      rewrite !(get_ok item _ Hn). cbn [bind].
      unfold item_description, js_or in Hs.
      destruct (truthy (field item "descClean")) eqn:Hdc; cbn [bind].
      * destruct (field item "descClean"); try discriminate Hs; try discriminate Hdc;
          reflexivity.
      * destruct (field item "desc") as [| |b|x|s|l|fs]; try discriminate Hs;
          unfold js_or; cbn [truthy as_string bind categorizeItem];
          repeat match goal with
                 | |- context [js_div ?a ?b] => rewrite (js_div_spec a b)
                 | |- context [if ?c then _ else _] =>
                   destruct c; cbn [as_string bind categorizeItem]
                 end; reflexivity.
Qed.

Lemma mapM_index_all (l : list value) :
  forall i, forallb describable l = true ->
  exists ms, mapM_index map_item l i = Ok ms /\ Forall2 mapped_from l ms.
Proof.
  induction l as [|item tl IH]; intros i H.
  - exists []. split; [reflexivity | constructor].
  - cbn in H. apply andb_true_iff in H as [Hi Ht].
    destruct (map_item_describable item i Hi) as (m & Hm & Hfrom).
    destruct (IH (S i) Ht) as (ms & Hms & Hall).
    exists (m :: ms). cbn [mapM_index]. rewrite Hm. cbn [bind]. rewrite Hms.
    split; [reflexivity | constructor; assumption].
Qed.

Lemma mapM_index_some (l : list value) :
  forall i, forallb describable l = false ->
  mapM_index map_item l i = Throw TypeError.
Proof.
  induction l as [|item tl IH]; intros i H; [discriminate H|].
  cbn in H. cbn [mapM_index].
  destruct (describable item) eqn:Hi.
  - destruct (map_item_describable item i Hi) as (m & Hm & _). rewrite Hm. cbn [bind].
    rewrite (IH (S i) H). reflexivity.
  - rewrite (map_item_undescribable item i Hi). reflexivity.
Qed.

(** X12.  [mapItems] on a result object succeeds exactly when [lineItems]
    is falsy or an array each of whose elements is an object with a string
    for [descClean || desc] and a unit price that can be computed (a truthy
    [price], or a [lineTotal] and a [qty] whose conversion to a number does
    not throw); every other case throws a [TypeError].  On success there is
    one mapped item for each line, in order, named by that description, with
    one of the seven type codes, one of the five categories, a truthy
    quantity, unit and confidence, and for unit price the [price] when it is
    truthy and else the quotient of the line total by the quantity or 1. *)
Theorem mapItems_spec (res : value) :
  is_nullish res = false ->
  (truthy (field res "lineItems") = false -> mapItems res = Ok [])
  /\ (forall l, field res "lineItems" = VArr l ->
        (forallb describable l = true ->
         exists ms, mapItems res = Ok ms /\ Forall2 mapped_from l ms
                    /\ List.length ms = List.length l)
        /\ (forallb describable l = false -> mapItems res = Throw TypeError))
  /\ (truthy (field res "lineItems") = true ->
      (forall l, field res "lineItems" <> VArr l) ->
      mapItems res = Throw TypeError).
Proof.
  intros Hn. unfold mapItems. rewrite (get_ok res _ Hn). cbn [bind].
  split; [|split].
  - intros H. unfold js_or. rewrite H. reflexivity.
  - intros l ->. cbn [js_or truthy]. unfold js_or. cbn [truthy]. split.
    + intros H. destruct (mapM_index_all l 0 H) as (ms & Hms & Hall).
      exists ms. split; [exact Hms|]. split; [exact Hall|].
      symmetry. exact (Forall2_length Hall).
    + exact (mapM_index_some l 0).
  - intros Ht Hna. unfold js_or. rewrite Ht.
    destruct (field res "lineItems") as [| |b|x|s|l|fs]; try reflexivity.
    contradiction (Hna l). reflexivity.
Qed.

Lemma mapItems_spec_witness :
  (exists ms, mapItems two_lines = Ok ms /\ List.length ms = 2%nat)
  /\ mapItems three_lines_one_numeric = Throw TypeError
  /\ mapItems unprintable_line_total = Throw TypeError.
Proof.
  split; [|split].
  - destruct (proj1 (proj2 (mapItems_spec two_lines eq_refl)) _ eq_refl) as [H _].
    destruct (H eq_refl) as (ms & Hms & _ & Hl). exists ms. split; [exact Hms | exact Hl].
  - destruct (proj1 (proj2 (mapItems_spec three_lines_one_numeric eq_refl)) _ eq_refl)
      as [_ H].
    apply H. reflexivity.
  - destruct (proj1 (proj2 (mapItems_spec unprintable_line_total eq_refl)) _ eq_refl)
      as [_ H].
    apply H. reflexivity.
Defined.

Lemma includes_any_cons (name : jstring) (k : string) (ks : list string) :
  includes_any name (k :: ks) = includes name (js k) || includes_any name ks.
Proof. reflexivity. Qed.

(** X13.  The type code and the category of one description agree in part:
    a name put in category [dairy] has type code DAIRY unless a produce
    keyword makes it PROD, and a name put in category [pantry] is never MISC
    nor FEE. *)
Theorem category_and_type_code (s : jstring) :
  (categorizeItem (VStr s) = Ok (js "dairy") ->
   type_code_of_name (toLowerCase s) = DAIRY \/ type_code_of_name (toLowerCase s) = PROD)
  /\ (categorizeItem (VStr s) = Ok (js "pantry") ->
      In (type_code_of_name (toLowerCase s)) [PROD; DAIRY; BAKERY; MEAT; PANTRY]).
Proof.
  cbn [categorizeItem]. set (name := toLowerCase s).
  destruct (includes_any name ["apple"; "berries"; "broccoli"; "spinach"; "onion";
                               "potato"; "lime"; "avocado"; "cauliflower"]%string);
    [split; intros H; discriminate H|].
  destruct (includes_any name ["milk"; "coconut milk"]%string) eqn:Hmilk.
  - split; [|intros H; discriminate H]. intros _.
    assert (Hm : includes name (js "milk") = true).
    { rewrite !includes_any_cons in Hmilk. cbn [includes_any existsb] in Hmilk.
      rewrite orb_false_r in Hmilk. apply orb_true_iff in Hmilk as [H | H]; [exact H|].
      apply (includes_trans name (js "coconut milk")); [exact H | reflexivity]. }
    unfold type_code_of_name.
    match goal with
    | |- context [if ?b then PROD else _] => destruct b
    end; [right; reflexivity|].
    rewrite !includes_any_cons, Hm. left. reflexivity.
  - destruct (includes_any name ["beans"; "oil"]%string) eqn:Hp.
    + split; [intros H; discriminate H|]. intros _.
      unfold type_code_of_name.
      match goal with
      | |- context [if ?b then PROD else _] => destruct b
      end; [left; reflexivity|].
      match goal with
      | |- context [if ?b then DAIRY else _] => destruct b
      end; [right; left; reflexivity|].
      match goal with
      | |- context [if ?b then BAKERY else _] => destruct b
      end; [right; right; left; reflexivity|].
      match goal with
      | |- context [if ?b then MEAT else _] => destruct b
      end; [right; right; right; left; reflexivity|].
      assert (Hq : includes_any name ["beans"; "oil"; "pasta"; "rice"]%string = true).
      { rewrite !includes_any_cons in *. cbn [includes_any existsb] in *.
        rewrite orb_false_r in Hp. rewrite orb_assoc, Hp. reflexivity. }
      rewrite Hq. right; right; right; right; left; reflexivity.
    + split; intros H; exfalso; revert H;
        match goal with
        | |- Ok (if ?b then _ else _) = _ -> _ => destruct b; discriminate
        end.
Qed.

Lemma category_and_type_code_witness :
  type_code_of_name (toLowerCase (js "Oat Milk")) = DAIRY
  \/ type_code_of_name (toLowerCase (js "Oat Milk")) = PROD.
Proof.
  apply (proj1 (category_and_type_code (js "Oat Milk"))). vm_compute. reflexivity.
Defined.

End MapperItemFacts.

(** ** What the mapper throws *)
Section MapperErrorFacts.
Import CustomFieldMapper.

Variable toISOString : value -> option jstring.
Variable toTimeString : value -> option jstring.

Lemma only_ok {A : Type} (a : A) : throws_only_TypeError (Ok a).
Proof. intros e H. discriminate H. Qed.

Lemma only_throw {A : Type} : throws_only_TypeError (@Throw A TypeError).
Proof. intros e H. injection H as <-. reflexivity. Qed.

Lemma only_bind {A B : Type} (m : result A) (k : A -> result B) :
  throws_only_TypeError m -> (forall a, throws_only_TypeError (k a)) ->
  throws_only_TypeError (bind m k).
Proof.
  intros Hm Hk e. destruct m as [a|e']; cbn [bind].
  - exact (Hk a e).
  - intros H. injection H as <-. exact (Hm e' eq_refl).
Qed.

Lemma only_get (v : value) (k : string) : throws_only_TypeError (get v k).
Proof. unfold get. destruct (is_nullish v); [apply only_throw | apply only_ok]. Qed.

Lemma only_get_index (v : value) (i : nat) : throws_only_TypeError (get_index v i).
Proof. destruct v; cbn [get_index]; first [apply only_throw | apply only_ok]. Qed.

Lemma only_as_string (v : value) : throws_only_TypeError (as_string v).
Proof. destruct v; cbn [as_string]; first [apply only_throw | apply only_ok]. Qed.

Lemma only_if {A : Type} (c : bool) (m1 m2 : result A) :
  throws_only_TypeError m1 -> throws_only_TypeError m2 ->
  throws_only_TypeError (if c then m1 else m2).
Proof. destruct c; intros H1 H2; assumption. Qed.

Lemma only_filterM {A : Type} (f : A -> result bool) (l : list A) :
  (forall x, throws_only_TypeError (f x)) -> throws_only_TypeError (filterM f l).
Proof.
  intros Hf. induction l as [|x tl IH]; cbn [filterM]; [apply only_ok|].
  apply only_bind; [apply Hf|]. intros b.
  apply only_bind; [exact IH|]. intros ys. apply only_ok.
Qed.

Lemma only_mapM_index {A B : Type} (f : A -> nat -> result B) (l : list A) (i : nat) :
  (forall x j, throws_only_TypeError (f x j)) ->
  throws_only_TypeError (mapM_index f l i).
Proof.
  intros Hf. revert i. induction l as [|x tl IH]; intros i; cbn [mapM_index];
    [apply only_ok|].
  apply only_bind; [apply Hf|]. intros y.
  apply only_bind; [apply IH|]. intros ys. apply only_ok.
Qed.

Lemma only_js_div (a b : value) : throws_only_TypeError (js_div a b).
Proof.
  rewrite js_div_spec. destruct (convertible a && convertible b);
    [apply only_ok | apply only_throw].
Qed.

Lemma only_average (scores : list value) :
  throws_only_TypeError (OCRService.average scores).
Proof.
  rewrite average_spec. destruct (forallb convertible scores);
    [apply only_ok | apply only_throw].
Qed.

(** Goals of the form [throws_only_TypeError m], by the shape of [m] *)
Ltac only_type_errors :=
  repeat first
    [ assumption
    | match goal with H : forall _, throws_only_TypeError _ |- _ => apply H end
    | match goal with H : forall _ _, throws_only_TypeError _ |- _ => apply H end
    | match goal with H : forall _ _ _, throws_only_TypeError _ |- _ => apply H end
    | apply only_ok | apply only_throw | apply only_get | apply only_get_index
    | apply only_as_string | apply only_js_div
    | apply only_bind; [|intros ?]
    | apply only_if ].

Lemma only_or_extract (x rawAddress : value) (f : jstring -> value) :
  throws_only_TypeError (or_extract x rawAddress f).
Proof. unfold or_extract. only_type_errors. Qed.

Lemma only_parseAddress (res : value) : throws_only_TypeError (parseAddress res).
Proof. unfold parseAddress. pose proof only_or_extract. only_type_errors; auto. Qed.

Lemma only_is_tax_item (item : value) : throws_only_TypeError (is_tax_item item).
Proof.
  unfold is_tax_item. apply only_bind; [apply only_get|]. intros lineType.
  destruct lineType; only_type_errors.
Qed.

Lemma only_tax_slot (taxes : value) (taxItems : list value) (i : nat) :
  throws_only_TypeError (tax_slot taxes taxItems i).
Proof. unfold tax_slot. only_type_errors. Qed.

Lemma only_parseTaxes (res : value) : throws_only_TypeError (parseTaxes res).
Proof.
  unfold parseTaxes. apply only_bind; [apply only_get|]. intros tx.
  apply only_bind; [apply only_get|]. intros si.
  apply only_bind.
  - unfold array_filter. destruct (js_or si (VArr []));
      first [apply only_throw | apply only_filterM; exact only_is_tax_item].
  - intros taxItems. pose proof only_tax_slot. only_type_errors; auto.
Qed.

Lemma only_categorizeItem (v : value) : throws_only_TypeError (categorizeItem v).
Proof. destruct v; cbn [categorizeItem]; first [apply only_throw | apply only_ok]. Qed.

Lemma only_generateItemTypeCode (item : value) (index : nat) :
  throws_only_TypeError (generateItemTypeCode item index).
Proof. unfold generateItemTypeCode. only_type_errors. Qed.

Lemma only_map_item (item : value) (index : nat) :
  throws_only_TypeError (map_item item index).
Proof.
  unfold map_item. pose proof only_categorizeItem. pose proof only_generateItemTypeCode.
  only_type_errors; auto.
Qed.

Lemma only_mapItems (res : value) : throws_only_TypeError (mapItems res).
Proof.
  unfold mapItems. apply only_bind; [apply only_get|]. intros li.
  destruct (js_or li (VArr []));
    first [apply only_throw | apply only_mapM_index; exact only_map_item].
Qed.

Lemma only_formatDate (v : value) : throws_only_TypeError (formatDate toISOString v).
Proof.
  unfold formatDate. apply only_if; [apply only_ok|].
  destruct (toISOString v); only_type_errors.
Qed.

Lemma only_formatTime (v : value) : throws_only_TypeError (formatTime toTimeString v).
Proof.
  unfold formatTime. apply only_if; [apply only_ok|].
  destruct (toTimeString v); only_type_errors.
Qed.

Lemma only_calculateOverallConfidence (res : value) :
  throws_only_TypeError (calculateOverallConfidence res).
Proof.
  unfold calculateOverallConfidence.
  apply only_bind; [apply only_get|]. intros ec.
  apply only_bind; [apply only_get|]. intros tc.
  apply only_bind; [apply only_get|]. intros dc.
  destruct (filter _ _); [apply only_ok | apply only_average].
Qed.

(** X11.  What [mapToCustomStructure] throws: a [TypeError] on [null] and
    [undefined]; the error [No TabScanner result data found] when [rawData]
    is missing or its [result] is falsy; and past that check nothing but a
    [TypeError], whatever the result object holds. *)
Theorem mapToCustomStructure_errors (d : value) :
  (is_nullish d = true ->
   mapToCustomStructure toISOString toTimeString d = Throw TypeError)
  /\ (is_nullish d = false -> truthy (result_of d) = false ->
      mapToCustomStructure toISOString toTimeString d = Throw NO_RESULT)
  /\ (forall e,
        mapToCustomStructure toISOString toTimeString d = Throw e ->
        e = TypeError
        \/ (e = NO_RESULT /\ is_nullish d = false /\ truthy (result_of d) = false)).
Proof.
  unfold mapToCustomStructure, result_of.
  destruct (is_nullish d) eqn:Hd.
  - rewrite (get_nullish d _ Hd). cbn [bind].
    split; [reflexivity|]. split; [discriminate|].
    intros e H. injection H as <-. left. reflexivity.
  - rewrite (get_ok d _ Hd). cbn [bind].
    set (rawData := field d "rawData").
    assert (Hres : (if is_nullish rawData then Ok VUndef else get rawData "result")
                   = Ok (if is_nullish rawData then VUndef else field rawData "result")).
    { destruct (is_nullish rawData) eqn:E; [reflexivity | exact (get_ok _ _ E)]. }
    rewrite Hres. cbn [bind].
    destruct (truthy (if is_nullish rawData then VUndef else field rawData "result"))
      eqn:Ht; cbn [negb].
    + split; [discriminate|]. split; [discriminate|].
      intros e H. left. revert e H.
      match goal with
      | |- forall e, ?m = Throw e -> e = TypeError => change (throws_only_TypeError m)
      end.
      pose proof only_parseAddress. pose proof only_parseTaxes.
      pose proof only_mapItems. pose proof only_formatDate.
      pose proof only_formatTime. pose proof only_calculateOverallConfidence.
      only_type_errors; auto.
    + split; [discriminate|]. split; [reflexivity|].
      intros e H. injection H as <-. right. repeat split.
Qed.

End MapperErrorFacts.

Lemma mapToCustomStructure_errors_witness :
  CustomFieldMapper.mapToCustomStructure no_dates invalid_date zero_result_payload
  = Throw NO_RESULT
  /\ CustomFieldMapper.mapToCustomStructure no_dates invalid_date VNull
     = Throw TypeError.
Proof.
  split.
  - apply (proj1 (proj2 (mapToCustomStructure_errors no_dates invalid_date
                           zero_result_payload))); reflexivity.
  - apply (proj1 (mapToCustomStructure_errors no_dates invalid_date VNull)).
    reflexivity.
Defined.

(** ** The brand name and the confidence *)
Section BrandOutputFacts.
Import CustomFieldMapper.

(** X14.  The name returned by [normalizeBrandName] is trimmed and holds no
    quote; it is the canonical name or is made of units of the input. *)
Theorem normalizeBrandName_clean (rawBrand : jstring) :
  trim (normalizeBrandName rawBrand) = normalizeBrandName rawBrand
  /\ (forall c, In c (normalizeBrandName rawBrand) -> is_quote c = false)
  /\ (normalizeBrandName rawBrand = CANONICAL
      \/ forall c, In c (normalizeBrandName rawBrand) -> In c rawBrand).
Proof.
  rewrite normalizeBrandName_cases. destruct (matches_alias rawBrand).
  - split; [reflexivity|]. split; [|left; reflexivity].
    assert (H : forallb (fun c => negb (is_quote c)) CANONICAL = true) by reflexivity.
    intros c Hc. rewrite forallb_forall in H. apply negb_true_iff. exact (H c Hc).
  - split; [apply trim_idempotent|]. split.
    + intros c Hc. apply trim_incl in Hc. exact (remove_class_free _ _ _ Hc).
    + right. intros c Hc. apply trim_incl in Hc. unfold remove_class in Hc.
      apply filter_In in Hc as [Hc _]. exact Hc.
Qed.

Lemma filters_agree (l : list value) :
  Forall (fun v => v <> VNull) l ->
  filter (fun v => negb (is_nullish v)) l = filter (fun v => negb (is_undefined v)) l.
Proof.
  induction 1 as [|v l Hv _ IH]; [reflexivity|].
  cbn [filter]. rewrite IH. destruct v; try reflexivity. contradiction Hv. reflexivity.
Qed.

(** X16.  The two confidence calculators over the same result object.
    The mapper's never throws on an object, and is 0.85 exactly when it
    finds no confidence.  When none of the three confidences is [null], the
    parser's confidence is the same mean, except that its default is 0.9: a
    [null] is the one value the mapper leaves out and the parser counts. *)
Theorem confidence_calculators (d : value) (r : OCRService.OCRResult) :
  OCRService.parseTabScannerResponse d = Ok r ->
  OCRService.success r = true ->
  exists c,
    calculateOverallConfidence (field d "result") = Ok c
    /\ (Forall (fun v => is_nullish v = true) (confidences (field d "result")) ->
        c = DEFAULT_CONFIDENCE)
    /\ (Forall (fun v => v <> VNull) (confidences (field d "result")) ->
        (Forall (fun v => v = VUndef) (confidences (field d "result"))
         /\ c = DEFAULT_CONFIDENCE
         /\ OCRService.ocr_confidence r = OCRService.DEFAULT_CONFIDENCE)
        \/ (Exists (fun v => v <> VUndef) (confidences (field d "result"))
            /\ c = OCRService.ocr_confidence r)).
Proof.
  intros Hp Hs.
  assert (Hd : is_nullish d = false).
  { destruct (is_nullish d) eqn:E; [|reflexivity].
    rewrite (parse_null d E) in Hp. injection Hp as <-. discriminate Hs. }
  rewrite (parse_cases d Hd) in Hp. injection Hp as <-.
  destruct (truthy (field d "result")) eqn:Ht; [|discriminate Hs].
  destruct (parse_clean (field d "result")) eqn:Hclean; [|discriminate Hs].
  cbn [OCRService.ocr_confidence].
  set (res := field d "result") in *.
  assert (Hco : confidences_ok res = true).
  { unfold parse_clean in Hclean. apply andb_true_iff in Hclean as [Hclean _].
    apply andb_true_iff in Hclean as [_ Hco]. exact Hco. }
  unfold confidences_ok, confidence_scores in Hco. fold (confidences res) in Hco.
  assert (Hall : forallb convertible
                   (filter (fun v => negb (is_nullish v)) (confidences res)) = true).
  { apply forallb_forall. intros v Hv. rewrite forallb_forall in Hco. apply Hco.
    apply filter_In in Hv as [Hin Hn]. apply filter_In. split; [exact Hin|].
    destruct v; try reflexivity; discriminate Hn. }
  unfold calculateOverallConfidence.
  rewrite !(get_ok res _ (truthy_not_nullish res Ht)). cbn [bind].
  fold (confidences res).
  exists (match filter (fun v => negb (is_nullish v)) (confidences res) with
          | [] => DEFAULT_CONFIDENCE
          | _ :: _ => average_form
                        (filter (fun v => negb (is_nullish v)) (confidences res))
          end).
  split.
  { destruct (filter (fun v => negb (is_nullish v)) (confidences res)) as [|v0 rest];
      [reflexivity|].
    rewrite average_spec, Hall. reflexivity. }
  split.
  - intros H.
    assert (E : filter (fun v => negb (is_nullish v)) (confidences res) = []).
    { clear Hco Hall.
      induction H as [|v l Hv _ IH]; [reflexivity|]. cbn [filter]. rewrite Hv. exact IH. }
    rewrite E. reflexivity.
  - intros H. rewrite (filters_agree _ H). unfold parsed_confidence, confidence_scores.
    fold (confidences res).
    destruct (filter (fun v => negb (is_undefined v)) (confidences res))
      as [|v0 rest] eqn:Ef.
    + left. split; [|split; reflexivity].
      apply Forall_forall. intros v Hv.
      destruct (is_undefined v) eqn:E; [destruct v; try discriminate E; reflexivity|].
      assert (Hin : In v (filter (fun v => negb (is_undefined v)) (confidences res))).
      { apply filter_In. split; [exact Hv | rewrite E; reflexivity]. }
      rewrite Ef in Hin. destruct Hin.
    + right. split; [|reflexivity].
      assert (Hin : In v0 (filter (fun v => negb (is_undefined v)) (confidences res))).
      { rewrite Ef. left. reflexivity. }
      apply filter_In in Hin as [Hin Hnu].
      apply Exists_exists. exists v0. split; [exact Hin|].
      intros ->. discriminate Hnu.
Qed.

Lemma confidence_calculators_witness :
  exists r c,
    OCRService.parseTabScannerResponse one_confidence_payload = Ok r
    /\ calculateOverallConfidence (field one_confidence_payload "result") = Ok c
    /\ c = OCRService.ocr_confidence r.
Proof.
  destruct (parse_never_throws one_confidence_payload) as [r Hr].
  assert (Hs : OCRService.success r = true).
  { assert (Hr' := Hr). vm_compute in Hr'. injection Hr' as <-. reflexivity. }
  destruct (confidence_calculators one_confidence_payload r Hr Hs) as (c & Hc & _ & H).
  exists r, c. split; [exact Hr|]. split; [exact Hc|].
  destruct H as [(Hu & _) | (_ & H)].
  - repeat constructor; discriminate.
  - exfalso. inversion Hu as [|v l _ Hu']. inversion Hu' as [|v' l' Hv _].
    discriminate Hv.
  - exact H.
Defined.

End BrandOutputFacts.

(** ** The rule-based categorization of items *)
Section ItemCategoryFacts.
Import EnricherItems.

Lemma text_or_nullish_lowered (v : value) :
  text_or_nullish v = true -> exists n, lowered_name v = Ok n.
Proof. destruct v; try discriminate; intros _; eexists; reflexivity. Qed.

Lemma not_text_lowered (v : value) :
  text_or_nullish v = false -> lowered_name v = Throw TypeError.
Proof. destruct v; try discriminate; reflexivity. Qed.

Lemma rule_category (c : string) (kws : list string) :
  In (c, kws) categoryRules ->
  truthy (VStr (js c)) = true
  /\ In (VStr (js c), VStr (js (nutrition_of c))) category_pairs.
Proof.
  intros H. split.
  - unfold categoryRules in H. cbn [In] in H.
    repeat (destruct H as [H | H]; [injection H as <- _; reflexivity|]).
    destruct H.
  - unfold category_pairs. apply in_or_app. left.
    apply (in_map (fun rule => (VStr (js (fst rule)), VStr (js (nutrition_of (fst rule)))))
                  categoryRules (c, kws) H).
Qed.

(** The item after the callback, for a name that lower-cases to [n] *)
Lemma categorize_lowered (item : Item) (n : jstring) :
  lowered_name (name item) = Ok n ->
  exists item',
    categorize item = Ok item'
    /\ name item' = name item
    /\ truthy (category item') = true
    /\ (In (category item', nutrition_category item') category_pairs
        \/ (keeps_category item item'
            /\ find (fun rule => some_keyword n (snd rule)) categoryRules = None))
    /\ (forall c kws,
          find (fun rule => some_keyword n (snd rule)) categoryRules = Some (c, kws) ->
          category item' = VStr (js c)
          /\ nutrition_category item' = VStr (js (nutrition_of c)))
    /\ categorize item' = Ok item'.
Proof.
  intros Hn. unfold categorize. rewrite Hn. cbn [bind].
  destruct (find (fun rule => some_keyword n (snd rule)) categoryRules)
    as [[c kws]|] eqn:Hf.
  - apply find_some in Hf as Hin. destruct Hin as [Hin _].
    destruct (rule_category c kws Hin) as [Ht Hp].
    cbn [category]. rewrite Ht. cbn [negb].
    eexists. split; [reflexivity|]. cbn [name category nutrition_category].
    split; [reflexivity|]. split; [exact Ht|]. split; [left; exact Hp|]. split.
    + intros c' kws' H. injection H as <- <-. split; reflexivity.
    + rewrite Hn. cbn [bind]. rewrite Hf. cbn [category]. rewrite Ht. reflexivity.
  - destruct (truthy (category item)) eqn:Ht; cbn [negb].
    + exists item. split; [reflexivity|]. split; [reflexivity|]. split; [exact Ht|].
      split; [right; split; [repeat split; assumption | reflexivity]|].
      split; [discriminate|].
      rewrite Hn. cbn [bind]. rewrite Hf, Ht. reflexivity.
    + eexists. split; [reflexivity|]. cbn [name category nutrition_category].
      split; [reflexivity|]. split; [reflexivity|]. split.
      * left. unfold category_pairs. apply in_or_app. right. left. reflexivity.
      * split; [discriminate|]. rewrite Hn. cbn [bind]. rewrite Hf. reflexivity.
Qed.

(** X17.  The callback of [fallbackItemCategorization] on one item: it
    throws exactly when the name is neither a string nor [null] nor
    [undefined]; otherwise the item keeps its name, has a truthy category
    afterwards (one of the eight of the rules with its nutrition category,
    or [other] with [neutral], unless no rule matches and the item came with
    a category, which it keeps), and a second pass changes nothing. *)
Theorem categorize_spec (item : Item) :
  (text_or_nullish (name item) = false -> categorize item = Throw TypeError)
  /\ (text_or_nullish (name item) = true ->
      exists item',
        categorize item = Ok item'
        /\ name item' = name item
        /\ truthy (category item') = true
        /\ (In (category item', nutrition_category item') category_pairs
            \/ (keeps_category item item'
                /\ forall n, lowered_name (name item) = Ok n ->
                             find (fun rule => some_keyword n (snd rule)) categoryRules
                             = None))
        /\ categorize item' = Ok item').
Proof.
  split.
  - intros H. unfold categorize. rewrite (not_text_lowered _ H). reflexivity.
  - intros H. destruct (text_or_nullish_lowered _ H) as [n Hn].
    destruct (categorize_lowered item n Hn) as (item' & H1 & H2 & H3 & H4 & _ & H6).
    exists item'. split; [exact H1|]. split; [exact H2|]. split; [exact H3|].
    split; [|exact H6].
    destruct H4 as [H4 | [H4 Hnone]]; [left; exact H4|].
    right. split; [exact H4|]. intros n' Hn'. rewrite Hn in Hn'.
    injection Hn' as <-. exact Hnone.
Qed.

Lemma categorize_spec_witness :
  exists item',
    categorize vanilla_ice_cream = Ok item'
    /\ truthy (category item') = true.
Proof.
  destruct (proj2 (categorize_spec vanilla_ice_cream) eq_refl)
    as (item' & H & _ & Ht & _).
  exists item'. split; [exact H | exact Ht].
Defined.

Lemma some_keyword_in (n : jstring) (keyword : string) (keywords : list string) :
  In keyword keywords -> includes n (js keyword) = true ->
  some_keyword n keywords = true.
Proof.
  intros Hin Hk. unfold some_keyword. apply existsb_exists.
  exists keyword. split; assumption.
Qed.

(** X18.  The keyword [ice cream] of the category [frozen] is never
    reached: a name that contains it contains [cream], a keyword of [dairy],
    which comes first.  Such an item is filed under [dairy], or under
    [produce] if a produce keyword occurs in it too, and is marked
    [healthy]. *)
Theorem ice_cream_is_never_frozen (item : Item) (s : jstring) :
  name item = VStr s ->
  includes (toLowerCase s) (js "ice cream") = true ->
  exists item',
    categorize item = Ok item'
    /\ (category item' = VStr (js "dairy") \/ category item' = VStr (js "produce"))
    /\ nutrition_category item' = VStr (js "healthy").
Proof.
  intros Hname Hice.
  assert (Hn : lowered_name (name item) = Ok (toLowerCase s)) by (rewrite Hname; reflexivity).
  destruct (categorize_lowered item _ Hn) as (item' & H1 & _ & _ & _ & Hrule & _).
  exists item'. split; [exact H1|].
  assert (Hcream : includes (toLowerCase s) (js "cream") = true).
  { apply (includes_trans _ (js "ice cream")); [exact Hice | reflexivity]. }
  assert (Hdairy : some_keyword (toLowerCase s)
                     ["milk"; "cheese"; "yogurt"; "butter"; "cream"; "eggs"]%string = true).
  { apply (some_keyword_in _ "cream"%string); [cbn; auto 6 | exact Hcream]. }
  unfold categoryRules in Hrule. cbn [find snd] in Hrule.
  match type of Hrule with
  | context [if ?b then Some ("produce"%string, _) else _] => destruct b
  end.
  - destruct (Hrule _ _ eq_refl) as [Hc Hnu]. split; [right; exact Hc | exact Hnu].
  - rewrite Hdairy in Hrule.
    destruct (Hrule _ _ eq_refl) as [Hc Hnu]. split; [left; exact Hc | exact Hnu].
Qed.

Lemma ice_cream_is_never_frozen_witness :
  exists item',
    categorize vanilla_ice_cream = Ok item' /\ category item' = VStr (js "dairy").
Proof.
  destruct (ice_cream_is_never_frozen vanilla_ice_cream (js "Vanilla Ice Cream")
              eq_refl eq_refl) as (item' & H & Hc & _).
  exists item'. split; [exact H|].
  destruct Hc as [Hc | Hc]; [exact Hc|].
  exfalso. assert (H' := H). vm_compute in H'. injection H' as <-. discriminate Hc.
Defined.

Lemma forEach_app (f : Item -> result Item) (l1 l2 : list Item) :
  forEach f (l1 ++ l2)
  = let (batch, r) := forEach f l1 in
    match r with
    | Some e => (batch ++ l2, Some e)
    | None => let (rest, r') := forEach f l2 in (batch ++ rest, r')
    end.
Proof.
  induction l1 as [|x l1 IH]; cbn [app forEach].
  - destruct (forEach f l2); reflexivity.
  - destruct (f x) as [x'|e]; [|reflexivity].
    rewrite IH. destruct (forEach f l1) as [batch [e|]]; [reflexivity|].
    destruct (forEach f l2); reflexivity.
Qed.

Lemma mapM_spec {A B : Type} (f : A -> result B) (ok : A -> bool) (g : A -> B) :
  (forall x, f x = if ok x then Ok (g x) else Throw TypeError) ->
  forall l, mapM f l = if forallb ok l then Ok (map g l) else Throw TypeError.
Proof.
  intros Hf. induction l as [|x tl IH]; [reflexivity|].
  cbn [mapM forallb map]. rewrite Hf, IH.
  destruct (ok x); cbn [bind andb]; [|reflexivity].
  destruct (forallb ok tl); reflexivity.
Qed.

Lemma item_prompt_line_spec (item : Item) :
  item_prompt_line item
  = if item_printable item
    then Ok (string_form (name item) ++ js " - $" ++ string_form (line_total item))
    else Throw TypeError.
Proof.
  unfold item_prompt_line, item_printable. rewrite !ToString_spec.
  destruct (convertible (name item)); cbn [bind andb]; [|reflexivity].
  destruct (convertible (line_total item)); reflexivity.
Qed.

(** A batch whose prompt cannot be built is left as it is; any other batch
    falls back to the rules. *)
Lemma processItemBatch_cases (useAI : bool)
    (apply : jstring -> list Item -> list Item) (items : list Item) :
  processItemBatch useAI apply items
  = if forallb item_printable items then fallbackItemCategorization items
    else (items, Some TypeError).
Proof.
  unfold processItemBatch, itemsPrompt.
  rewrite (mapM_spec _ _ _ item_prompt_line_spec).
  destruct (forallb item_printable items); cbn [bind]; [|reflexivity].
  unfold callOpenAI. destruct useAI; reflexivity.
Qed.

Lemma process_batches_step (useAI : bool) (apply : jstring -> list Item -> list Item)
    (fuel : nat) (x : Item) (tl : list Item) :
  process_batches (S fuel) useAI apply (x :: tl)
  = let (batch, r) := processItemBatch useAI apply (firstn batchSize (x :: tl)) in
    match r with
    | Some e => (batch ++ skipn batchSize (x :: tl), Some e)
    | None =>
      let (rest, r') := process_batches fuel useAI apply (skipn batchSize (x :: tl)) in
      (batch ++ rest, r')
    end.
Proof. reflexivity. Qed.

Lemma printable_batches (items : list Item) :
  forallb item_printable items
  = forallb item_printable (firstn batchSize items)
    && forallb item_printable (skipn batchSize items).
Proof. rewrite <- forallb_app, firstn_skipn. reflexivity. Qed.

Lemma process_batches_whole (useAI : bool) (apply : jstring -> list Item -> list Item)
    (fuel : nat) :
  forall items, (List.length items <= fuel)%nat ->
  forallb item_printable items = true ->
  process_batches fuel useAI apply items = fallbackItemCategorization items.
Proof.
  induction fuel as [|fuel IH]; intros items Hl Hp.
  - destruct items; [reflexivity | cbn in Hl; lia].
  - destruct items as [|x tl]; [reflexivity|].
    rewrite process_batches_step.
    set (items := x :: tl) in *.
    rewrite printable_batches in Hp. apply andb_true_iff in Hp as [Hp1 Hp2].
    rewrite processItemBatch_cases, Hp1.
    rewrite (IH (skipn batchSize items)).
    + unfold fallbackItemCategorization.
      assert (E : forEach categorize items
                  = forEach categorize (firstn batchSize items ++ skipn batchSize items))
        by (rewrite firstn_skipn; reflexivity).
      rewrite E, forEach_app. reflexivity.
    + rewrite length_skipn. unfold batchSize. subst items. cbn [List.length] in *. lia.
    + exact Hp2.
Qed.

Lemma aiCategorizeItems_batches (apply : jstring -> list Item -> list Item)
    (items : list Item) :
  aiCategorizeItems true apply items
  = process_batches (List.length items) true apply items.
Proof.
  unfold aiCategorizeItems. cbn [negb orb].
  destruct items; reflexivity.
Qed.

Lemma aiCategorizeItems_fallback_items (useAI : bool)
    (apply : jstring -> list Item -> list Item) (items : list Item) :
  forallb item_printable items = true ->
  aiCategorizeItems useAI apply items
  = if useAI then fallbackItemCategorization items else (items, None).
Proof.
  intros Hp. destruct useAI; [|reflexivity].
  rewrite aiCategorizeItems_batches.
  apply process_batches_whole; [apply Nat.le_refl | exact Hp].
Qed.

Lemma forEach_categorize (items : list Item) :
  List.length (fst (forEach categorize items)) = List.length items
  /\ map name (fst (forEach categorize items)) = map name items
  /\ (snd (forEach categorize items) = None
      <-> forallb (fun item => text_or_nullish (name item)) items = true)
  /\ (snd (forEach categorize items) = None ->
      Forall (fun item => truthy (category item) = true) (fst (forEach categorize items)))
  /\ (forall e, snd (forEach categorize items) = Some e -> e = TypeError).
Proof.
  induction items as [|x tl (IH1 & IH2 & IH3 & IH4 & IH5)].
  - cbn. repeat split; try constructor; discriminate.
  - cbn [forEach forallb]. destruct (text_or_nullish (name x)) eqn:E.
    + destruct (text_or_nullish_lowered _ E) as [n Hn].
      destruct (categorize_lowered x n Hn) as (x' & Hx & Hname & Hcat & _).
      rewrite Hx. destruct (forEach categorize tl) as [tl' r]. cbn [fst snd andb] in *.
      split; [cbn [List.length]; rewrite IH1; reflexivity|].
      split; [cbn [map]; rewrite Hname, IH2; reflexivity|].
      split; [exact IH3|]. split; [|exact IH5].
      intros Hr. constructor; [exact Hcat | exact (IH4 Hr)].
    + assert (Hx : categorize x = Throw TypeError).
      { unfold categorize. rewrite (not_text_lowered _ E). reflexivity. }
      rewrite Hx. cbn [fst snd andb].
      split; [reflexivity|]. split; [reflexivity|].
      split; [split; discriminate|]. split; [discriminate|].
      intros e H. injection H as <-. reflexivity.
Qed.

Lemma text_or_nullish_convertible (v : value) :
  text_or_nullish v = true -> convertible v = true.
Proof. destruct v; try discriminate; reflexivity. Qed.

Lemma categorizable_split (items : list Item) :
  forallb categorizable items
  = forallb (fun item => text_or_nullish (name item)) items
    && forallb item_printable items.
Proof.
  induction items as [|x tl IH]; [reflexivity|].
  cbn [forallb]. rewrite IH. unfold categorizable, item_printable.
  destruct (text_or_nullish (name x)) eqn:E; [|reflexivity].
  rewrite (text_or_nullish_convertible _ E). cbn [andb].
  destruct (convertible (line_total x)); cbn [andb]; [reflexivity|].
  rewrite andb_false_r. reflexivity.
Qed.

Lemma categorized_fallback (items : list Item) :
  forallb item_printable items = true ->
  categorized items (fallbackItemCategorization items).
Proof.
  intros Hp. unfold categorized, fallbackItemCategorization.
  destruct (forEach_categorize items) as (H1 & H2 & H3 & H4 & H5).
  split; [exact H1|]. split; [exact H2|]. split; [|split; [exact H4 | exact H5]].
  rewrite categorizable_split, Hp, andb_true_r. exact H3.
Qed.

Lemma categorized_unprintable (items : list Item) :
  forallb item_printable items = false ->
  categorized items (items, Some TypeError).
Proof.
  intros Hp. unfold categorized. cbn [fst snd].
  split; [reflexivity|]. split; [reflexivity|]. split; [|split].
  - rewrite categorizable_split, Hp, andb_false_r. split; discriminate.
  - discriminate.
  - intros e H. injection H as <-. reflexivity.
Qed.

Lemma categorized_batch (useAI : bool) (apply : jstring -> list Item -> list Item)
    (items : list Item) :
  categorized items (processItemBatch useAI apply items).
Proof.
  rewrite processItemBatch_cases. destruct (forallb item_printable items) eqn:Hp.
  - exact (categorized_fallback items Hp).
  - exact (categorized_unprintable items Hp).
Qed.

Lemma categorized_app (items b rest : list Item) (ob orest : list Item * option exn) :
  items = b ++ rest -> categorized b ob -> categorized rest orest ->
  categorized items
    (let (b', r) := ob in
     match r with
     | Some e => (b' ++ rest, Some e)
     | None => let (rest', r') := orest in (b' ++ rest', r')
     end).
Proof.
  intros ->. destruct ob as [b' r], orest as [rest' r']. unfold categorized.
  cbn [fst snd]. intros (A1 & A2 & A3 & A4 & A5) (B1 & B2 & B3 & B4 & B5).
  destruct r as [e|]; cbn [fst snd]; rewrite !length_app, !map_app, forallb_app.
  - split; [rewrite A1; reflexivity|]. split; [rewrite A2; reflexivity|].
    split; [|split; [discriminate | exact A5]].
    split; [discriminate|]. intros H. apply andb_true_iff in H as [H _].
    apply A3 in H. discriminate H.
  - split; [rewrite A1, B1; reflexivity|]. split; [rewrite A2, B2; reflexivity|].
    split; [|split; [|exact B5]].
    + rewrite (proj1 A3 eq_refl). cbn [andb]. exact B3.
    + intros H. apply Forall_app. split; [exact (A4 eq_refl) | exact (B4 H)].
Qed.

Lemma process_batches_categorized (useAI : bool)
    (apply : jstring -> list Item -> list Item) (fuel : nat) :
  forall items, (List.length items <= fuel)%nat ->
  categorized items (process_batches fuel useAI apply items).
Proof.
  induction fuel as [|fuel IH]; intros items Hl.
  - destruct items; [|cbn in Hl; lia].
    cbn. repeat split; try constructor; discriminate.
  - destruct items as [|x tl].
    + cbn. repeat split; try constructor; discriminate.
    + rewrite process_batches_step.
      set (items := x :: tl) in *.
      apply (categorized_app items (firstn batchSize items) (skipn batchSize items)).
      * symmetry. apply firstn_skipn.
      * apply categorized_batch.
      * apply IH. rewrite length_skipn. unfold batchSize. subst items.
        cbn [List.length] in *. lia.
Qed.

(** X19.  With a key configured, [aiCategorizeItems] builds the prompt of
    each batch of ten before its [try] block, and what follows falls back
    to the rules, whatever would be done with a model response.  When the
    name and the line total of every item convert to strings, it does what
    [fallbackItemCategorization] does on the whole array; when an item of
    the first batch does not, the array is left as it is and the call
    fails with a [TypeError].  In every case the array keeps its length and
    the names of its items; the call ends without an exception exactly when
    every name is a string, [null] or [undefined] and every line total
    converts to a string, and then every item has a truthy category; the
    only exception is a [TypeError]. *)
Theorem aiCategorizeItems_is_fallback
    (apply : jstring -> list Item -> list Item) (items : list Item) :
  (forallb item_printable items = true ->
   aiCategorizeItems true apply items = fallbackItemCategorization items)
  /\ (forallb item_printable (firstn batchSize items) = false ->
      aiCategorizeItems true apply items = (items, Some TypeError))
  /\ List.length (fst (aiCategorizeItems true apply items)) = List.length items
  /\ map name (fst (aiCategorizeItems true apply items)) = map name items
  /\ (snd (aiCategorizeItems true apply items) = None
      <-> forallb (fun item => text_or_nullish (name item)
                               && convertible (line_total item)) items = true)
  /\ (snd (aiCategorizeItems true apply items) = None ->
      Forall (fun item => truthy (category item) = true)
             (fst (aiCategorizeItems true apply items)))
  /\ (forall e, snd (aiCategorizeItems true apply items) = Some e -> e = TypeError).
Proof.
  split; [exact (aiCategorizeItems_fallback_items true apply items)|].
  rewrite aiCategorizeItems_batches. split.
  - intros Hp. destruct items as [|x tl]; [discriminate Hp|].
    cbn [List.length]. rewrite process_batches_step, processItemBatch_cases, Hp.
    rewrite firstn_skipn. reflexivity.
  - exact (process_batches_categorized true apply (List.length items) items
             (Nat.le_refl _)).
Qed.

Lemma aiCategorizeItems_is_fallback_witness :
  aiCategorizeItems true ignore_response [milk_item]
  = fallbackItemCategorization [milk_item]
  /\ aiCategorizeItems true ignore_response [milk_item; unprintable_item]
     = ([milk_item; unprintable_item], Some TypeError).
Proof.
  split.
  - apply (proj1 (aiCategorizeItems_is_fallback ignore_response [milk_item])).
    reflexivity.
  - apply (proj1 (proj2 (aiCategorizeItems_is_fallback ignore_response
                           [milk_item; unprintable_item]))).
    reflexivity.
Defined.

End ItemCategoryFacts.

(** ** Store enhancement and the whole enhancement step *)
Section EnhancementFacts.
Import Enricher.

Lemma ensure_normalized_name_truthy (st : Store) :
  truthy (normalized_name (ensure_normalized_name st)) = true.
Proof.
  unfold ensure_normalized_name.
  destruct (truthy (normalized_name st)) eqn:E; cbn [negb]; [exact E|].
  cbn [normalized_name]. unfold js_or.
  destruct (truthy (if truthy (name st) then name st else chain st)) eqn:E2;
    [exact E2 | reflexivity].
Qed.

Lemma ensure_normalized_name_fixed (st : Store) :
  truthy (normalized_name st) = true -> ensure_normalized_name st = st.
Proof. intros H. unfold ensure_normalized_name. rewrite H. reflexivity. Qed.

Lemma pattern_fields (p c t r : string) :
  In (p, (c, t, r)) storePatterns ->
  truthy (VStr (js c)) = true /\ truthy (VStr (js t)) = true.
Proof.
  intros H. unfold storePatterns in H. cbn [In] in H.
  repeat (destruct H as [H | H]; [injection H as _ <- <- _; split; reflexivity|]).
  destruct H.
Qed.

Lemma fallbackStoreEnhancement_lowered (st : Store) (n : jstring) :
  EnricherItems.lowered_name (name st) = Ok n ->
  exists st',
    fallbackStoreEnhancement st = Ok st'
    /\ name st' = name st
    /\ truthy (normalized_name st') = true
    /\ truthy (store_type st') = true
    /\ fallbackStoreEnhancement st' = Ok st'.
Proof.
  intros Hn. unfold fallbackStoreEnhancement. rewrite Hn. cbn [bind].
  destruct (find (fun p => includes n (js (fst p))) storePatterns)
    as [[p [[c t] r]]|] eqn:Hf.
  - apply find_some in Hf as Hin. destruct Hin as [Hin _].
    destruct (pattern_fields p c t r Hin) as [Hc Ht].
    unfold ensure_normalized_name. cbn [normalized_name]. rewrite Hc. cbn [negb].
    cbn [store_type]. rewrite Ht. cbn [negb].
    eexists. split; [reflexivity|]. cbn [name normalized_name store_type].
    split; [reflexivity|]. split; [exact Hc|]. split; [exact Ht|].
    rewrite Hn. cbn [bind]. rewrite Hf. cbn [normalized_name]. rewrite Hc. cbn [negb].
    cbn [store_type]. rewrite Ht. reflexivity.
  - pose proof (ensure_normalized_name_truthy st) as Hnn.
    set (st2 := ensure_normalized_name st) in *.
    assert (Hname : name st2 = name st).
    { unfold st2, ensure_normalized_name. destruct (negb _); reflexivity. }
    destruct (truthy (store_type st2)) eqn:Ht; cbn [negb].
    + exists st2. split; [reflexivity|]. split; [exact Hname|].
      split; [exact Hnn|]. split; [exact Ht|].
      rewrite Hname, Hn. cbn [bind].
      rewrite Hf, (ensure_normalized_name_fixed st2 Hnn), Ht.
      reflexivity.
    + eexists. split; [reflexivity|]. cbn [name normalized_name store_type].
      split; [exact Hname|]. split; [exact Hnn|]. split; [reflexivity|].
      rewrite Hname, Hn. cbn [bind]. rewrite Hf.
      unfold ensure_normalized_name. cbn [normalized_name]. rewrite Hnn. cbn [negb].
      cbn [store_type]. change (truthy (VStr (js "grocery"))) with true.
      reflexivity.
Qed.

(** X21.  [fallbackStoreEnhancement] throws exactly when the store name is
    neither a string nor [null] nor [undefined]; otherwise it leaves the
    name as it is, the store has a truthy normalized name and a truthy store
    type afterwards, and a second pass changes nothing. *)
Theorem fallbackStoreEnhancement_spec (st : Store) :
  (text_or_nullish (name st) = false -> fallbackStoreEnhancement st = Throw TypeError)
  /\ (text_or_nullish (name st) = true ->
      exists st',
        fallbackStoreEnhancement st = Ok st'
        /\ name st' = name st
        /\ truthy (normalized_name st') = true
        /\ truthy (store_type st') = true
        /\ fallbackStoreEnhancement st' = Ok st').
Proof.
  split.
  - intros H. unfold fallbackStoreEnhancement. rewrite (not_text_lowered _ H). reflexivity.
  - intros H. destruct (text_or_nullish_lowered _ H) as [n Hn].
    exact (fallbackStoreEnhancement_lowered st n Hn).
Qed.

Lemma fallbackStoreEnhancement_spec_witness :
  fallbackStoreEnhancement numeric_store = Throw TypeError
  /\ exists st', fallbackStoreEnhancement walmart_store = Ok st'
                 /\ truthy (store_type st') = true.
Proof.
  split.
  - apply (proj1 (fallbackStoreEnhancement_spec numeric_store)). reflexivity.
  - destruct (proj2 (fallbackStoreEnhancement_spec walmart_store) eq_refl)
      as (st' & H & _ & _ & Ht & _).
    exists st'. split; [exact H | exact Ht].
Defined.

Lemma fallbackStoreEnhancement_cases (st : Store) :
  fallbackStoreEnhancement st = Throw TypeError
  \/ exists st', fallbackStoreEnhancement st = Ok st'
                 /\ name st' = name st
                 /\ truthy (normalized_name st') = true
                 /\ truthy (store_type st') = true.
Proof.
  destruct (text_or_nullish (name st)) eqn:E.
  - right. destruct (text_or_nullish_lowered _ E) as [n Hn].
    destruct (fallbackStoreEnhancement_lowered st n Hn) as (st' & H1 & H2 & H3 & H4 & _).
    exists st'. repeat split; assumption.
  - left. unfold fallbackStoreEnhancement. rewrite (not_text_lowered _ E). reflexivity.
Qed.

Lemma storePrompt_spec (st : Store) :
  storePrompt st
  = if store_printable st
    then Ok (map string_form
                 [name st; location_address st; contact_phone st; contact_website st])
    else Throw TypeError.
Proof. unfold storePrompt, store_printable. apply mapM_spec. exact ToString_spec. Qed.

Lemma item_summary_spec (item : EnricherItems.Item) :
  item_summary item
  = if summary_printable item
    then Ok (string_form (EnricherItems.name item) ++ js " ("
             ++ string_form (EnricherItems.quantity item) ++ js "x $"
             ++ string_form (EnricherItems.line_total item) ++ js ")")
    else Throw TypeError.
Proof.
  unfold item_summary, summary_printable. rewrite !ToString_spec.
  destruct (convertible (EnricherItems.name item)); cbn [bind andb]; [|reflexivity].
  destruct (convertible (EnricherItems.quantity item)); cbn [bind andb]; [|reflexivity].
  destruct (convertible (EnricherItems.line_total item)); reflexivity.
Qed.

Lemma insightsPrompt_ok (result : Result) :
  insights_printable result = true -> exists p, insightsPrompt result = Ok p.
Proof.
  unfold insights_printable, insightsPrompt. intros H.
  apply andb_true_iff in H as [H Ht]. apply andb_true_iff in H as [H Hd].
  apply andb_true_iff in H as [Hi Hn].
  rewrite (mapM_spec _ _ _ item_summary_spec), Hi. cbn [bind].
  rewrite !ToString_spec, Hn, Hd, Ht. cbn [bind]. eexists. reflexivity.
Qed.

Lemma insightsPrompt_throws (result : Result) :
  insights_printable result = false -> insightsPrompt result = Throw TypeError.
Proof.
  unfold insights_printable, insightsPrompt. intros H.
  rewrite (mapM_spec _ _ _ item_summary_spec), !ToString_spec.
  destruct (forallb summary_printable (firstn 20 (items result)));
    cbn [bind]; [|reflexivity].
  destruct (convertible (name (store result))); cbn [bind]; [|reflexivity].
  destruct (convertible (transaction_date result)); cbn [bind]; [|reflexivity].
  destruct (convertible (transaction_time result)); [discriminate H | reflexivity].
Qed.

Lemma ok_injective {A : Type} (a b : A) : Ok a = Ok b -> a = b.
Proof. intros H. injection H as H. exact H. Qed.

(** The categorization leaves what the prompts print as it is. *)
Lemma categorize_keeps (item item' : EnricherItems.Item) :
  EnricherItems.categorize item = Ok item' ->
  summary_printable item' = summary_printable item.
Proof.
  unfold EnricherItems.categorize.
  destruct (EnricherItems.lowered_name (EnricherItems.name item)); [|discriminate].
  cbn [bind]. intros H. apply ok_injective in H. subst item'.
  match goal with
  | |- context [find ?f EnricherItems.categoryRules] =>
    destruct (find f EnricherItems.categoryRules) as [[c kws]|]
  end;
    match goal with
    | |- context [if ?b then _ else _] => destruct b
    end; reflexivity.
Qed.

Lemma forEach_keeps (l : list EnricherItems.Item) :
  map summary_printable (fst (EnricherItems.forEach EnricherItems.categorize l))
  = map summary_printable l.
Proof.
  induction l as [|x tl IH]; [reflexivity|].
  cbn [EnricherItems.forEach].
  destruct (EnricherItems.categorize x) as [x'|e] eqn:Hx; [|reflexivity].
  destruct (EnricherItems.forEach EnricherItems.categorize tl) as [tl' r].
  cbn [fst map] in *. rewrite IH, (categorize_keeps x x' Hx). reflexivity.
Qed.

Lemma forallb_firstn_map {A : Type} (p : A -> bool) (n : nat) :
  forall l1 l2, map p l1 = map p l2 ->
  forallb p (firstn n l1) = forallb p (firstn n l2).
Proof.
  induction n as [|n IH]; intros l1 l2 H; [reflexivity|].
  destruct l1 as [|a l1], l2 as [|b l2]; try discriminate H; [reflexivity|].
  cbn [map] in H. injection H as Hab Htl.
  cbn [firstn forallb]. rewrite Hab, (IH l1 l2 Htl). reflexivity.
Qed.

Lemma insights_printable_after (result : Result) (st' : Store) :
  name st' = name (store result) ->
  insights_printable
    (with_items (with_store result st')
       (fst (EnricherItems.fallbackItemCategorization (items result))))
  = insights_printable result.
Proof.
  intros Hname. unfold insights_printable, EnricherItems.fallbackItemCategorization.
  cbn [items with_items with_store store transaction_date transaction_time].
  rewrite Hname.
  rewrite (forallb_firstn_map summary_printable 20 _ _ (forEach_keeps (items result))).
  reflexivity.
Qed.

(** The AI branch once the store prompt has been built *)
Lemma enhance_store_printable (ap : Apply) (result : Result) :
  store_printable (store result) = true ->
  enhance true ap result
  = match fallbackStoreEnhancement (store result) with
    | Throw e => (result, Some e)
    | Ok st =>
      let r1 := with_store result st in
      let (its, thrown) :=
        EnricherItems.aiCategorizeItems true (apply_items ap) (items r1) in
      let r2 := with_items r1 its in
      match thrown with
      | Some e => (r2, Some e)
      | None =>
        match insightsPrompt r2 with
        | Throw e => (r2, Some e)
        | Ok _ => (with_insights r2 (fallbackInsightsGeneration r2), None)
        end
      end
    end.
Proof.
  intros Hst. unfold enhance, aiEnhanceStore. cbn [negb].
  rewrite storePrompt_spec, Hst. cbn [bind EnricherItems.callOpenAI negb].
  destruct (fallbackStoreEnhancement_cases (store result))
    as [Hthrow | (st' & Hok & _ & Hnn & _)].
  - rewrite Hthrow. reflexivity.
  - rewrite Hok. cbn [bind]. rewrite (ensure_normalized_name_fixed st' Hnn).
    cbv zeta.
    destruct (EnricherItems.aiCategorizeItems true (apply_items ap)
                (items (with_store result st'))) as [its [e|]]; [reflexivity|].
    unfold aiGenerateInsights. cbn [negb].
    destruct (insightsPrompt (with_items (with_store result st') its)); reflexivity.
Qed.

Lemma enhance_is_rule_based (useAI : bool) (ap : Apply) (result : Result) :
  prompts_printable result = true ->
  enhance useAI ap result = ruleBasedEnhancements result.
Proof.
  intros Hp. destruct useAI; [|reflexivity].
  unfold prompts_printable in Hp. apply andb_true_iff in Hp as [Hp Hins].
  apply andb_true_iff in Hp as [Hst Hit].
  rewrite (enhance_store_printable ap result Hst). unfold ruleBasedEnhancements.
  destruct (fallbackStoreEnhancement_cases (store result))
    as [Hthrow | (st' & Hok & Hname & Hnn & _)].
  - rewrite Hthrow. reflexivity.
  - rewrite Hok. cbv zeta.
    change (items (with_store result st')) with (items result).
    rewrite (aiCategorizeItems_fallback_items true _ _ Hit).
    pose proof (insights_printable_after result st' Hname) as Hafter.
    destruct (EnricherItems.fallbackItemCategorization (items result))
      as [its [e|]]; [reflexivity|].
    cbn [fst] in Hafter. rewrite Hins in Hafter.
    destruct (insightsPrompt_ok _ Hafter) as [p Hprompt]. rewrite Hprompt.
    cbn [with_insights with_items with_store store].
    rewrite (ensure_normalized_name_fixed st' Hnn). reflexivity.
Qed.

Lemma enhance_unprintable (ap : Apply) (result : Result) :
  prompts_printable result = false ->
  exists result', enhance true ap result = (result', Some TypeError).
Proof.
  intros Hp. unfold prompts_printable in Hp.
  destruct (store_printable (store result)) eqn:Hst.
  - rewrite (enhance_store_printable ap result Hst).
    destruct (fallbackStoreEnhancement_cases (store result))
      as [Hthrow | (st' & Hok & Hname & Hnn & _)].
    + rewrite Hthrow. eexists. reflexivity.
    + rewrite Hok. cbv zeta.
      change (items (with_store result st')) with (items result).
      destruct (forallb item_printable (items result)) eqn:Hit.
      * rewrite (aiCategorizeItems_fallback_items true _ _ Hit).
        pose proof (insights_printable_after result st' Hname) as Hafter.
        pose proof (forEach_categorize (items result)) as (_ & _ & _ & _ & He).
        unfold EnricherItems.fallbackItemCategorization in *.
        destruct (EnricherItems.forEach EnricherItems.categorize (items result))
          as [its [e|]].
        -- rewrite (He e eq_refl). eexists. reflexivity.
        -- cbn [fst andb] in *. rewrite Hp in Hafter.
           rewrite (insightsPrompt_throws _ Hafter). eexists. reflexivity.
      * pose proof (process_batches_categorized true (apply_items ap)
                      (List.length (items result)) (items result) (Nat.le_refl _))
          as (_ & _ & Hnone & _ & He).
        rewrite <- aiCategorizeItems_batches in Hnone, He.
        destruct (EnricherItems.aiCategorizeItems true (apply_items ap) (items result))
          as [its [e|]].
        -- rewrite (He e eq_refl). eexists. reflexivity.
        -- exfalso. cbn [snd] in Hnone. pose proof (proj1 Hnone eq_refl) as Hc.
           rewrite categorizable_split, Hit, andb_false_r in Hc. discriminate Hc.
  - unfold enhance, aiEnhanceStore. cbn [negb]. rewrite storePrompt_spec, Hst.
    eexists. reflexivity.
Qed.

Lemma enhance_store_unprintable (ap : Apply) (result : Result) :
  store_printable (store result) = false ->
  enhance true ap result = (result, Some TypeError).
Proof.
  intros Hst. unfold enhance, aiEnhanceStore. cbn [negb].
  rewrite storePrompt_spec, Hst. reflexivity.
Qed.

(** What an enhancement step that does not throw leaves *)
Lemma enhance_done (useAI : bool) (ap : Apply) (result result' : Result) :
  enhance useAI ap result = (result', None) ->
  exists st' its ins,
    result' = mkResult st' (transaction_date result) (financial_grand_total result)
                       its ins (quality result) (transaction_time result)
    /\ truthy (normalized_name st') = true
    /\ truthy (store_type st') = true.
Proof.
  destruct useAI.
  - destruct (store_printable (store result)) eqn:Hst;
      [|rewrite (enhance_store_unprintable ap result Hst); discriminate].
    rewrite (enhance_store_printable ap result Hst).
    destruct (fallbackStoreEnhancement_cases (store result))
      as [Hthrow | (st' & Hok & _ & Hnn & Hty)].
    + rewrite Hthrow. discriminate.
    + rewrite Hok. cbv zeta.
      destruct (EnricherItems.aiCategorizeItems true (apply_items ap)
                  (items (with_store result st'))) as [its [e|]]; [discriminate|].
      destruct (insightsPrompt (with_items (with_store result st') its));
        [|discriminate].
      intros H. injection H as <-.
      exists st', its, (fallbackInsightsGeneration (with_items (with_store result st') its)).
      split; [reflexivity|]. split; assumption.
  - unfold enhance, ruleBasedEnhancements.
    destruct (fallbackStoreEnhancement_cases (store result))
      as [Hthrow | (st' & Hok & _ & Hnn & Hty)].
    + rewrite Hthrow. discriminate.
    + rewrite Hok.
      destruct (EnricherItems.fallbackItemCategorization (items (with_store result st')))
        as [its [e|]]; [discriminate|].
      cbn [with_insights with_items with_store store].
      rewrite (ensure_normalized_name_fixed st' Hnn).
      intros H. injection H as <-.
      eexists st', its, _. split; [reflexivity|]. split; assumption.
Qed.

(** X20.  The enhancement step of [parseReceiptData] with a key
    configured.  The three AI steps build their prompts before their [try]
    blocks.  When every value that the prompts print converts to a string
    (the store name, address, phone and website; the name and the line
    total of every item; the quantity of the first twenty items; the date
    and the time), the step does not depend on the key: [callOpenAI] always
    throws, the three steps fall back to the rules, and the result, or the
    exception that ends the step, is that of [ruleBasedEnhancements].  When
    one of these values does not convert, the step ends with a
    [TypeError]; when it is a value of the store prompt, the result is
    left as it was. *)
Theorem enhance_ignores_useAI (ap : Apply) (result : Result) :
  (prompts_printable result = true ->
   enhance true ap result = enhance false ap result
   /\ enhance true ap result = ruleBasedEnhancements result)
  /\ (prompts_printable result = false ->
      exists result', enhance true ap result = (result', Some TypeError))
  /\ (store_printable (store result) = false ->
      enhance true ap result = (result, Some TypeError)).
Proof.
  split; [|split].
  - intros Hp. rewrite !(enhance_is_rule_based _ ap result Hp). split; reflexivity.
  - exact (enhance_unprintable ap result).
  - exact (enhance_store_unprintable ap result).
Qed.

Lemma enhance_ignores_useAI_witness :
  enhance true ignore_all blank_result = enhance false ignore_all blank_result
  /\ enhance true ignore_all unprintable_address_result
     = (unprintable_address_result, Some TypeError)
  /\ snd (enhance false ignore_all unprintable_address_result) = None.
Proof.
  split; [|split].
  - apply (proj1 (enhance_ignores_useAI ignore_all blank_result)). reflexivity.
  - apply (proj2 (proj2 (enhance_ignores_useAI ignore_all unprintable_address_result))).
    reflexivity.
  - vm_compute. reflexivity.
Defined.

(** X22.  After an enhancement step that does not throw, whatever the
    mode, the store has a truthy normalized name and store type, so two of
    the six completeness checks hold: the data completeness that
    [calculateQualityMetrics] stores is the percentage of two plus the
    number of the other four checks that hold, one of 33, 50, 67, 83 and
    100, and never 0 or 17. *)
Theorem completeness_after_enhancement (useAI : bool) (ap : Apply) (result result' : Result) :
  enhance useAI ap result = (result', None) ->
  AIDataParser.data_completeness (quality (score result'))
  = float_of_Z (integer_percentage (2 + true_checks (open_checks result')) 6)
  /\ In (AIDataParser.data_completeness (quality (score result'))) enhanced_completeness.
Proof.
  intros He. destruct (enhance_done useAI ap result result' He)
    as (st' & its & ins & -> & Hnn & Hty).
  unfold score. cbn [quality]. unfold AIDataParser.calculateQualityMetrics.
  rewrite count_checks_spec.
  change (List.length (AIDataParser.checks _)) with 6%nat.
  cbn [AIDataParser.quality AIDataParser.data_completeness].
  unfold AIDataParser.checks, quality_input, open_checks.
  cbn [AIDataParser.name AIDataParser.normalized_name AIDataParser.store_type
       AIDataParser.store AIDataParser.transaction_date
       AIDataParser.financial_grand_total AIDataParser.items
       store transaction_date financial_grand_total items].
  rewrite Hnn, Hty, length_map.
  change (Z.of_nat 6) with 6%Z.
  rewrite percentage_of_six.
  destruct (truthy (name st')), (truthy (transaction_date result)),
    (PrimFloat.ltb zero (financial_grand_total result)),
    (Nat.ltb 0 (List.length its));
    (split; [reflexivity | vm_compute; auto 6]).
Qed.

Lemma completeness_after_enhancement_witness :
  exists result',
    enhance true ignore_all blank_result = (result', None)
    /\ AIDataParser.data_completeness (quality (score result')) = 33%float.
Proof.
  set (r' := fst (enhance true ignore_all blank_result)).
  assert (He : enhance true ignore_all blank_result = (r', None))
    by (vm_compute; reflexivity).
  exists r'. split; [exact He|].
  destruct (completeness_after_enhancement true ignore_all blank_result r' He) as [H _].
  rewrite H. vm_compute. reflexivity.
Defined.

Lemma fold_sum_numbers (xs : list float) :
  forall a, fold_left sum_form (map VNum xs) (VNum a)
            = VNum (fold_left PrimFloat.add xs a).
Proof.
  induction xs as [|x tl IH]; intros a; [reflexivity|].
  cbn [map fold_left].
  change (sum_form (VNum a) (VNum x)) with (VNum (a + x)%float).
  apply IH.
Qed.

Lemma average_form_numbers (xs : list float) :
  average_form (map VNum xs) = float_mean xs.
Proof.
  unfold average_form, float_mean. rewrite fold_sum_numbers, length_map. reflexivity.
Qed.

Lemma confidence_calculator_cases (res : value) (default : float) :
  match present_confidences res with
  | [] => Ok default
  | _ :: _ => OCRService.average (present_confidences res)
  end
  = match present_confidences res with
    | [] => Ok default
    | _ :: _ =>
      if forallb convertible (present_confidences res)
      then Ok (average_form (present_confidences res))
      else Throw TypeError
    end.
Proof. destruct (present_confidences res); [reflexivity | apply average_spec]. Qed.

(** X15.  [calculateAverageConfidence] and the mapper's
    [calculateOverallConfidence] are the same function but for the default.
    Both throw a [TypeError] on [null] and [undefined].  On an object,
    without a confidence that is neither [null] nor [undefined] the one
    returns 0.8 and the other 0.85; with such confidences both throw a
    [TypeError] when the conversion of one of them to a primitive throws,
    and both return the same value otherwise: the left-to-right sum of the
    confidences with [+], from 0, divided by their number, which for
    confidences that are all numbers is their mean. *)
Theorem average_confidence_and_overall (tabscannerData : value) :
  (is_nullish tabscannerData = true ->
   calculateAverageConfidence tabscannerData = Throw TypeError
   /\ CustomFieldMapper.calculateOverallConfidence tabscannerData = Throw TypeError)
  /\ (is_nullish tabscannerData = false ->
      (present_confidences tabscannerData = [] ->
       calculateAverageConfidence tabscannerData = Ok DEFAULT_CONFIDENCE
       /\ CustomFieldMapper.calculateOverallConfidence tabscannerData
          = Ok CustomFieldMapper.DEFAULT_CONFIDENCE)
      /\ (present_confidences tabscannerData <> [] ->
          forallb convertible (present_confidences tabscannerData) = false ->
          calculateAverageConfidence tabscannerData = Throw TypeError
          /\ CustomFieldMapper.calculateOverallConfidence tabscannerData
             = Throw TypeError)
      /\ (present_confidences tabscannerData <> [] ->
          forallb convertible (present_confidences tabscannerData) = true ->
          calculateAverageConfidence tabscannerData
          = Ok (average_form (present_confidences tabscannerData))
          /\ CustomFieldMapper.calculateOverallConfidence tabscannerData
             = Ok (average_form (present_confidences tabscannerData)))
      /\ (forall xs,
            present_confidences tabscannerData = map VNum xs -> xs <> [] ->
            calculateAverageConfidence tabscannerData = Ok (float_mean xs)
            /\ CustomFieldMapper.calculateOverallConfidence tabscannerData
               = Ok (float_mean xs))).
Proof.
  unfold calculateAverageConfidence, CustomFieldMapper.calculateOverallConfidence.
  split.
  - intros H. rewrite !(get_nullish _ _ H). split; reflexivity.
  - intros H. rewrite !(get_ok _ _ H). cbn [bind]. fold (confidences tabscannerData).
    fold (present_confidences tabscannerData).
    rewrite !confidence_calculator_cases.
    split; [|split; [|split]].
    + intros ->. split; reflexivity.
    + intros Hne Hc. destruct (present_confidences tabscannerData) as [|v0 rest];
        [contradiction Hne; reflexivity|].
      rewrite Hc. split; reflexivity.
    + intros Hne Hc. destruct (present_confidences tabscannerData) as [|v0 rest];
        [contradiction Hne; reflexivity|].
      rewrite Hc. split; reflexivity.
    + intros xs -> Hne. destruct xs as [|x tl]; [contradiction Hne; reflexivity|].
      assert (Hc : forallb convertible (map VNum (x :: tl)) = true).
      { apply forallb_forall. intros v Hv. apply in_map_iff in Hv as (y & <- & _).
        reflexivity. }
      cbn [map] in *. rewrite Hc.
      change (VNum x :: map VNum tl) with (map VNum (x :: tl)).
      rewrite average_form_numbers. split; reflexivity.
Qed.

Lemma average_confidence_and_overall_witness :
  calculateAverageConfidence VNull = Throw TypeError
  /\ calculateAverageConfidence (VObj []) = Ok DEFAULT_CONFIDENCE
  /\ calculateAverageConfidence two_confidences = Ok 0.75%float
  /\ CustomFieldMapper.calculateOverallConfidence two_confidences = Ok 0.75%float
  /\ calculateAverageConfidence unprintable_confidence = Throw TypeError.
Proof.
  split; [|split; [|split; [|split]]].
  - apply (proj1 (average_confidence_and_overall VNull)). reflexivity.
  - apply (proj1 (proj2 (average_confidence_and_overall (VObj [])) eq_refl)).
    reflexivity.
  - apply (proj1 (proj2 (proj2 (proj2 (proj2 (average_confidence_and_overall
             two_confidences) eq_refl))) [0.5; 1]%float eq_refl ltac:(discriminate))).
  - apply (proj2 (proj2 (proj2 (proj2 (proj2 (average_confidence_and_overall
             two_confidences) eq_refl))) [0.5; 1]%float eq_refl ltac:(discriminate))).
  - apply (proj1 (proj1 (proj2 (proj2 (average_confidence_and_overall
             unprintable_confidence) eq_refl)) ltac:(discriminate) eq_refl)).
Defined.

End EnhancementFacts.

(** ** Quality scoring *)
Section QualityIdempotence.
Import AIDataParser.

(** X23.  [calculateQualityMetrics] reads nothing of what it writes: the
    completeness and the confidence it stores depend on the store, the date,
    the total, the items and the OCR confidence only, so a second call
    leaves the result as the first one made it. *)
Theorem calculateQualityMetrics_idempotent (result : ParsedData) :
  calculateQualityMetrics (calculateQualityMetrics result)
  = calculateQualityMetrics result
  /\ store (calculateQualityMetrics result) = store result
  /\ items (calculateQualityMetrics result) = items result
  /\ ocr_confidence (quality (calculateQualityMetrics result))
     = ocr_confidence (quality result).
Proof.
  unfold calculateQualityMetrics.
  destruct (count_checks (checks result)) as [completenessScore totalFields] eqn:E.
  cbn [store items quality ocr_confidence transaction_date financial_grand_total].
  unfold checks in *.
  cbn [store items quality ocr_confidence transaction_date financial_grand_total].
  rewrite E. repeat split.
Qed.

End QualityIdempotence.

(** ** The upload step *)
Section UploadFacts.
Import OCRService.

Variable upload : result value.
Variable poll : nat -> result value.

Lemma message_convertible (data : value) :
  convertible (js_or (field data "message") (VStr (js "Unknown error")))
  = convertible (field data "message").
Proof.
  unfold js_or. destruct (truthy (field data "message")) eqn:E; [reflexivity|].
  rewrite (falsy_convertible _ E). reflexivity.
Qed.

Lemma upload_token_data (data : value) :
  upload = Ok data -> is_nullish data = false ->
  upload_token upload
  = if truthy (field data "success") && truthy (field data "token")
    then Ok (field data "token")
    else if convertible (field data "message") then Throw (upload_failure data)
         else Throw TypeError.
Proof.
  intros Hu Hd. unfold upload_token, failure_of, upload_failure. rewrite Hu. cbn [bind].
  rewrite !(get_ok data _ Hd). cbn [bind].
  rewrite ToString_spec, message_convertible.
  destruct (truthy (field data "success")); cbn [bind andb].
  - destruct (truthy (field data "token")); [reflexivity|].
    destruct (convertible (field data "message")); reflexivity.
  - destruct (convertible (field data "message")); reflexivity.
Qed.

Lemma processReceipt_upload_fails (e : exn) :
  upload_token upload = Throw e -> processReceipt upload poll = (Throw e, 0%nat).
Proof. intros H. unfold processReceipt. rewrite H. reflexivity. Qed.

(** X25.  The upload step of [processReceipt].  When the request rejects,
    the call fails with that error without having asked for a result.  Of
    a response object: a truthy [success] and a truthy [token] give that
    token, and a result request follows unless the conversion of the token
    to a string throws, in which case the call fails with a [TypeError]
    before any request; any other response fails with [Upload failed: ]
    followed by its message, or by [Unknown error] when it has none, or
    with a [TypeError] when the conversion of the message to a string
    throws, and the call fails with the same error without having asked for
    a result. *)
Theorem upload_step :
  (forall e, upload = Throw e -> processReceipt upload poll = (Throw e, 0%nat))
  /\ (forall data,
        upload = Ok data -> is_nullish data = false ->
        (truthy (field data "success") && truthy (field data "token") = true ->
         upload_token upload = Ok (field data "token")
         /\ (convertible (field data "token") = true ->
             (1 <= snd (processReceipt upload poll))%nat)
         /\ (convertible (field data "token") = false ->
             processReceipt upload poll = (Throw TypeError, 0%nat)))
        /\ (truthy (field data "success") && truthy (field data "token") = false ->
            (convertible (field data "message") = true ->
             upload_token upload = Throw (upload_failure data)
             /\ processReceipt upload poll = (Throw (upload_failure data), 0%nat))
            /\ (convertible (field data "message") = false ->
                upload_token upload = Throw TypeError
                /\ processReceipt upload poll = (Throw TypeError, 0%nat)))).
Proof.
  split.
  - intros e Hu. apply processReceipt_upload_fails.
    unfold upload_token. rewrite Hu. reflexivity.
  - intros data Hu Hd. pose proof (upload_token_data data Hu Hd) as Ht.
    destruct (truthy (field data "success") && truthy (field data "token")).
    + split; [|discriminate]. intros _. split; [exact Ht|].
      rewrite (processReceipt_with_token upload poll _ Ht).
      split; intros ->; [|reflexivity].
      exact (poll_results_at_least_one poll 19 0).
    + split; [discriminate|]. intros _.
      destruct (convertible (field data "message")).
      * split; [|discriminate]. intros _. split; [exact Ht|].
        exact (processReceipt_upload_fails _ Ht).
      * split; [discriminate|]. intros _. split; [exact Ht|].
        exact (processReceipt_upload_fails _ Ht).
Qed.

End UploadFacts.

Lemma upload_step_witness :
  OCRService.processReceipt upload_refused done_without_result
  = (Throw (Error (js "Upload failed: Invalid API key")), 0%nat)
  /\ OCRService.processReceipt upload_without_token done_without_result
     = (Throw (Error (js "Upload failed: Unknown error")), 0%nat)
  /\ OCRService.processReceipt upload_refused_unprintable done_without_result
     = (Throw TypeError, 0%nat)
  /\ OCRService.processReceipt upload_with_unprintable_token done_without_result
     = (Throw TypeError, 0%nat).
Proof.
  split; [|split; [|split]].
  - apply (proj1 (proj2 (proj2 (upload_step upload_refused done_without_result)
                           _ eq_refl eq_refl) eq_refl)).
    reflexivity.
  - apply (proj1 (proj2 (proj2 (upload_step upload_without_token done_without_result)
                           _ eq_refl eq_refl) eq_refl)).
    reflexivity.
  - apply (proj2 (proj2 (proj2 (upload_step upload_refused_unprintable
                                  done_without_result)
                           _ eq_refl eq_refl) eq_refl)).
    reflexivity.
  - apply (proj1 (proj2 (upload_step upload_with_unprintable_token done_without_result)
                    _ eq_refl eq_refl)); reflexivity.
Defined.

(** ** Dates and times of the mapped record *)
Section DateFacts.
Import CustomFieldMapper.

Variable toISOString : value -> option jstring.
Variable toTimeString : value -> option jstring.



End DateFacts.


(** ** The rule-based insights *)
Section InsightFacts.
Import Enricher.

Lemma above_50_not_below_25 (t : float) :
  PrimFloat.ltb 50 t = true -> PrimFloat.ltb t 25 = false.
Proof.
  rewrite !ltb_spec.
  change (Prim2SF 50) with (S754_finite false 7036874417766400 (-47)).
  change (Prim2SF 25) with (S754_finite false 7036874417766400 (-48)).
  destruct (Prim2SF t) as [s | s | | s m e]; try destruct s; try discriminate;
    try reflexivity.
  unfold SFltb, SFcompare.
  destruct (Z.compare_spec (-47) e) as [He | He | He];
    destruct (Z.compare_spec e (-48)) as [He' | He' | He']; try lia;
    try discriminate; reflexivity.
Qed.

(** X26.  The two labels that [fallbackInsightsGeneration] derives from the
    total agree: each is one of its two or three names, and a receipt
    filed as [grocery] (a total above 50) is never filed as [budget] (a
    total below 25).  The insights depend on the total and on the number of
    items only. *)
Theorem insights_labels (result : Result) :
  In (shopping_category (fallbackInsightsGeneration result))
     [VStr (js "grocery"); VStr (js "convenience")]
  /\ In (budget_category (fallbackInsightsGeneration result))
        [VStr (js "budget"); VStr (js "moderate"); VStr (js "premium")]
  /\ (shopping_category (fallbackInsightsGeneration result) = VStr (js "grocery") ->
      budget_category (fallbackInsightsGeneration result) <> VStr (js "budget"))
  /\ (forall result',
        financial_grand_total result' = financial_grand_total result ->
        List.length (items result') = List.length (items result) ->
        fallbackInsightsGeneration result' = fallbackInsightsGeneration result).
Proof.
  unfold fallbackInsightsGeneration.
  cbn [shopping_category budget_category].
  split; [|split; [|split]].
  - destruct (PrimFloat.ltb 50 (financial_grand_total result)); cbn [In]; auto.
  - destruct (PrimFloat.ltb (financial_grand_total result) 25);
      [|destruct (PrimFloat.ltb (financial_grand_total result) 100)]; cbn [In]; auto.
  - destruct (PrimFloat.ltb 50 (financial_grand_total result)) eqn:E;
      [|intros H; discriminate H].
    rewrite (above_50_not_below_25 _ E). intros _.
    destruct (PrimFloat.ltb (financial_grand_total result) 100); discriminate.
  - intros result' -> ->. reflexivity.
Qed.

Lemma insights_labels_witness :
  budget_category (fallbackInsightsGeneration
                     (mkResult walmart_store VNull 64 [] no_insights
                               (AIDataParser.mkQuality 0.9 0 0) VNull))
  <> VStr (js "budget").
Proof.
  apply (proj1 (proj2 (proj2 (insights_labels _)))). reflexivity.
Defined.

End InsightFacts.
